(** * Combustion experiment records: the XML codec

    A shallow embedding of the decoder ([XMLParser], [validate_xml_structure])
    and of the encoder ([create_enhanced_xml]) of the combustion data manager,
    with the properties of its specification stated over the embedding.

    Conventions.
    - An XML document is the [xml.etree.ElementTree] tree the code walks: an
      element has a tag, attributes, an optional text and children.
    - Python dictionaries whose iteration order is observed (the row of a data
      point, from which pandas derives the column order) are insertion-ordered
      association lists; dictionaries that are only looked up ([property_map],
      the decoded common properties, the composition) are [gmap]s.
    - Python exceptions are the [Raise] case of [result].
    - [float()] on text is a parameter of the decoder section: floating-point
      conversion is not part of the embedding, only whether it succeeds.
    - The encoder builds a tree and hands it to the XML library for
      serialisation; that last step is a parameter of the encoder, and the
      tree it is applied to is [experiment_tree]. *)

From Stdlib Require Import String Ascii List ZArith Bool Lia.
From stdpp Require Import base option strings list gmap fin_maps pretty.

Import ListNotations.
Local Open Scope string_scope.
Local Open Scope list_scope.

(** ** Exceptions *)

Inductive exn : Type :=
| KeyError (key : string)
| ValueError
| TypeError
| ExpatError.

Inductive result (A : Type) : Type :=
| Ok (a : A)
| Raise (e : exn).

Arguments Ok {A} a.
Arguments Raise {A} e.

#[global] Instance result_ret : MRet result := fun _ a => Ok a.

#[global] Instance result_bind : MBind result := fun _ _ f m =>
  match m with
  | Ok a => f a
  | Raise e => Raise e
  end.

Definition is_ok {A} (r : result A) : bool :=
  match r with Ok _ => true | Raise _ => false end.

(** ** Python helpers *)

(** Truth value of a [str]: the empty string is false. *)
Definition truthy (s : string) : bool :=
  match s with EmptyString => false | String _ _ => true end.

(** Truth value of an optional text ([None] and the empty string are false). *)
Definition truthy_opt (t : option string) : bool :=
  match t with Some s => truthy s | None => false end.

(** [s.startswith(p)] *)
Definition startswith (p s : string) : bool := String.prefix p s.

(** [x in l] for a list of strings. *)
Definition str_in (x : string) (l : list string) : bool :=
  existsb (String.eqb x) l.

(** Truth value of a list: the empty list is false. *)
Definition nonempty {A} (l : list A) : bool :=
  match l with [] => false | _ :: _ => true end.

(** ** ElementTree *)

Unset Elimination Schemes.
Inductive Element : Type :=
  Elem { tag : string;
         attrib : list (string * string);
         text : option string;
         children : list Element }.
Set Elimination Schemes.

(** [elem.get(key)] *)
Fixpoint assoc_get {V} (l : list (string * V)) (k : string) : option V :=
  match l with
  | [] => None
  | (k', v) :: l' => if String.eqb k k' then Some v else assoc_get l' k
  end.

Definition get (e : Element) (key : string) : option string :=
  assoc_get (attrib e) key.

(** [elem.get(key, default)] *)
Definition get_default (e : Element) (key default : string) : string :=
  match get e key with Some v => v | None => default end.

(** [elem.findall(tag)]: the direct children with that tag, in order. *)
Definition findall (e : Element) (t : string) : list Element :=
  List.filter (fun c => String.eqb (tag c) t) (children e).

(** [elem.find(tag)]: the first direct child with that tag. *)
Definition find (e : Element) (t : string) : option Element :=
  head (findall e t).

(** [elem.iter()]: the element and its descendants in document order. *)
Fixpoint iter (e : Element) : list Element :=
  match e with
  | Elem _ _ _ cs => e :: flat_map iter cs
  end.

(** The descendants of [e], without [e] itself: what a path starting with
    [.//] ranges over. *)
Definition descendants (e : Element) : list Element :=
  flat_map iter (children e).

(** [elem.findall('.//tag')] *)
Definition findall_desc (e : Element) (t : string) : list Element :=
  List.filter (fun c => String.eqb (tag c) t) (descendants e).

(** [elem.find(".//tag[@key='val']")] *)
Definition find_desc_attr (e : Element) (t key val : string) : option Element :=
  head (List.filter
          (fun c => String.eqb (tag c) t &&
                    match get c key with
                    | Some v => String.eqb v val
                    | None => false
                    end)
          (descendants e)).

(** ** Insertion-ordered dictionaries *)

(** [d[k] = v]: an existing key keeps its position, a new key goes last. *)
Fixpoint dict_set {V} (d : list (string * V)) (k : string) (v : V)
  : list (string * V) :=
  match d with
  | [] => [(k, v)]
  | (k', v') :: d' =>
      if String.eqb k k' then (k, v) :: d' else (k', v') :: dict_set d' k v
  end.

Definition dict_keys {V} (d : list (string * V)) : list string := map fst d.

(** [pandas]: the column labels of [DataFrame(records)] for a list of
    dictionaries are the keys in the order in which they are first seen. *)
Definition add_unseen (acc : list string) (k : string) : list string :=
  if str_in k acc then acc else acc ++ [k].

Definition first_seen {V} (records : list (list (string * V))) : list string :=
  fold_left (fun acc r => fold_left add_unseen (dict_keys r) acc) records [].

Fixpoint index_of (c : string) (cols : list string) : option nat :=
  match cols with
  | [] => None
  | c' :: cols' =>
      if String.eqb c c' then Some 0
      else match index_of c cols' with Some i => Some (S i) | None => None end
  end.

Fixpoint mapM {A B} (f : A -> result B) (l : list A) : result (list B) :=
  match l with
  | [] => Ok []
  | a :: l' => b ← f a; bs ← mapM f l'; mret (b :: bs)
  end.

(** ** The structural validator *)

(** What [ET.parse(file_path)] gives: a tree, [ET.ParseError], or another
    exception (an unreadable file). *)
Inductive parse_outcome : Type :=
| Parsed (root : Element)
| ParseError (msg : string)
| OtherError (msg : string).

Definition required_elements : list string :=
  ["experimentType"; "apparatus"; "commonProperties"].

Definition check_required (root : Element) (errors : list string)
    (elem_name : string) : list string :=
  match find root elem_name with
  | None => errors ++ ["缺少必需元素: " +:+ elem_name]
  | Some _ => errors
  end.

Definition validate_xml_structure (doc : parse_outcome) : bool * list string :=
  match doc with
  | Parsed root =>
      let errors := fold_left (check_required root) required_elements [] in
      let datagroups := findall_desc root "dataGroup" in
      let errors :=
        if nonempty datagroups then errors else errors ++ ["没有找到数据组"] in
      (Nat.eqb (length errors) 0, errors)
  | ParseError msg => (false, ["XML解析错误: " +:+ msg])
  | OtherError msg => (false, ["验证过程出错: " +:+ msg])
  end.

(** ** The decoder *)

Section Decoder.

(** [float(s)] on a [str]: [Some x] when the text is a floating-point
    literal, [None] when Python raises [ValueError]. *)
Context {F : Type} (to_float : string -> option F).

(** The values the decoder stores: a parsed number, the integer default,
    retained text, or [None]. *)
Inductive value : Type :=
| VFloat (x : F)
| VInt (n : Z)
| VStr (s : string)
| VNone.

(** [try: value = float(t) / except: value = t].  [float(None)] raises
    [TypeError], which both call sites catch. *)
Definition coerce (t : option string) : value :=
  match t with
  | None => VNone
  | Some s => match to_float s with
              | Some x => VFloat x
              | None => VStr s
              end
  end.

(** An element text stored as it is. *)
Definition raw_text (t : option string) : value :=
  match t with None => VNone | Some s => VStr s end.

(** *** Data groups *)

Record PropInfo : Type := {
  prop_id : option string;
  prop_name : string;
  prop_label : string;
  prop_units : string;
  prop_species : option string;
  column_name : string }.

(** The body of the loop over [dg.findall('property')]. *)
Definition parse_property (prop : Element) : PropInfo :=
  let name := get_default prop "name" "" in
  let label := get_default prop "label" "" in
  let units := get_default prop "units" "" in
  match find prop "speciesLink" with
  | Some species_link =>
      let key := get_default species_link "preferredKey" "" in
      {| prop_id := get prop "id"; prop_name := name; prop_label := label;
         prop_units := units; prop_species := Some key;
         column_name := key +:+ " (" +:+ units +:+ ")" |}
  | None =>
      {| prop_id := get prop "id"; prop_name := name; prop_label := label;
         prop_units := units; prop_species := None;
         column_name :=
           if truthy label
           then (if truthy units then label +:+ " (" +:+ units +:+ ")" else label)
           else (if truthy units then name +:+ " (" +:+ units +:+ ")" else name) |}
  end.

(** [property_map[prop_id] = prop_info], in declaration order. *)
Definition build_property_map (props : list PropInfo)
  : gmap (option string) PropInfo :=
  fold_left (fun m info => <[prop_id info := info]> m) props ∅.

(** One data point: the loop over its children. *)
Definition add_field (property_map : gmap (option string) PropInfo)
    (point_data : list (string * value)) (child : Element)
  : list (string * value) :=
  match property_map !! Some (tag child) with
  | Some prop_info =>
      dict_set point_data (column_name prop_info) (coerce (text child))
  | None => point_data
  end.

Definition parse_datapoint (property_map : gmap (option string) PropInfo)
    (dp : Element) : list (string * value) :=
  fold_left (add_field property_map) (children dp) [].

Record DataFrame : Type := {
  df_columns : list string;
  df_rows : list (list (option value)) }.

(** [pd.DataFrame(records)]: the columns are the keys of the records in
    first-seen order and there is one row per record.  A cell holds what
    the record holds under the column, and is missing for a key that the
    record does not have; what pandas stores in a cell depends on the type
    it infers for the column (in a numeric column it stores NaN for a
    missing key and for the value [None] alike), which the cells here do not
    follow.  The properties below use the columns and the number of rows
    only. *)
Definition DataFrame_of_records (records : list (list (string * value)))
  : DataFrame :=
  let cols := first_seen records in
  {| df_columns := cols;
     df_rows := map (fun r => map (assoc_get r) cols) records |}.

(** [df[cols]]: the listed columns in the listed order; [KeyError] for a
    label that is not a column. *)
Definition df_getitem (df : DataFrame) (cols : list string) : result DataFrame :=
  idx ← mapM (fun c => match index_of c (df_columns df) with
                       | Some i => Ok i
                       | None => Raise (KeyError c)
                       end) cols;
  mret {| df_columns := cols;
          df_rows := map (fun r => map (fun i => nth i r None) idx) (df_rows df) |}.

Record Statistics : Type := {
  num_points : nat;
  columns : list string;
  shape : nat * nat }.

Record DataGroup : Type := {
  dg_id : string;
  dg_label : string;
  properties : list PropInfo;
  property_map : gmap (option string) PropInfo;
  datapoints : list (list (string * value));
  data_df : option DataFrame;
  statistics : option Statistics }.

(** The first loop over [column_order]. *)
Definition add_declared (pm : gmap (option string) PropInfo)
    (display_columns : list string) (acc : list string) (pid : option string)
  : list string :=
  match pm !! pid with
  | Some info =>
      if str_in (column_name info) display_columns
      then acc ++ [column_name info] else acc
  | None => acc
  end.

Definition ordered_columns (pm : gmap (option string) PropInfo)
    (column_order : list (option string)) (display_columns : list string)
  : list string :=
  let declared := fold_left (add_declared pm display_columns) column_order [] in
  fold_left add_unseen display_columns declared.

(** The body of the loop over [root.findall('.//dataGroup')]. *)
Definition parse_datagroup (dg : Element) : result DataGroup :=
  let props := map parse_property (findall dg "property") in
  let pm := build_property_map props in
  let column_order := map prop_id props in
  let data_rows :=
    List.filter nonempty (map (parse_datapoint pm) (findall dg "dataPoint")) in
  let dg_data (d : option DataFrame) (s : option Statistics) :=
    {| dg_id := get_default dg "id" ""; dg_label := get_default dg "label" "";
       properties := props; property_map := pm; datapoints := data_rows;
       data_df := d; statistics := s |} in
  if nonempty data_rows then
    let df := DataFrame_of_records data_rows in
    let display_columns :=
      List.filter (fun col => negb (startswith "_" col)) (df_columns df) in
    let ordered := ordered_columns pm column_order display_columns in
    df' ← (if nonempty ordered then df_getitem df ordered else Ok df);
    mret (dg_data (Some df')
            (Some {| num_points := length (df_rows df');
                     columns := df_columns df';
                     shape := (length (df_rows df'), length (df_columns df')) |}))
  else Ok (dg_data None None).

Definition parse_datagroups (root : Element) : result (list DataGroup) :=
  mapM parse_datagroup (findall_desc root "dataGroup").

(** *** Common properties *)

Record PropertyValue : Type := {
  pv_value : value;
  pv_units : string;
  pv_name : string }.

Record CompositionEntry : Type := {
  amount : value;
  amount_units : string }.

(** An entry of the decoded [common_properties]: a scalar property, or the
    species mapping stored under ['initial_composition']. *)
Inductive Property : Type :=
| Scalar (p : PropertyValue)
| Composition (c : gmap string CompositionEntry).

(** [key = label if label else name] *)
Definition property_key (prop : Element) : string :=
  let name := get_default prop "name" "" in
  let label := get_default prop "label" "" in
  if truthy label then label else name.

(** The body of the loop over [common_props.findall('property')]. *)
Definition property_value (prop : Element) : PropertyValue :=
  {| pv_value := match find prop "value" with
                 | Some value_elem => coerce (text value_elem)
                 | None => raw_text (text prop)
                 end;
     pv_units := get_default prop "units" "";
     pv_name := get_default prop "name" "" |}.

Definition add_property (properties : gmap string Property) (prop : Element)
  : gmap string Property :=
  <[property_key prop := Scalar (property_value prop)]> properties.

(** [float(amount.text) if amount.text else 0]; the conversion is not
    guarded, so text that is not a number raises [ValueError]. *)
Definition amount_of (t : option string) : result value :=
  match t with
  | Some s =>
      if truthy s
      then match to_float s with
           | Some x => Ok (VFloat x)
           | None => Raise ValueError
           end
      else Ok (VInt 0)
  | None => Ok (VInt 0)
  end.

(** The body of the loop over [initial_comp.findall('component')]. *)
Definition add_component (composition : gmap string CompositionEntry)
    (component : Element) : result (gmap string CompositionEntry) :=
  match find component "speciesLink", find component "amount" with
  | Some species_link, Some amount_elem =>
      a ← amount_of (text amount_elem);
      mret (<[get_default species_link "preferredKey" "" :=
                {| amount := a;
                   amount_units := get_default amount_elem "units" "" |}]>
              composition)
  | _, _ => Ok composition
  end.

Definition parse_components (components : list Element)
  : result (gmap string CompositionEntry) :=
  fold_left (fun acc component => composition ← acc;
                                  add_component composition component)
            components (Ok ∅).

Definition find_initial_composition (common_props : Element) : option Element :=
  find_desc_attr common_props "property" "name" "initial composition".

Definition parse_common_properties (root : Element)
  : result (gmap string Property) :=
  match find root "commonProperties" with
  | Some common_props =>
      let properties :=
        fold_left add_property (findall common_props "property") ∅ in
      match find_initial_composition common_props with
      | Some initial_comp =>
          composition ← parse_components (findall initial_comp "component");
          mret (<["initial_composition" := Composition composition]> properties)
      | None => Ok properties
      end
  | None => Ok ∅
  end.

End Decoder.

Arguments value F : clear implicits.
Arguments DataFrame F : clear implicits.
Arguments DataGroup F : clear implicits.
Arguments PropertyValue F : clear implicits.
Arguments CompositionEntry F : clear implicits.
Arguments Property F : clear implicits.
Arguments VInt {F} n.
Arguments VStr {F} s.
Arguments VNone {F}.

(** ** Floating-point literals

    The text [float()] accepts, for the examples: optional sign, then
    [inf], [infinity] or [nan] in any case, or decimal digits with an
    optional point and exponent; single underscores between digits;
    surrounding ASCII white space is ignored.  The value is kept as the
    literal reads, [mantissa * 10 ^ exponent], without rounding.

    This is [float()] on ASCII text only: [float()] also accepts the other
    Unicode decimal digits and white space, and rounds to a double.  It
    serves the closed examples, all of them ASCII; the theorems take the
    conversion as the parameter [to_float]. *)

Inductive pyfloat : Type :=
| Finite (negative : bool) (mantissa : N) (exponent : Z)
| Infinity (negative : bool)
| NaN.

Definition digit_of (c : ascii) : option N :=
  let n := N_of_ascii c in
  if ((48 <=? n) && (n <=? 57))%N then Some (n - 48)%N else None.

Definition is_space (c : ascii) : bool :=
  let n := N_of_ascii c in
  ((n =? 32) || ((9 <=? n) && (n <=? 13)) || ((28 <=? n) && (n <=? 31)))%N.

Definition lower (c : ascii) : ascii :=
  let n := N_of_ascii c in
  if ((65 <=? n) && (n <=? 90))%N then ascii_of_N (n + 32) else c.

Fixpoint lstrip (l : list ascii) : list ascii :=
  match l with
  | c :: l' => if is_space c then lstrip l' else l
  | [] => []
  end.

Definition strip (l : list ascii) : list ascii :=
  rev (lstrip (rev (lstrip l))).

(** The digits after a first one: a digit, or an underscore and a digit. *)
Fixpoint more_digits (l : list ascii) (acc : N) (cnt : nat)
  : N * nat * list ascii :=
  match l with
  | c :: l' =>
      match digit_of c with
      | Some d => more_digits l' (10 * acc + d)%N (S cnt)
      | None =>
          if Ascii.eqb c "_"%char then
            match l' with
            | c2 :: l'' =>
                match digit_of c2 with
                | Some d => more_digits l'' (10 * acc + d)%N (S cnt)
                | None => (acc, cnt, l)
                end
            | [] => (acc, cnt, l)
            end
          else (acc, cnt, l)
      end
  | [] => (acc, cnt, [])
  end.

Definition digitpart (l : list ascii) (acc : N) : option (N * nat * list ascii) :=
  match l with
  | c :: l' =>
      match digit_of c with
      | Some d => Some (more_digits l' (10 * acc + d)%N 1)
      | None => None
      end
  | [] => None
  end.

(** [digitpart ["."] [digitpart]] or ["." digitpart]: the mantissa, the
    number of digits after the point, and what is left. *)
Definition number (l : list ascii) : option (N * nat * list ascii) :=
  match digitpart l 0 with
  | Some (m, _, rest) =>
      match rest with
      | "."%char :: rest' =>
          match digitpart rest' m with
          | Some r => Some r
          | None => Some (m, 0, rest')
          end
      | _ => Some (m, 0, rest)
      end
  | None =>
      match l with
      | "."%char :: rest' => digitpart rest' 0
      | _ => None
      end
  end.

Definition signed (l : list ascii) : bool * list ascii :=
  match l with
  | "-"%char :: l' => (true, l')
  | "+"%char :: l' => (false, l')
  | _ => (false, l)
  end.

Definition exponent_part (l : list ascii) : option Z :=
  match l with
  | [] => Some 0%Z
  | c :: l' =>
      if Ascii.eqb (lower c) "e"%char then
        let '(neg, l'') := signed l' in
        match digitpart l'' 0 with
        | Some (e, _, []) => Some (if neg then - Z.of_N e else Z.of_N e)%Z
        | _ => None
        end
      else None
  end.

Definition py_float (s : string) : option pyfloat :=
  let '(neg, body) := signed (strip (list_ascii_of_string s)) in
  let word := string_of_list_ascii (map lower body) in
  if String.eqb word "inf" || String.eqb word "infinity" then Some (Infinity neg)
  else if String.eqb word "nan" then Some NaN
  else match number body with
       | Some (m, k, rest) =>
           match exponent_part rest with
           | Some e => Some (Finite neg m (e - Z.of_nat k))
           | None => None
           end
       | None => None
       end.

(** ** The encoder

    The draft is the session state the encoder reads: [new_exp_data]
    (with its [basic_info] and [conditions] entries), [optional_params] and
    [data_groups_new].  A dictionary key that may be missing is an [option]
    field; [d[k]] on a missing key raises [KeyError], [d.get(k, default)]
    and [k in d] do not. *)

(** The numbers of a draft, with what the encoder does to them: [str(x)],
    the truth value of [x], and [x > 0]. *)
Class Number (num : Type) : Type := {
  num_str : num -> string;
  num_bool : num -> bool;
  num_gt0 : num -> bool }.

(** Python integers. *)
#[global] Instance Z_Number : Number Z := {|
  num_str := pretty;
  num_bool := fun x => negb (x =? 0)%Z;
  num_gt0 := fun x => (0 <? x)%Z |}.

(** [d[key]] *)
Definition item {A} (key : string) (o : option A) : result A :=
  match o with Some a => Ok a | None => Raise (KeyError key) end.

(** [d.get(key, default)] *)
Definition get_or {A} (o : option A) (default : A) : A :=
  match o with Some a => a | None => default end.

(** [s.replace('_', ' ')] *)
Fixpoint replace_underscore (s : string) : string :=
  match s with
  | EmptyString => EmptyString
  | String c s' =>
      String (if Ascii.eqb c "_"%char then " "%char else c) (replace_underscore s')
  end.

(** [ET.SubElement(parent, tag).text = txt] for an element without
    attributes or children. *)
Definition text_elem (t txt : string) : Element := Elem t [] (Some txt) [].

(** The species table of the schema registry. *)
Definition COMMON_SPECIES : list (string * list (string * string)) :=
  [("CH4", [("CAS", "74-82-8"); ("chemName", "methane"); ("InChI", "1S/CH4/h1H4"); ("SMILES", "C")]);
   ("O2", [("CAS", "7782-44-7"); ("chemName", "oxygen"); ("InChI", "1S/O2/c1-2"); ("SMILES", "O=O")]);
   ("N2", [("CAS", "7727-37-9"); ("chemName", "nitrogen"); ("InChI", "1S/N2/c1-2"); ("SMILES", "N#N")]);
   ("CO", [("CAS", "630-08-0"); ("chemName", "carbon monoxide"); ("InChI", "1S/CO/c1-2"); ("SMILES", "[C-]#[O+]")]);
   ("CO2", [("CAS", "124-38-9"); ("chemName", "carbon dioxide"); ("InChI", "1S/CO2/c2-1-3"); ("SMILES", "C(=O)=O")]);
   ("H2O", [("CAS", "7732-18-5"); ("chemName", "water"); ("InChI", "1S/H2O/h1H2"); ("SMILES", "O")]);
   ("H2", [("CAS", "1333-74-0"); ("chemName", "hydrogen"); ("InChI", "1S/H2/h1H"); ("SMILES", "[H][H]")]);
   ("NH3", [("CAS", "7664-41-7"); ("chemName", "ammonia"); ("InChI", "1S/H3N/h1H3"); ("SMILES", "N")]);
   ("NO", [("CAS", "10102-43-9"); ("chemName", "nitric oxide"); ("InChI", "1S/NO/c1-2"); ("SMILES", "[N]=O")]);
   ("NO2", [("CAS", "10102-44-0"); ("chemName", "nitrogen dioxide"); ("InChI", "1S/NO2/c2-1-3"); ("SMILES", "N(=O)[O]")]);
   ("N2O", [("CAS", "10024-97-2"); ("chemName", "nitrous oxide"); ("InChI", "1S/N2O/c1-2-3"); ("SMILES", "N#[N+][O-]")]);
   ("Ar", [("CAS", "7440-37-1"); ("chemName", "argon"); ("InChI", "1S/Ar"); ("SMILES", "[Ar]")]);
   ("He", [("CAS", "7440-59-7"); ("chemName", "helium"); ("InChI", "1S/He"); ("SMILES", "[He]")])].

Section Draft.

Context {num : Type}.

(** A value the encoder only prints: a number or text. *)
Inductive dvalue : Type :=
| DNum (n : num)
| DStr (s : string).

Record Reference : Type := {
  ref_author : option string;
  ref_title : option string;
  ref_journal : option string;
  ref_year : option num;
  ref_doi : option string }.

Record BasicInfo : Type := {
  author : option string;
  doi : option string;
  exp_type : option string;
  reactor : option string;
  reference : option Reference }.

Record Quantity : Type := {
  q_value : option num;
  q_units : option string }.

Record Component : Type := {
  c_species : option string;
  c_amount : option num;
  c_units : option string;
  c_CAS : option string;
  c_chemName : option string;
  c_InChI : option string;
  c_SMILES : option string }.

Record Conditions : Type := {
  temperature : option Quantity;
  pressure : option Quantity;
  composition : option (list Component);
  reactor_params : option (list (string * num)) }.

Record Axis : Type := {
  ax_id : option string;
  ax_name : option string;
  ax_label : option string;
  ax_unit : option string;
  ax_species : option string }.

Record DraftDataGroup : Type := {
  d_id : option string;
  d_name : option string;
  d_x_axis : option Axis;
  d_y_axes : option (list Axis);
  d_columns : option (list string);
  d_data : option (list (list (string * dvalue))) }.

Record Draft : Type := {
  basic_info : option BasicInfo;
  conditions : option Conditions;
  optional_params : list (string * dvalue);
  data_groups_new : list DraftDataGroup }.

(** The empty dictionaries that [.get(key, {})] falls back to. *)
Definition no_reference : Reference :=
  {| ref_author := None; ref_title := None; ref_journal := None;
     ref_year := None; ref_doi := None |}.

Definition no_basic_info : BasicInfo :=
  {| author := None; doi := None; exp_type := None; reactor := None;
     reference := None |}.

Definition no_conditions : Conditions :=
  {| temperature := None; pressure := None; composition := None;
     reactor_params := None |}.

Context `{Number num}.

(** [str(v)] *)
Definition str (v : dvalue) : string :=
  match v with DNum n => num_str n | DStr s => s end.

(** The first three elements of the root, the same in both versions. *)
Definition file_author (b : BasicInfo) : Element :=
  text_elem "fileAuthor" (get_or (author b) "Unknown").

Definition file_doi (b : BasicInfo) : list Element :=
  match doi b with
  | Some d => if truthy d then [text_elem "fileDOI" d] else []
  | None => []
  end.

Definition experiment_type (b : BasicInfo) : Element :=
  text_elem "experimentType" (get_or (exp_type b) "").

Definition apparatus (b : BasicInfo) : Element :=
  Elem "apparatus" [] None [text_elem "kind" (get_or (reactor b) "JSR")].

End Draft.

Arguments dvalue num : clear implicits.
Arguments Reference num : clear implicits.
Arguments BasicInfo num : clear implicits.
Arguments Quantity num : clear implicits.
Arguments Component num : clear implicits.
Arguments Conditions num : clear implicits.
Arguments DraftDataGroup num : clear implicits.
Arguments Draft num : clear implicits.

(** *** The encoder of [appv1.py] *)

Module V1.
Section Encode.

Context {num : Type} `{Number num}.

(** The [bibliographyLink] block. *)
Definition bibliography (ref : Reference num) : list Element :=
  match ref_author ref, ref_title ref with
  | Some a, Some t =>
      if truthy a && truthy t then
        [Elem "bibliographyLink" [] None
           ([Elem "details" [] None
               ([text_elem "author" a; text_elem "title" t]
                ++ (match ref_journal ref with
                    | Some j => if truthy j then [text_elem "journal" j] else []
                    | None => []
                    end)
                ++ (match ref_year ref with
                    | Some y => if num_bool y then [text_elem "year" (num_str y)] else []
                    | None => []
                    end))]
            ++ (match ref_doi ref with
                | Some d => if truthy d then [text_elem "referenceDOI" d] else []
                | None => []
                end))]
      else []
  | _, _ => []
  end.

(** [if name in conditions:] the temperature or pressure property. *)
Definition quantity_property (name label : string) (q : option (Quantity num))
  : result (list Element) :=
  match q with
  | Some q =>
      units ← item "units" (q_units q);
      value ← item "value" (q_value q);
      mret [Elem "property"
              [("name", name); ("label", label); ("units", units);
               ("sourcetype", "reported")]
              None [text_elem "value" (num_str value)]]
  | None => Ok []
  end.

Definition reactor_property (p : string * num) : list Element :=
  let '(param_name, param_value) := p in
  if num_bool param_value && num_gt0 param_value then
    [Elem "property"
       [("name", replace_underscore param_name); ("sourcetype", "reported")]
       None [text_elem "value" (num_str param_value)]]
  else [].

Definition optional_property (p : string * dvalue num) : list Element :=
  let '(key, value) := p in
  if str_in key ["equivalence_ratio"; "fuel"; "oxidizer"; "diluent"] then
    [Elem "property"
       [("name", replace_underscore key); ("sourcetype", "reported")]
       None [text_elem "value" (str value)]]
  else [].

Definition optional_attrib (key : string) (o : option string)
  : list (string * string) :=
  match o with Some v => [(key, v)] | None => [] end.

Definition component (comp : Component num) : result Element :=
  species ← item "species" (c_species comp);
  let species_attrib :=
    [("preferredKey", species)]
    ++ optional_attrib "CAS" (c_CAS comp)
    ++ optional_attrib "chemName" (c_chemName comp)
    ++ optional_attrib "InChI" (c_InChI comp)
    ++ optional_attrib "SMILES" (c_SMILES comp) in
  amount ← item "amount" (c_amount comp);
  units ← item "units" (c_units comp);
  mret (Elem "component" [] None
          [Elem "speciesLink" species_attrib None [];
           Elem "amount" [("units", units)] (Some (num_str amount)) []]).

Definition initial_composition (c : option (list (Component num)))
  : result (list Element) :=
  match c with
  | Some comps =>
      if nonempty comps then
        cs ← mapM component comps;
        mret [Elem "property"
                [("name", "initial composition"); ("sourcetype", "reported")]
                None cs]
      else Ok []
  | None => Ok []
  end.

Definition common_properties (conditions : Conditions num)
    (optional : list (string * dvalue num)) : result Element :=
  temp ← quantity_property "temperature" "T" (temperature conditions);
  press ← quantity_property "pressure" "P" (pressure conditions);
  let params := flat_map reactor_property (get_or (reactor_params conditions) []) in
  let opts := flat_map optional_property optional in
  comp ← initial_composition (composition conditions);
  mret (Elem "commonProperties" [] None (temp ++ press ++ params ++ opts ++ comp)).

Definition x_property (x_info : Axis) : result Element :=
  id ← item "id" (ax_id x_info);
  name ← item "name" (ax_name x_info);
  label ← item "label" (ax_label x_info);
  unit ← item "unit" (ax_unit x_info);
  mret (Elem "property"
          [("id", id); ("name", name); ("label", label); ("units", unit);
           ("sourcetype", "digitized")] None []).

Definition species_link (y_info : Axis) : list Element :=
  match ax_species y_info with
  | Some sp =>
      if truthy sp then
        match assoc_get COMMON_SPECIES sp with
        | Some species_info =>
            [Elem "speciesLink" (("preferredKey", sp) :: species_info) None []]
        | None => []
        end
      else []
  | None => []
  end.

Definition y_property (y_info : Axis) : result Element :=
  id ← item "id" (ax_id y_info);
  name ← item "name" (ax_name y_info);
  label_default ← item "name" (ax_name y_info);
  unit ← item "unit" (ax_unit y_info);
  mret (Elem "property"
          [("id", id); ("name", name);
           ("label", get_or (ax_label y_info) label_default); ("units", unit);
           ("sourcetype", "digitized")] None (species_link y_info)).

(** One cell of a data point: [if name in row:]. *)
Definition cell (row : list (string * dvalue num)) (info : Axis)
  : result (list Element) :=
  name ← item "name" (ax_name info);
  match assoc_get row name with
  | Some v => id ← item "id" (ax_id info); mret [Elem id [] (Some (str v)) []]
  | None => Ok []
  end.

Definition data_point (x_info : Axis) (y_axes : option (list Axis))
    (row : list (string * dvalue num)) : result Element :=
  x ← cell row x_info;
  ys ← item "y_axes" y_axes;
  cells ← mapM (cell row) ys;
  mret (Elem "dataPoint" [] None (x ++ concat cells)).

Definition data_group (dg : DraftDataGroup num) : result Element :=
  id ← item "id" (d_id dg);
  name ← item "name" (d_name dg);
  x_info ← item "x_axis" (d_x_axis dg);
  x_prop ← x_property x_info;
  y_axes ← item "y_axes" (d_y_axes dg);
  y_props ← mapM y_property y_axes;
  points ← mapM (data_point x_info (d_y_axes dg)) (get_or (d_data dg) []);
  mret (Elem "dataGroup" [("id", id); ("label", name)] None
          (x_prop :: y_props ++ points)).

(** The element [root] of [create_enhanced_xml], as the function has built
    it when it comes to serialise it. *)
Definition experiment_tree (draft : Draft num) : result Element :=
  let basic := get_or (basic_info draft) no_basic_info in
  let ref := get_or (reference basic) no_reference in
  let conds := get_or (conditions draft) no_conditions in
  common ← common_properties conds (optional_params draft);
  groups ← mapM data_group (data_groups_new draft);
  mret (Elem "experiment" [] None
          ([file_author basic] ++ file_doi basic
           ++ [Elem "fileVersion" [] None
                 [text_elem "major" "1"; text_elem "minor" "0"];
               experiment_type basic; apparatus basic]
           ++ bibliography ref ++ [common] ++ groups)).

(** [create_enhanced_xml]: the tree, then
    [minidom.parseString(ET.tostring(root, encoding='unicode')).toprettyxml(indent="  ")].
    That last step is library code: it is the parameter [toprettyxml], which
    gives the text or raises (the parser raises [ExpatError] for a tree that
    is not well-formed XML, such as one with the element name [1] or with a
    control character in a text). *)
Definition create_enhanced_xml (toprettyxml : Element -> result string)
    (draft : Draft num) : result string :=
  root ← experiment_tree draft;
  toprettyxml root.

End Encode.
End V1.

(** *** The encoder of [appv2.py] *)

Module V2.
Section Encode.

Context {num : Type} `{Number num}.

Definition quantity_property (name : string) (q : option (Quantity num))
  : result (list Element) :=
  match q with
  | Some q =>
      units ← item "units" (q_units q);
      value ← item "value" (q_value q);
      mret [Elem "property" [("name", name); ("units", units)] None
              [text_elem "value" (num_str value)]]
  | None => Ok []
  end.

Definition component (comp : Component num) : result Element :=
  species ← item "species" (c_species comp);
  let species_attrib :=
    [("preferredKey", species)]
    ++ match c_CAS comp with Some v => [("CAS", v)] | None => [] end in
  amount ← item "amount" (c_amount comp);
  units ← item "units" (c_units comp);
  mret (Elem "component" [] None
          [Elem "speciesLink" species_attrib None [];
           Elem "amount" [("units", units)] (Some (num_str amount)) []]).

Definition initial_composition (c : option (list (Component num)))
  : result (list Element) :=
  match c with
  | Some comps =>
      if nonempty comps then
        cs ← mapM component comps;
        mret [Elem "property" [("name", "initial composition")] None cs]
      else Ok []
  | None => Ok []
  end.

Definition common_properties (conditions : Conditions num) : result Element :=
  temp ← quantity_property "temperature" (temperature conditions);
  press ← quantity_property "pressure" (pressure conditions);
  comp ← initial_composition (composition conditions);
  mret (Elem "commonProperties" [] None (temp ++ press ++ comp)).

(** [f'x{i+1}'] *)
Definition column_id (i : nat) : string := "x" +:+ pretty (i + 1)%nat.

(** [enumerate(columns)] *)
Definition enumerate {A} (l : list A) : list (nat * A) :=
  combine (seq 0 (length l)) l.

Definition data_point (columns : list string)
    (row : list (string * dvalue num)) : Element :=
  Elem "dataPoint" [] None
    (flat_map (fun '(i, col) =>
                 match assoc_get row col with
                 | Some v => [Elem (column_id i) [] (Some (str v)) []]
                 | None => []
                 end) (enumerate columns)).

Definition data_group (dg : DraftDataGroup num) : result Element :=
  id ← item "id" (d_id dg);
  columns ← item "columns" (d_columns dg);
  let props :=
    map (fun '(i, col) =>
           Elem "property" [("id", column_id i); ("name", col)] None [])
        (enumerate columns) in
  mret (Elem "dataGroup" [("id", id)] None
          (props ++ map (data_point columns) (get_or (d_data dg) []))).

(** The element [root] of [create_enhanced_xml], as the function has built
    it when it comes to serialise it. *)
Definition experiment_tree (draft : Draft num) : result Element :=
  let basic := get_or (basic_info draft) no_basic_info in
  let conds := get_or (conditions draft) no_conditions in
  common ← common_properties conds;
  groups ← mapM data_group (data_groups_new draft);
  mret (Elem "experiment" [] None
          ([file_author basic] ++ file_doi basic
           ++ [experiment_type basic; apparatus basic]
           ++ [common] ++ groups)).

(** [create_enhanced_xml]: the tree, then the same library step as in
    [appv1.py], the parameter [toprettyxml]. *)
Definition create_enhanced_xml (toprettyxml : Element -> result string)
    (draft : Draft num) : result string :=
  root ← experiment_tree draft;
  toprettyxml root.

End Encode.
End V2.

(** ** Notions the specification uses *)

(** An element with tag [t] is a direct child of [e]. *)
Definition has_child (e : Element) (t : string) : Prop :=
  exists c, In c (children e) /\ tag c = t.

(** An element with tag [t] lies below [e], at any depth. *)
Definition has_descendant (e : Element) (t : string) : Prop :=
  exists c, In c (descendants e) /\ tag c = t.

(** The label [c] is a key of at least one row. *)
Definition appears {V : Type} (rows : list (list (string * V))) (c : string) : bool :=
  existsb (fun r => str_in c (dict_keys r)) rows.

(** The declared properties in declaration order, each id resolved through
    the property map to the column name bound to it. *)
Definition declared_columns (pm : gmap (option string) PropInfo)
    (props : list PropInfo) : list string :=
  omap (fun info => column_name <$> pm !! prop_id info) props.

(** The declared columns that appear in a row and are displayed. *)
Definition kept_columns {V : Type} (pm : gmap (option string) PropInfo)
    (props : list PropInfo) (rows : list (list (string * V))) : list string :=
  List.filter (fun c => appears rows c && negb (startswith "_" c))
              (declared_columns pm props).

(** The column order as the specification words it: the declared columns
    that appear in a row, then the tags of data-point fields that match no
    declared id, in the order in which they are first seen. *)
Definition spec_column_order (dg : Element) : list string :=
  let props := map parse_property (findall dg "property") in
  let fields := flat_map children (findall dg "dataPoint") in
  let in_a_row c :=
    existsb (fun child =>
               existsb (fun info =>
                          bool_decide (prop_id info = Some (tag child))
                          && String.eqb (column_name info) c) props) fields in
  let undeclared child :=
    negb (existsb (fun info => bool_decide (prop_id info = Some (tag child)))
                  props) in
  List.filter in_a_row (map column_name props)
  ++ fold_left add_unseen (map tag (List.filter undeclared fields)) [].

(** *** Mandatory keys

    The keys the encoders read with [d[key]]: a draft in which they are
    present wherever the enclosing entry is present. *)

Section Mandatory.

Context {num : Type}.

Definition present {A} (o : option A) : bool :=
  match o with Some _ => true | None => false end.

Definition quantity_complete (q : option (Quantity num)) : bool :=
  match q with
  | Some q => present (q_units q) && present (q_value q)
  | None => true
  end.

Definition component_complete (c : Component num) : bool :=
  present (c_species c) && present (c_amount c) && present (c_units c).

Definition conditions_complete (c : Conditions num) : bool :=
  quantity_complete (temperature c) && quantity_complete (pressure c)
  && forallb component_complete (get_or (composition c) []).

Definition axis_complete (a : Axis) : bool :=
  present (ax_id a) && present (ax_name a) && present (ax_unit a).

Definition group_complete_v1 (dg : DraftDataGroup num) : bool :=
  present (d_id dg) && present (d_name dg)
  && match d_x_axis dg, d_y_axes dg with
     | Some x, Some ys =>
         axis_complete x && present (ax_label x) && forallb axis_complete ys
     | _, _ => false
     end.

Definition group_complete_v2 (dg : DraftDataGroup num) : bool :=
  present (d_id dg) && present (d_columns dg).

Definition mandatory_present_v1 (draft : Draft num) : bool :=
  conditions_complete (get_or (conditions draft) no_conditions)
  && forallb group_complete_v1 (data_groups_new draft).

Definition mandatory_present_v2 (draft : Draft num) : bool :=
  conditions_complete (get_or (conditions draft) no_conditions)
  && forallb group_complete_v2 (data_groups_new draft).

End Mandatory.

(** ** Sample documents *)

(** One data group with the declared columns of the specification's
    scenario and two data points. *)
Definition scenario_group : Element :=
  Elem "dataGroup" [("id", "dg1")] None
    [Elem "property" [("id", "x1"); ("name", "Temperature"); ("units", "K")] None [];
     Elem "property" [("id", "x2"); ("name", "CH4"); ("units", "mole_fraction")] None
       [Elem "speciesLink" [("preferredKey", "CH4")] None []];
     Elem "dataPoint" [] None
       [Elem "x1" [] (Some "300") []; Elem "x2" [] (Some "0.1") []];
     Elem "dataPoint" [] None
       [Elem "x1" [] (Some "350") []; Elem "x2" [] (Some "0.12") []]].

(** A data group whose only data point carries a field [foo] that no
    property declares. *)
Definition undeclared_field_group : Element :=
  Elem "dataGroup" [("id", "dg1")] None
    [Elem "property" [("id", "x1"); ("name", "T"); ("units", "K")] None [];
     Elem "dataPoint" [] None
       [Elem "x1" [] (Some "300") []; Elem "foo" [] (Some "5") []]].

(** A data group that declares a column and has no data point with a
    declared field. *)
Definition empty_group : Element :=
  Elem "dataGroup" [("id", "dg2")] None
    [Elem "property" [("id", "x1"); ("name", "T"); ("units", "K")] None [];
     Elem "dataPoint" [] None [];
     Elem "dataPoint" [] None [Elem "foo" [] (Some "5") []]].

Definition document (body : list Element) : Element :=
  Elem "experiment" [] None body.

Definition component_elem (key : string) (amount_text : option string) : Element :=
  Elem "component" [] None
    [Elem "speciesLink" [("preferredKey", key)] None [];
     Elem "amount" [("units", "mole_fraction")] amount_text []].

(** A component without an [amount] child. *)
Definition component_without_amount : Element :=
  Elem "component" [] None [Elem "speciesLink" [("preferredKey", "N2")] None []].

(** The initial-composition property, with the given components. *)
Definition composition_property (components : list Element) : Element :=
  Elem "property" [("name", "initial composition")] (Some " ") components.

Definition temperature_property : Element :=
  Elem "property" [("name", "temperature"); ("label", "T"); ("units", "K")] None
    [Elem "value" [] (Some "300") []].

(** Temperature and an initial composition, directly under
    [commonProperties]. *)
Definition sample_composition : Element :=
  composition_property
    [component_elem "CH4" (Some "0.3"); component_without_amount;
     component_elem "O2" None].

Definition sample_common_properties : Element :=
  Elem "commonProperties" [] None [temperature_property; sample_composition].

Definition composition_document : Element :=
  document [sample_common_properties].

(** The same with the initial-composition property one level further down. *)
Definition nested_common_properties : Element :=
  Elem "commonProperties" [] None
    [temperature_property;
     Elem "group" [] None [composition_property [component_elem "CH4" (Some "0.3")]]].

Definition nested_composition_document : Element :=
  document [nested_common_properties].

(** An initial-composition property that also has a [value] child. *)
Definition valued_composition_document : Element :=
  document
    [Elem "commonProperties" [] None
       [Elem "property" [("name", "initial composition")] (Some " ")
          [Elem "value" [] (Some "1") []; component_elem "CH4" (Some "0.3")]]].

(** An amount whose text is not a number. *)
Definition unparsable_amount_document : Element :=
  document
    [Elem "commonProperties" [] None
       [composition_property [component_elem "CH4" (Some "abc")]]].

(** The three required elements and no data group. *)
Definition document_without_groups : Element :=
  document
    [Elem "experimentType" [] (Some "ignition_delay") [];
     Elem "apparatus" [] None [Elem "kind" [] (Some "JSR") []];
     Elem "commonProperties" [] None []].

(** Declared properties for the column-name examples. *)
Definition species_property : Element :=
  Elem "property" [("id", "x2"); ("name", "methane"); ("units", "mole_fraction")]
    None [Elem "speciesLink" [("preferredKey", "CH4")] None []].

Definition labelled_property : Element :=
  Elem "property" [("id", "x1"); ("name", "temperature"); ("label", "T"); ("units", "K")]
    None [].

Definition bare_property : Element :=
  Elem "property" [("id", "x3"); ("name", "phi")] None [].

(** A draft with [basic_info] and [conditions] entries in which the author,
    the DOI, the reactor, the reference, the pressure and the composition
    are absent. *)
Definition sparse_draft : Draft Z :=
  {| basic_info :=
       Some {| author := None; doi := None; exp_type := Some "ignition_delay";
               reactor := None; reference := None |};
     conditions :=
       Some {| temperature := Some {| q_value := Some 300%Z; q_units := Some "K" |};
               pressure := None; composition := None; reactor_params := None |};
     optional_params := [];
     data_groups_new := [] |}.

(** A draft whose temperature entry has no units. *)
Definition draft_without_units : Draft Z :=
  {| basic_info := Some no_basic_info;
     conditions :=
       Some {| temperature := Some {| q_value := Some 300%Z; q_units := None |};
               pressure := None; composition := None; reactor_params := None |};
     optional_params := [];
     data_groups_new := [] |}.

(** ** The rest of the decoder *)

(** [s.strip()]: the white space of Python's [str.isspace], on the UTF-8
    bytes of the text. *)
Definition space1 (a : ascii) : bool := is_space a.

Definition space2 (a b : ascii) : bool :=
  let '(m, n) := (N_of_ascii a, N_of_ascii b) in
  ((m =? 194) && ((n =? 133) || (n =? 160)))%N.

Definition space3 (a b c : ascii) : bool :=
  let '(m, n, k) := (N_of_ascii a, N_of_ascii b, N_of_ascii c) in
  (((m =? 225) && (n =? 154) && (k =? 128))
   || ((m =? 226) && (n =? 128)
       && (((128 <=? k) && (k <=? 138)) || (k =? 168) || (k =? 169) || (k =? 175)))
   || ((m =? 226) && (n =? 129) && (k =? 159))
   || ((m =? 227) && (n =? 128) && (k =? 128)))%N.

(** Drop the leading white space; with [backwards] the bytes are those of
    the reversed text. *)
Fixpoint drop_spaces (backwards : bool) (l : list ascii) : list ascii :=
  match l with
  | a :: r1 =>
      if space1 a then drop_spaces backwards r1
      else match r1 with
           | b :: r2 =>
               if (if backwards then space2 b a else space2 a b)
               then drop_spaces backwards r2
               else match r2 with
                    | c :: r3 =>
                        if (if backwards then space3 c b a else space3 a b c)
                        then drop_spaces backwards r3
                        else l
                    | [] => l
                    end
           | [] => l
           end
  | [] => []
  end.

Definition py_strip (s : string) : string :=
  string_of_list_ascii
    (rev (drop_spaces true (rev (drop_spaces false (list_ascii_of_string s))))).

(** [_get_text(parent, tag)], with the default [''] of every call. *)
Definition get_text (parent : Element) (t : string) : string :=
  match find parent t with
  | Some elem =>
      match text elem with
      | Some txt => if truthy txt then py_strip txt else ""
      | None => ""
      end
  | None => ""
  end.

Record Version : Type := {
  major : string;
  minor : string }.

Record Metadata : Type := {
  md_author : string;
  md_doi : string;
  md_version : option Version;
  md_first_publication : string;
  md_last_modification : string }.

Definition parse_metadata (root : Element) : Metadata :=
  {| md_author := get_text root "fileAuthor";
     md_doi := get_text root "fileDOI";
     md_version :=
       match find root "fileVersion" with
       | Some file_version =>
           Some {| major := get_text file_version "major";
                   minor := get_text file_version "minor" |}
       | None => None
       end;
     md_first_publication := get_text root "firstPublicationDate";
     md_last_modification := get_text root "lastModificationDate" |}.

(** The apparatus dictionary: empty ([None]) without an [apparatus] element. *)
Record Apparatus : Type := {
  app_kind : string;
  app_type : string }.

Definition parse_apparatus (root : Element) : option Apparatus :=
  match find root "apparatus" with
  | Some app_elem =>
      Some {| app_kind := get_text app_elem "kind";
              app_type := get_default app_elem "type" "" |}
  | None => None
  end.

Record BibDetails : Type := {
  bib_author : string;
  bib_journal : string;
  bib_title : string;
  bib_year : string }.

Record Bibliography : Type := {
  bib_description : string;
  bib_doi : string;
  bib_details : option BibDetails }.

Definition parse_bibliography (root : Element) : option Bibliography :=
  match find root "bibliographyLink" with
  | Some bib_elem =>
      Some {| bib_description := get_text bib_elem "description";
              bib_doi := get_text bib_elem "referenceDOI";
              bib_details :=
                match find bib_elem "details" with
                | Some details =>
                    Some {| bib_author := get_text details "author";
                            bib_journal := get_text details "journal";
                            bib_title := get_text details "title";
                            bib_year := get_text details "year" |}
                | None => None
                end |}
  | None => None
  end.

Section Experiment.

Context {F : Type} (to_float : string -> option F).

Record ExperimentRecord : Type := {
  exp_metadata : Metadata;
  exp_experiment_type : string;
  exp_apparatus : option Apparatus;
  exp_bibliography : option Bibliography;
  exp_common_properties : gmap string (Property F);
  exp_datagroups : list (DataGroup F) }.

Definition parse_experiment (root : Element) : result ExperimentRecord :=
  let metadata := parse_metadata root in
  let experiment_type := get_text root "experimentType" in
  let apparatus := parse_apparatus root in
  let bibliography := parse_bibliography root in
  common_properties ← parse_common_properties to_float root;
  datagroups ← parse_datagroups to_float root;
  mret {| exp_metadata := metadata; exp_experiment_type := experiment_type;
          exp_apparatus := apparatus; exp_bibliography := bibliography;
          exp_common_properties := common_properties;
          exp_datagroups := datagroups |}.

(** What pressing the parse button of [load_experiment_file] leads to: the
    record is stored, the validation errors are shown, or the exception of
    the decoder is shown. *)
Inductive LoadOutcome : Type :=
| Loaded (exp_data : ExperimentRecord)
| Invalid (errors : list string)
| Failed (e : exn).

(** The file is validated first and decoded only when it is valid; both
    steps read the same file. *)
Definition load_experiment_file (doc : parse_outcome) : LoadOutcome :=
  match doc with
  | Parsed root =>
      let '(is_valid, errors) := validate_xml_structure (Parsed root) in
      if negb is_valid then Invalid errors
      else match parse_experiment root with
           | Ok exp_data => Loaded exp_data
           | Raise e => Failed e
           end
  | _ => Invalid (snd (validate_xml_structure doc))
  end.

(** The total of [display_experiment_summary] in [app.py] and [appv1.py]:
    the length of the table where there is one, else the number of rows. *)
Definition total_points_v1 (exp_data : ExperimentRecord) : nat :=
  fold_left (fun total_points dg =>
               match data_df dg with
               | Some df => total_points + length (df_rows df)
               | None => total_points + length (datapoints dg)
               end) (exp_datagroups exp_data) 0.

(** The total of [display_experiment_summary] in [appv2.py]. *)
Definition total_points_v2 (exp_data : ExperimentRecord) : nat :=
  list_sum (map (fun dg => length (datapoints dg)) (exp_datagroups exp_data)).

End Experiment.

Arguments ExperimentRecord F : clear implicits.
Arguments LoadOutcome F : clear implicits.
Arguments Invalid {F} errors.
Arguments Failed {F} e.

(** *** The generation gates

    [generate_xml_enhanced] enables the button that calls the encoder: in
    [appv1.py] when the basic information, the conditions and at least one
    data group are there, in [appv2.py] when the basic information and the
    conditions are there. *)

Section Gates.

Context {num : Type}.



End Gates.

(** *** Adding a species

    What the add button of [create_experimental_conditions] appends to the
    composition list, from the species, the amount, the units and (in
    [appv1.py]) the CAS number entered: nothing without a species or a
    positive amount. *)

Section AddSpecies.

Context {num : Type} `{Number num}.

(** [appv1.py]: a species of the registry takes the identifiers of the
    registry, any other species the CAS number entered, if any. *)
Definition comp_entry_v1 (species : string) (amount : num)
    (units cas_number : string) : option (Component num) :=
  if truthy species && num_gt0 amount then
    Some match assoc_get COMMON_SPECIES species with
         | Some species_info =>
             {| c_species := Some species; c_amount := Some amount;
                c_units := Some units;
                c_CAS := assoc_get species_info "CAS";
                c_chemName := assoc_get species_info "chemName";
                c_InChI := assoc_get species_info "InChI";
                c_SMILES := assoc_get species_info "SMILES" |}
         | None =>
             {| c_species := Some species; c_amount := Some amount;
                c_units := Some units;
                c_CAS := if truthy cas_number then Some cas_number else None;
                c_chemName := None; c_InChI := None; c_SMILES := None |}
         end
  else None.

(** [appv2.py]: no CAS number is entered. *)
Definition comp_entry_v2 (species : string) (amount : num) (units : string)
  : option (Component num) :=
  if truthy species && num_gt0 amount then
    Some match assoc_get COMMON_SPECIES species with
         | Some species_info =>
             {| c_species := Some species; c_amount := Some amount;
                c_units := Some units;
                c_CAS := assoc_get species_info "CAS";
                c_chemName := assoc_get species_info "chemName";
                c_InChI := assoc_get species_info "InChI";
                c_SMILES := assoc_get species_info "SMILES" |}
         | None =>
             {| c_species := Some species; c_amount := Some amount;
                c_units := Some units; c_CAS := None;
                c_chemName := None; c_InChI := None; c_SMILES := None |}
         end
  else None.

End AddSpecies.

(** ** Further samples *)

(** A document with the required elements, the sample common properties
    and the data group of the scenario. *)
Definition complete_document : Element :=
  document
    [Elem "fileAuthor" [] (Some " A. Author ") [];
     Elem "experimentType" [] (Some "ignition_delay") [];
     Elem "apparatus" [] None [Elem "kind" [] (Some "JSR") []];
     sample_common_properties; scenario_group].

(** Two declarations of the id [x1], and a data point with two fields
    [x1]. *)
Definition pressure_declaration : Element :=
  Elem "property" [("id", "x1"); ("name", "P"); ("units", "atm")] None [].

Definition repeated_point : Element :=
  Elem "dataPoint" [] None
    [Elem "x1" [] (Some "300") []; Elem "x1" [] (Some "350") []].

Definition repeated_group : Element :=
  Elem "dataGroup" [("id", "dg3")] None
    [Elem "property" [("id", "x1"); ("name", "T"); ("units", "K")] None [];
     pressure_declaration; repeated_point].

(** A data group as [appv2.py] saves it: column names and rows. *)
Definition column_group : DraftDataGroup Z :=
  {| d_id := Some "dg1"; d_name := Some "profile";
     d_x_axis := None; d_y_axes := None;
     d_columns := Some ["T"; "X"];
     d_data := Some [[("T", DNum 300%Z); ("X", DNum 1%Z)]; [("T", DNum 350%Z)]] |}.

(** A data group as [appv1.py] saves it: an X axis and Y axes. *)
Definition temperature_axis : Axis :=
  {| ax_id := Some "x1"; ax_name := Some "temperature"; ax_label := Some "T";
     ax_unit := Some "K"; ax_species := None |}.

Definition methane_axis : Axis :=
  {| ax_id := Some "x2"; ax_name := Some "methane"; ax_label := Some "X";
     ax_unit := Some "mole_fraction"; ax_species := Some "CH4" |}.

Definition axis_group : DraftDataGroup Z :=
  {| d_id := Some "dg1"; d_name := Some "profile";
     d_x_axis := Some temperature_axis; d_y_axes := Some [methane_axis];
     d_columns := Some ["temperature"; "methane"];
     d_data := Some [[("temperature", DNum 300%Z); ("methane", DNum 1%Z)]] |}.

Definition methane_component : Component Z :=
  {| c_species := Some "CH4"; c_amount := Some 1%Z;
     c_units := Some "mole_fraction"; c_CAS := Some "74-82-8";
     c_chemName := None; c_InChI := None; c_SMILES := None |}.

(** A draft with an author, conditions and the given data groups. *)
Definition sample_draft (groups : list (DraftDataGroup Z)) : Draft Z :=
  {| basic_info :=
       Some {| author := Some " A. Author "; doi := Some "10.1000/x";
               exp_type := Some "ignition_delay"; reactor := Some "PFR";
               reference := None |};
     conditions :=
       Some {| temperature := Some {| q_value := Some 300%Z; q_units := Some "K" |};
               pressure := Some {| q_value := Some 1%Z; q_units := Some "atm" |};
               composition := Some [methane_component];
               reactor_params := None |};
     optional_params := [];
     data_groups_new := groups |}.

(** * Properties *)

(** ** Lists, dictionaries and the error monad *)

Lemma head_filter_None {A} (f : A -> bool) (l : list A) :
  head (List.filter f l) = None <-> forall x, In x l -> f x = false.
Proof.
  induction l as [|a l IH]; simpl.
  - split; [intros _ x [] | reflexivity].
  - destruct (f a) eqn:Ha; simpl.
    + split; [discriminate | intros Hall].
      rewrite (Hall a) in Ha by (now left). discriminate.
    + rewrite IH. split.
      * intros Hall x [<- | Hx]; [exact Ha | now apply Hall].
      * intros Hall x Hx. apply Hall. now right.
Qed.

Lemma head_filter_Some {A} (f : A -> bool) (l : list A) (x : A) :
  head (List.filter f l) = Some x -> In x l /\ f x = true.
Proof.
  intros Hh. assert (Hin : In x (List.filter f l)).
  { destruct (List.filter f l); simpl in Hh; [discriminate |].
    injection Hh as ->. now left. }
  now apply filter_In in Hin.
Qed.

Lemma find_None (e : Element) (t : string) :
  find e t = None <-> ~ has_child e t.
Proof.
  unfold find, findall, has_child. rewrite head_filter_None. split.
  - intros Hall (c & Hc & Ht). specialize (Hall c Hc).
    rewrite <- Ht, String.eqb_refl in Hall. discriminate.
  - intros Hno c Hc. destruct (String.eqb (tag c) t) eqn:E; [|reflexivity].
    exfalso. apply Hno. exists c. split; [exact Hc | now apply String.eqb_eq].
Qed.

Lemma find_Some (e : Element) (t : string) (c : Element) :
  find e t = Some c -> In c (children e) /\ tag c = t.
Proof.
  unfold find, findall. intros Hh. apply head_filter_Some in Hh.
  destruct Hh as [Hin Ht]. split; [exact Hin | now apply String.eqb_eq].
Qed.

Lemma find_is_Some (e : Element) (t : string) :
  (exists c, find e t = Some c) <-> has_child e t.
Proof.
  split.
  - intros (c & Hc). exists c. now apply find_Some.
  - intros Hc. destruct (find e t) as [c|] eqn:E; [now exists c |].
    apply find_None in E. contradiction.
Qed.

Lemma findall_desc_nonempty (e : Element) (t : string) :
  nonempty (findall_desc e t) = true <-> has_descendant e t.
Proof.
  unfold findall_desc, has_descendant. split.
  - destruct (List.filter _ _) as [|c l] eqn:E; [discriminate |]. intros _.
    assert (Hin : In c (List.filter (fun c => String.eqb (tag c) t) (descendants e)))
      by (rewrite E; now left).
    apply filter_In in Hin. exists c.
    split; [tauto | now apply String.eqb_eq].
  - intros (c & Hc & Ht).
    assert (Hin : In c (List.filter (fun c => String.eqb (tag c) t) (descendants e))).
    { apply filter_In. split; [exact Hc | now apply String.eqb_eq]. }
    destruct (List.filter _ _); [destruct Hin | reflexivity].
Qed.

Lemma mapM_Ok_In {A B} (f : A -> result B) (l : list A) (bs : list B) (b : B) :
  mapM f l = Ok bs -> In b bs -> exists a, In a l /\ f a = Ok b.
Proof.
  revert bs. induction l as [|a l IH]; simpl; intros bs Hm Hin.
  - injection Hm as <-. destruct Hin.
  - unfold mbind, result_bind in Hm. destruct (f a) as [b0|] eqn:Ha; [|discriminate].
    destruct (mapM f l) as [bs0|] eqn:Hl; [|discriminate].
    injection Hm as <-. destruct Hin as [<- | Hin].
    + exists a. split; [now left | exact Ha].
    + destruct (IH bs0 eq_refl Hin) as (a' & Ha' & Hf).
      exists a'. split; [now right | exact Hf].
Qed.

Lemma mapM_total {A B} (f : A -> result B) (l : list A) :
  (forall a, In a l -> exists b, f a = Ok b) -> exists bs, mapM f l = Ok bs.
Proof.
  induction l as [|a l IH]; simpl; intros Hall.
  - now exists [].
  - destruct (Hall a (or_introl eq_refl)) as (b & Hb).
    destruct IH as (bs & Hbs); [intros; apply Hall; now right |].
    exists (b :: bs). unfold mbind, result_bind. now rewrite Hb, Hbs.
Qed.

Lemma mapM_length {A B} (f : A -> result B) (l : list A) (bs : list B) :
  mapM f l = Ok bs -> length bs = length l.
Proof.
  revert bs. induction l as [|a l IH]; simpl; intros bs Hm.
  - now injection Hm as <-.
  - unfold mbind, result_bind in Hm. destruct (f a); [|discriminate].
    destruct (mapM f l) as [bs0|]; [|discriminate].
    injection Hm as <-. simpl. now rewrite (IH bs0 eq_refl).
Qed.

(** ** Column names *)

Lemma append_empty_r (s : string) : s +:+ "" = s.
Proof.
  induction s as [|c s IH]; [reflexivity |].
  change (String c (s +:+ "") = String c s). now f_equal.
Qed.

Lemma get_default_of_get (e : Element) (key default v : string) :
  get e key = Some v -> get_default e key default = v.
Proof. unfold get_default. now intros ->. Qed.

(** C1. The column name of a declared property: with a species link it is
    the preferred key followed by the units in parentheses; otherwise it is
    the label when there is one, else the name, followed by the units in
    parentheses unless the units are empty.  In particular: key CH4 with
    units mole_fraction gives CH4 (mole_fraction); label T with units K and
    no species link gives T (K); no label and no units gives the name. *)
Theorem C1_column_name_derivation (prop : Element) :
  let name := get_default prop "name" "" in
  let label := get_default prop "label" "" in
  let units := get_default prop "units" "" in
  column_name (parse_property prop) =
    match find prop "speciesLink" with
    | Some species_link =>
        get_default species_link "preferredKey" "" +:+ " (" +:+ units +:+ ")"
    | None =>
        (if truthy label then label else name)
        +:+ (if truthy units then " (" +:+ units +:+ ")" else "")
    end
  /\ (forall species_link,
        find prop "speciesLink" = Some species_link ->
        get species_link "preferredKey" = Some "CH4" ->
        get prop "units" = Some "mole_fraction" ->
        column_name (parse_property prop) = "CH4 (mole_fraction)")
  /\ (find prop "speciesLink" = None ->
      get prop "label" = Some "T" -> get prop "units" = Some "K" ->
      column_name (parse_property prop) = "T (K)")
  /\ (find prop "speciesLink" = None -> label = "" -> units = "" ->
      column_name (parse_property prop) = name).
Proof.
  cbv zeta. repeat split.
  - unfold parse_property. destruct (find prop "speciesLink"); simpl; [reflexivity |].
    destruct (truthy (get_default prop "label" "")),
             (truthy (get_default prop "units" ""));
      now rewrite ?append_empty_r.
  - intros sl Hsl Hkey Hunits. unfold parse_property. rewrite Hsl. simpl.
    now rewrite (get_default_of_get _ _ _ _ Hkey), (get_default_of_get _ _ _ _ Hunits).
  - intros Hsl Hlabel Hunits. unfold parse_property. rewrite Hsl. simpl.
    now rewrite (get_default_of_get _ _ _ _ Hlabel), (get_default_of_get _ _ _ _ Hunits).
  - intros Hsl Hlabel Hunits. unfold parse_property. rewrite Hsl. simpl.
    now rewrite Hlabel, Hunits.
Qed.

(** With a species link the parentheses are written even for empty units. *)
Example species_column_without_units :
  column_name (parse_property
    (Elem "property" [("id", "x2"); ("name", "CH4")] None
       [Elem "speciesLink" [("preferredKey", "CH4")] None []])) = "CH4 ()".
Proof. reflexivity. Qed.

(** ** The structural validator *)

Lemma validate_parsed (root : Element) :
  validate_xml_structure (Parsed root) =
    let missing t :=
      match find root t with None => ["缺少必需元素: " +:+ t] | Some _ => [] end in
    let errors :=
      missing "experimentType" ++ missing "apparatus" ++ missing "commonProperties"
      ++ (if nonempty (findall_desc root "dataGroup") then [] else ["没有找到数据组"]) in
    (Nat.eqb (length errors) 0, errors).
Proof.
  unfold validate_xml_structure, required_elements, check_required. simpl.
  destruct (find root "experimentType"), (find root "apparatus"),
           (find root "commonProperties"),
           (nonempty (findall_desc root "dataGroup")); reflexivity.
Qed.

(** C3. On a parsed document the validator answers ok exactly when
    experimentType, apparatus and commonProperties are children of the root
    and a dataGroup element lies below the root at some depth; when it
    answers not ok the error list is not empty; with the three elements
    present and no dataGroup the only error is the no-data-groups message;
    on a document that does not parse it returns not ok with the single
    parse-failure message. *)
Theorem C3_validate_structure (root : Element) :
  let required :=
    has_child root "experimentType" /\ has_child root "apparatus"
    /\ has_child root "commonProperties" in
  (fst (validate_xml_structure (Parsed root)) = true
     <-> required /\ has_descendant root "dataGroup")
  /\ (fst (validate_xml_structure (Parsed root)) = false ->
      snd (validate_xml_structure (Parsed root)) <> [])
  /\ (required -> ~ has_descendant root "dataGroup" ->
      validate_xml_structure (Parsed root) = (false, ["没有找到数据组"]))
  /\ (forall msg, validate_xml_structure (ParseError msg)
                  = (false, ["XML解析错误: " +:+ msg]))
  /\ (forall msg, validate_xml_structure (OtherError msg)
                  = (false, ["验证过程出错: " +:+ msg])).
Proof.
  cbv zeta. rewrite validate_parsed. cbv zeta.
  rewrite <- !find_is_Some, <- findall_desc_nonempty.
  destruct (find root "experimentType") as [e1|] eqn:E1,
           (find root "apparatus") as [e2|] eqn:E2,
           (find root "commonProperties") as [e3|] eqn:E3,
           (nonempty (findall_desc root "dataGroup")) eqn:E4; simpl;
    (split; [split; [try discriminate; eauto 10
                    | intros [((? & ?) & (? & ?) & (? & ?)) ?]; congruence]
            | split; [try discriminate; congruence
                     | split; [intros ((? & ?) & (? & ?) & (? & ?)) ?;
                               try congruence; try reflexivity
                              | split; reflexivity]]]).
Qed.

(** ** Dictionaries and column lists *)

Lemma str_in_In (x : string) (l : list string) : str_in x l = true <-> In x l.
Proof.
  unfold str_in. rewrite existsb_exists. split.
  - intros (y & Hy & Heq). apply String.eqb_eq in Heq. now subst.
  - intros Hx. exists x. split; [exact Hx | apply String.eqb_refl].
Qed.

Lemma str_in_false (x : string) (l : list string) :
  str_in x l = false <-> ~ In x l.
Proof.
  rewrite <- str_in_In. destruct (str_in x l); split; intros; congruence.
Qed.

Lemma add_unseen_In (acc : list string) (k x : string) :
  In x (add_unseen acc k) <-> In x acc \/ x = k.
Proof.
  unfold add_unseen. destruct (str_in k acc) eqn:E.
  - apply str_in_In in E. split; [tauto | intros [H | ->]; assumption].
  - rewrite in_app_iff. simpl. split.
    + intros [H | [H | []]]; auto.
    + intros [H | H]; auto.
Qed.

Lemma fold_add_unseen_In (ks acc : list string) (x : string) :
  In x (fold_left add_unseen ks acc) <-> In x acc \/ In x ks.
Proof.
  revert acc. induction ks as [|k ks IH]; simpl; intros acc.
  - tauto.
  - rewrite IH, add_unseen_In. split; intros H; intuition (subst; auto).
Qed.

(** Appending the labels that are already there changes nothing. *)
Lemma fold_add_unseen_seen (ks acc : list string) :
  (forall k, In k ks -> In k acc) -> fold_left add_unseen ks acc = acc.
Proof.
  induction ks as [|k ks IH]; simpl; intros Hall; [reflexivity |].
  unfold add_unseen at 2. rewrite (proj2 (str_in_In k acc)) by (apply Hall; now left).
  apply IH. intros k' Hk'. apply Hall. now right.
Qed.

Lemma first_seen_In {V} (records : list (list (string * V))) (x : string) :
  In x (first_seen records) <-> exists r, In r records /\ In x (dict_keys r).
Proof.
  unfold first_seen.
  assert (Hgen : forall acc,
    In x (fold_left (fun acc r => fold_left add_unseen (dict_keys r) acc) records acc)
    <-> In x acc \/ exists r, In r records /\ In x (dict_keys r)).
  { induction records as [|r rs IH]; simpl; intros acc.
    - split; [tauto | intros [H | (r & [] & _)]; exact H].
    - rewrite IH, fold_add_unseen_In. split.
      + intros [[H | H] | (r' & Hr' & Hx)]; eauto 6.
      + intros [H | (r' & [<- | Hr'] & Hx)]; eauto 6. }
  rewrite Hgen. simpl. split; [intros [[] | H]; exact H | now right].
Qed.

Lemma dict_set_keys {V} (d : list (string * V)) (k : string) (v : V) (x : string) :
  In x (dict_keys (dict_set d k v)) <-> x = k \/ In x (dict_keys d).
Proof.
  induction d as [|[k' v'] d IH]; simpl.
  - split; intros [H | H]; auto.
  - destruct (String.eqb k k') eqn:E; simpl.
    + apply String.eqb_eq in E. subst k'. split; intros H; intuition auto.
    + rewrite IH. split; intros H; intuition auto.
Qed.

Lemma index_of_nth {A} (f : string -> A) (d : A) (cols : list string) (c : string) (i : nat) :
  index_of c cols = Some i -> nth i (map f cols) d = f c.
Proof.
  revert i. induction cols as [|c' cols IH]; simpl; intros i Hi; [discriminate |].
  destruct (String.eqb c c') eqn:E.
  - apply String.eqb_eq in E. subst. now injection Hi as <-.
  - destruct (index_of c cols) as [j|]; [|discriminate].
    injection Hi as <-. now apply IH.
Qed.

Lemma index_of_In (cols : list string) (c : string) :
  In c cols -> exists i, index_of c cols = Some i.
Proof.
  induction cols as [|c' cols IH]; simpl; intros Hin; [destruct Hin |].
  destruct (String.eqb c c') eqn:E; [now exists 0 |].
  destruct Hin as [-> | Hin]; [rewrite String.eqb_refl in E; discriminate |].
  destruct (IH Hin) as (i & ->). now exists (S i).
Qed.

(** ** Data groups *)

Section DataGroups.

Context {F : Type} (to_float : string -> option F).

Lemma build_property_map_lookup (props : list PropInfo) (k : option string)
    (info : PropInfo) :
  build_property_map props !! k = Some info -> In info props /\ prop_id info = k.
Proof.
  unfold build_property_map.
  assert (Hgen : forall m : gmap (option string) PropInfo,
    fold_left (fun m info => <[prop_id info := info]> m) props m !! k = Some info ->
    (In info props /\ prop_id info = k) \/ m !! k = Some info).
  { induction props as [|p ps IH]; simpl; intros m Hm; [now right |].
    destruct (IH _ Hm) as [[Hin Hk] | Hl]; [left; auto |].
    destruct (decide (prop_id p = k)) as [<- | Hne].
    - rewrite lookup_insert_eq in Hl. injection Hl as <-. left. auto.
    - rewrite lookup_insert_ne in Hl by exact Hne. now right. }
  intros Hm. destruct (Hgen _ Hm) as [H | H]; [exact H |].
  rewrite lookup_empty in H. discriminate.
Qed.

Lemma build_property_map_declared (props : list PropInfo) (info : PropInfo) :
  In info props -> is_Some (build_property_map props !! prop_id info).
Proof.
  unfold build_property_map.
  assert (Hgen : forall m : gmap (option string) PropInfo,
    In info props \/ is_Some (m !! prop_id info) ->
    is_Some (fold_left (fun m info => <[prop_id info := info]> m) props m
               !! prop_id info)).
  { induction props as [|p ps IH]; simpl; intros m [Hin | Hm]; try apply IH.
    - destruct Hin.
    - exact Hm.
    - destruct Hin as [-> | Hin]; [right | now left].
      rewrite lookup_insert_eq. eauto.
    - right. destruct (decide (prop_id p = prop_id info)) as [-> | Hne].
      + rewrite lookup_insert_eq. eauto.
      + now rewrite lookup_insert_ne. }
  intros Hin. apply Hgen. now left.
Qed.

(** With distinct ids every declared property is the one its id is bound to. *)
Lemma build_property_map_NoDup (props : list PropInfo) (info : PropInfo) :
  NoDup (map prop_id props) -> In info props ->
  build_property_map props !! prop_id info = Some info.
Proof.
  intros Hnd Hin.
  destruct (build_property_map_declared props info Hin) as (info' & Hl).
  rewrite Hl. f_equal.
  apply build_property_map_lookup in Hl. destruct Hl as [Hin' Hid].
  clear - Hnd Hin Hin' Hid.
  induction props as [|p ps IH]; [destruct Hin |].
  simpl in Hnd. apply NoDup_cons in Hnd. destruct Hnd as [Hp Hnd].
  assert (Hmem : forall q, In q ps -> prop_id q ∈ map prop_id ps).
  { intros q Hq. apply list_elem_of_In, in_map, Hq. }
  destruct Hin as [-> | Hin], Hin' as [-> | Hin']; auto.
  - exfalso. apply Hp. rewrite <- Hid. now apply Hmem.
  - exfalso. apply Hp. rewrite Hid. now apply Hmem.
Qed.

(** A field whose tag is not a declared id leaves the row as it is. *)
Lemma add_field_undeclared (props : list PropInfo)
    (row : list (string * value F)) (child : Element) :
  (forall info, In info props -> prop_id info <> Some (tag child)) ->
  add_field to_float (build_property_map props) row child = row.
Proof.
  intros Hno. unfold add_field.
  destruct (build_property_map props !! Some (tag child)) as [info|] eqn:E;
    [|reflexivity].
  apply build_property_map_lookup in E. destruct E as [Hin Hid].
  exfalso. exact (Hno info Hin Hid).
Qed.

(** Every key of a row is the column name bound to the tag of a field. *)
Lemma parse_datapoint_keys (pm : gmap (option string) PropInfo) (dp : Element)
    (c : string) :
  In c (dict_keys (parse_datapoint to_float pm dp)) ->
  exists child info, In child (children dp)
    /\ pm !! Some (tag child) = Some info /\ column_name info = c.
Proof.
  unfold parse_datapoint.
  assert (Hgen : forall fields row,
    In c (dict_keys (fold_left (add_field to_float pm) fields row)) ->
    In c (dict_keys row) \/
    exists child info, In child fields
      /\ pm !! Some (tag child) = Some info /\ column_name info = c).
  { induction fields as [|f fs IH]; simpl; intros row Hc; [now left |].
    destruct (IH _ Hc) as [Hrow | (child & info & Hin & Hl & Hn)].
    - unfold add_field in Hrow.
      destruct (pm !! Some (tag f)) as [info|] eqn:E; [|now left].
      apply dict_set_keys in Hrow. destruct Hrow as [-> | Hrow]; [|now left].
      right. exists f, info. auto.
    - right. exists child, info. auto. }
  intros Hc. destruct (Hgen _ _ Hc) as [[] | H]. exact H.
Qed.

Lemma fold_add_declared (pm : gmap (option string) PropInfo)
    (display : list string) (props : list PropInfo) (acc : list string) :
  fold_left (add_declared pm display) (map prop_id props) acc
  = acc ++ List.filter (fun c => str_in c display) (declared_columns pm props).
Proof.
  revert acc. induction props as [|p ps IH]; simpl; intros acc.
  - now rewrite app_nil_r.
  - rewrite IH. unfold add_declared, declared_columns. simpl.
    destruct (pm !! prop_id p) as [info|]; simpl; [|reflexivity].
    destruct (str_in (column_name info) display); [|reflexivity].
    now rewrite <- app_assoc.
Qed.

Lemma str_in_display {V : Type} (rows : list (list (string * V))) (c : string) :
  str_in c (List.filter (fun col => negb (startswith "_" col)) (first_seen rows))
  = appears rows c && negb (startswith "_" c).
Proof.
  apply eq_true_iff_eq.
  rewrite str_in_In, filter_In, first_seen_In, andb_true_iff.
  unfold appears. rewrite existsb_exists.
  split; intros [(r & Hr & Hc) Hn]; (split; [exists r; split; [exact Hr|] | exact Hn]).
  - now apply str_in_In.
  - now apply str_in_In.
Qed.

Lemma filter_str_in_display {V : Type} (pm : gmap (option string) PropInfo)
    (props : list PropInfo) (rows : list (list (string * V))) :
  List.filter
    (fun c => str_in c (List.filter (fun col => negb (startswith "_" col))
                                    (first_seen rows)))
    (declared_columns pm props)
  = kept_columns pm props rows.
Proof. unfold kept_columns. apply filter_ext. intros c. apply str_in_display. Qed.

(** Every label of the frame built from the rows of a data group is a
    declared column, so the loop over the remaining labels adds nothing. *)
Lemma display_columns_declared (props : list PropInfo) (dps : list Element)
    (c : string) :
  let pm := build_property_map props in
  let rows := List.filter nonempty (map (parse_datapoint to_float pm) dps) in
  In c (List.filter (fun col => negb (startswith "_" col)) (first_seen rows)) ->
  In c (kept_columns pm props rows).
Proof.
  intros pm rows Hc. unfold kept_columns. apply filter_In. split.
  - apply filter_In in Hc. destruct Hc as [Hc _].
    apply first_seen_In in Hc. destruct Hc as (r & Hr & Hc).
    apply filter_In in Hr. destruct Hr as [Hr _].
    apply in_map_iff in Hr. destruct Hr as (dp & <- & _).
    apply parse_datapoint_keys in Hc. destruct Hc as (child & info & _ & Hl & <-).
    destruct (build_property_map_lookup _ _ _ Hl) as [Hin Hid].
    unfold declared_columns. apply list_elem_of_In, list_elem_of_omap.
    exists info. split; [now apply list_elem_of_In |].
    fold pm. rewrite Hid, Hl. reflexivity.
  - rewrite <- str_in_display. now apply str_in_In.
Qed.

Lemma df_getitem_records (rows : list (list (string * value F))) (cols : list string) :
  (forall c, In c cols -> In c (first_seen rows)) ->
  df_getitem (DataFrame_of_records rows) cols
  = Ok {| df_columns := cols;
          df_rows := map (fun r => map (assoc_get r) cols) rows |}.
Proof.
  intros Hsub. unfold df_getitem, DataFrame_of_records. simpl.
  set (all := first_seen rows) in *.
  assert (Hidx : exists idx,
    mapM (fun c => match index_of c all with
                   | Some i => Ok i
                   | None => Raise (KeyError c)
                   end) cols = Ok idx
    /\ forall r : list (string * value F),
         map (fun i => nth i (map (assoc_get r) all) None) idx
         = map (assoc_get r) cols).
  { clear - Hsub. induction cols as [|c cs IH]; simpl.
    - exists []. split; reflexivity.
    - destruct (index_of_In all c (Hsub c (or_introl eq_refl))) as (i & Hi).
      destruct IH as (idx & Hm & Hnth); [intros; apply Hsub; now right |].
      exists (i :: idx). unfold mbind, result_bind. rewrite Hi, Hm.
      split; [reflexivity |]. intros r. simpl.
      now rewrite Hnth, (index_of_nth (assoc_get r) None all c i Hi). }
  destruct Hidx as (idx & -> & Hnth). unfold mbind, result_bind, mret, result_ret.
  do 2 f_equal. rewrite map_map. apply map_ext. intros r. apply Hnth.
Qed.

(** What decoding one data group gives, in closed form. *)
Lemma parse_datagroup_spec (dg : Element) :
  let props := map parse_property (findall dg "property") in
  let pm := build_property_map props in
  let rows :=
    List.filter nonempty (map (parse_datapoint to_float pm) (findall dg "dataPoint")) in
  let kept := kept_columns pm props rows in
  let df :=
    if nonempty kept
    then {| df_columns := kept;
            df_rows := map (fun r => map (assoc_get r) kept) rows |}
    else DataFrame_of_records rows in
  parse_datagroup to_float dg
  = Ok {| dg_id := get_default dg "id" ""; dg_label := get_default dg "label" "";
          properties := props; property_map := pm; datapoints := rows;
          data_df := if nonempty rows then Some df else None;
          statistics :=
            if nonempty rows
            then Some {| num_points := length rows;
                         columns := df_columns df;
                         shape := (length rows, length (df_columns df)) |}
            else None |}.
Proof.
  intros props pm rows kept df. unfold parse_datagroup.
  fold props. fold pm. fold rows.
  destruct (nonempty rows) eqn:Hrows; [|reflexivity].
  assert (Hord : ordered_columns pm (map prop_id props)
                   (List.filter (fun col => negb (startswith "_" col))
                                (df_columns (DataFrame_of_records rows))) = kept).
  { unfold ordered_columns. rewrite fold_add_declared. simpl.
    rewrite filter_str_in_display. fold kept.
    apply fold_add_unseen_seen. intros c Hc.
    now apply display_columns_declared. }
  rewrite Hord. subst df. destruct (nonempty kept) eqn:Hkept.
  - rewrite df_getitem_records.
    + unfold mbind, result_bind, mret, result_ret. simpl.
      now rewrite !length_map.
    + intros c Hc. unfold kept, kept_columns in Hc. apply filter_In in Hc.
      destruct Hc as [_ Hc]. apply andb_true_iff in Hc. destruct Hc as [Hc _].
      rewrite first_seen_In. unfold appears in Hc. apply existsb_exists in Hc.
      destruct Hc as (r & Hr & Hc). exists r. split; [exact Hr | now apply str_in_In].
  - unfold mbind, result_bind, mret, result_ret. simpl.
    now rewrite !length_map.
Qed.

End DataGroups.

(** ** The decoded data groups *)

Section DecodedDataGroups.

Context {F : Type} (to_float : string -> option F).

(** Decoding the data groups never raises. *)
Lemma parse_datagroups_total (root : Element) :
  exists dgs, parse_datagroups to_float root = Ok dgs.
Proof.
  apply mapM_total. intros dg _. eexists. apply parse_datagroup_spec.
Qed.

Lemma parse_datagroups_In (root : Element) (dgs : list (DataGroup F))
    (dg : DataGroup F) :
  parse_datagroups to_float root = Ok dgs -> In dg dgs ->
  exists e, In e (findall_desc root "dataGroup")
            /\ parse_datagroup to_float e = Ok dg.
Proof. apply mapM_Ok_In. Qed.

Lemma omap_all_Some {A B} (f : A -> option B) (g : A -> B) (l : list A) :
  (forall x, In x l -> f x = Some (g x)) -> omap f l = map g l.
Proof.
  induction l as [|a l IH]; intros Hall; [reflexivity |].
  cbn. rewrite (Hall a) by now left. f_equal. apply IH.
  intros x Hx. apply Hall. now right.
Qed.

(** C2, as the code has it.  The columns of the table are the declared
    properties in declaration order (each id resolved through the property
    map), restricted to the columns that appear in at least one row and do
    not start with an underscore; when that leaves no column the first-seen
    order of the row keys is kept.  With distinct ids the resolved columns
    are the declared column names themselves.  Nothing follows the declared
    columns: every column of the table is the column name of a declared
    property, because a data-point field whose tag is no declared id is
    dropped when the row is built. *)
Theorem C2_column_order (root : Element) (dgs : list (DataGroup F))
    (dg : DataGroup F) (df : DataFrame F) :
  parse_datagroups to_float root = Ok dgs -> In dg dgs ->
  data_df dg = Some df ->
  let kept := kept_columns (property_map dg) (properties dg) (datapoints dg) in
  df_columns df = (if nonempty kept then kept else first_seen (datapoints dg))
  /\ (NoDup (map prop_id (properties dg)) ->
      declared_columns (property_map dg) (properties dg)
      = map column_name (properties dg))
  /\ (forall c, In c (df_columns df) ->
      exists info, In info (properties dg) /\ column_name info = c)
  /\ (forall row child,
      (forall info, In info (properties dg) -> prop_id info <> Some (tag child)) ->
      add_field to_float (property_map dg) row child = row).
Proof.
  intros Hdgs Hin Hdf.
  destruct (parse_datagroups_In _ _ _ Hdgs Hin) as (e & _ & He).
  rewrite parse_datagroup_spec in He. injection He as <-. simpl in *.
  set (props := map parse_property (findall e "property")) in *.
  set (pm := build_property_map props) in *.
  set (rows := List.filter nonempty
                 (map (parse_datapoint to_float pm) (findall e "dataPoint"))) in *.
  destruct (nonempty rows); [|discriminate]. injection Hdf as <-.
  repeat split.
  - now destruct (nonempty (kept_columns pm props rows)).
  - intros Hnd. apply omap_all_Some. intros info Hinfo.
    unfold pm. now rewrite build_property_map_NoDup.
  - intros c Hc.
    assert (Hpm : exists k info, pm !! k = Some info /\ column_name info = c).
    { destruct (nonempty (kept_columns pm props rows)); simpl in Hc.
      - unfold kept_columns in Hc. apply filter_In in Hc. destruct Hc as [Hc _].
        apply list_elem_of_In, list_elem_of_omap in Hc.
        destruct Hc as (info & _ & Hl).
        destruct (pm !! prop_id info) as [info'|] eqn:E; [|discriminate].
        injection Hl as <-. eauto.
      - apply first_seen_In in Hc. destruct Hc as (r & Hr & Hc).
        apply filter_In in Hr. destruct Hr as [Hr _].
        apply in_map_iff in Hr. destruct Hr as (dp & <- & _).
        apply parse_datapoint_keys in Hc.
        destruct Hc as (child & info & _ & Hl & Hn). eauto. }
    destruct Hpm as (k & info & Hl & Hn).
    apply build_property_map_lookup in Hl. exists info. tauto.
  - intros row child Hno. now apply add_field_undeclared.
Qed.

(** C5. When a decoded data group has statistics, the number of its rows
    is [num_points], and the statistics columns are the columns of its
    table, in the same order; the shape is that of the table. *)
Theorem C5_statistics_match_table (root : Element) (dgs : list (DataGroup F))
    (dg : DataGroup F) (st : Statistics) :
  parse_datagroups to_float root = Ok dgs -> In dg dgs ->
  statistics dg = Some st ->
  length (datapoints dg) = num_points st
  /\ exists df, data_df dg = Some df
       /\ columns st = df_columns df
       /\ length (df_rows df) = num_points st
       /\ shape st = (length (df_rows df), length (df_columns df)).
Proof.
  intros Hdgs Hin Hst.
  destruct (parse_datagroups_In _ _ _ Hdgs Hin) as (e & _ & He).
  rewrite parse_datagroup_spec in He. injection He as <-. simpl in *.
  destruct (nonempty _); [|discriminate]. injection Hst as <-. simpl.
  split; [reflexivity |]. eexists. split; [reflexivity |].
  destruct (nonempty (kept_columns _ _ _)); simpl; now rewrite length_map.
Qed.

(** C6. A decoded data group without surviving rows has no table and no
    statistics entry, and still lists the properties that its own element
    declares, in the order of declaration. *)
Theorem C6_no_rows_no_table (root : Element) (dgs : list (DataGroup F))
    (dg : DataGroup F) :
  parse_datagroups to_float root = Ok dgs -> In dg dgs ->
  datapoints dg = [] ->
  data_df dg = None /\ statistics dg = None
  /\ exists e, In e (findall_desc root "dataGroup")
       /\ parse_datagroup to_float e = Ok dg
       /\ properties dg = map parse_property (findall e "property").
Proof.
  intros Hdgs Hin Hrows.
  destruct (parse_datagroups_In _ _ _ Hdgs Hin) as (e & He_in & He).
  pose proof He as Hspec. rewrite parse_datagroup_spec in Hspec.
  injection Hspec as Hspec.
  assert (Hprops : properties dg = map parse_property (findall e "property"))
    by (rewrite <- Hspec; reflexivity).
  assert (Hnone : data_df dg = None /\ statistics dg = None).
  { rewrite <- Hspec in Hrows |- *. simpl in *. rewrite Hrows. now split. }
  destruct Hnone as [Hdf Hst]. split; [exact Hdf |]. split; [exact Hst |].
  exists e. repeat split; assumption.
Qed.

(** The rows are empty when no data point has a field with a declared id. *)
Lemma no_declared_field_no_rows (e : Element) (dg : DataGroup F) :
  parse_datagroup to_float e = Ok dg ->
  (forall dp child info, In dp (findall e "dataPoint") -> In child (children dp) ->
     In info (properties dg) -> prop_id info <> Some (tag child)) ->
  datapoints dg = [].
Proof.
  intros He Hno. rewrite parse_datagroup_spec in He. injection He as <-.
  simpl in *. set (props := map parse_property (findall e "property")) in *.
  assert (Hall : forall dp, In dp (findall e "dataPoint") ->
            parse_datapoint to_float (build_property_map props) dp = []).
  { intros dp Hdp. unfold parse_datapoint.
    assert (Hgen : forall fields,
      (forall child, In child fields -> In child (children dp)) ->
      fold_left (add_field to_float (build_property_map props)) fields [] = []).
    { induction fields as [|f fs IH]; simpl; intros Hsub; [reflexivity |].
      rewrite add_field_undeclared.
      - apply IH. intros; apply Hsub; now right.
      - intros info Hinfo. apply (Hno dp f info Hdp); [apply Hsub; now left | exact Hinfo]. }
    apply Hgen. auto. }
  clear Hno. revert Hall. generalize (findall e "dataPoint") as dps.
  induction dps as [|dp dps IH]; intros Hall; [reflexivity |].
  simpl. rewrite (Hall dp) by now left. simpl. apply IH.
  intros dp' Hdp'. apply Hall. now right.
Qed.

End DecodedDataGroups.

(** ** Common properties *)

Section CommonProperties.

Context {F : Type} (to_float : string -> option F).

(** A missing or empty amount text gives the integer 0. *)
Lemma amount_of_missing (t : option string) :
  truthy_opt t = false -> amount_of to_float t = Ok (VInt 0).
Proof.
  destruct t as [s|]; simpl; [|reflexivity]. unfold amount_of. now intros ->.
Qed.

(** A parsable amount text gives its number. *)
Lemma amount_of_number (s : string) (x : F) :
  truthy s = true -> to_float s = Some x -> amount_of to_float (Some s) = Ok (VFloat x).
Proof. intros Hs Hx. unfold amount_of. now rewrite Hs, Hx. Qed.

(** A non-empty amount text that is not a number raises [ValueError]. *)
Lemma amount_of_unparsable (s : string) :
  truthy s = true -> to_float s = None ->
  amount_of to_float (Some s) = Raise ValueError.
Proof. intros Hs Hx. unfold amount_of. now rewrite Hs, Hx. Qed.

Lemma fold_add_property_other (props : list Element) (m : gmap string (Property F))
    (k : string) :
  Forall (fun q => property_key q <> k) props ->
  fold_left (add_property to_float) props m !! k = m !! k.
Proof.
  revert m. induction props as [|q qs IH]; simpl; intros m Hall; [reflexivity |].
  apply Forall_cons in Hall. destruct Hall as [Hq Hqs].
  rewrite IH by exact Hqs. unfold add_property. now rewrite lookup_insert_ne.
Qed.

Lemma fold_add_property_last (pre post : list Element) (p : Element) :
  Forall (fun q => property_key q <> property_key p) post ->
  fold_left (add_property to_float) (pre ++ p :: post) ∅ !! property_key p
  = Some (Scalar (property_value to_float p)).
Proof.
  intros Hpost. rewrite fold_left_app. simpl.
  rewrite fold_add_property_other by exact Hpost.
  unfold add_property at 1. apply lookup_insert_eq.
Qed.

Lemma find_initial_composition_name (common_props p : Element) :
  find_initial_composition common_props = Some p ->
  tag p = "property" /\ get p "name" = Some "initial composition".
Proof.
  unfold find_initial_composition, find_desc_attr. intros Hp.
  apply head_filter_Some in Hp. destruct Hp as [_ Hp].
  apply andb_true_iff in Hp. destruct Hp as [Ht Hn].
  apply String.eqb_eq in Ht. split; [exact Ht |].
  destruct (get p "name") as [v|]; [|discriminate].
  apply String.eqb_eq in Hn. now subst.
Qed.

Lemma add_component_incomplete (m : gmap string (CompositionEntry F))
    (c : Element) :
  find c "speciesLink" = None \/ find c "amount" = None ->
  add_component to_float m c = Ok m.
Proof.
  unfold add_component. intros [-> | ->]; [reflexivity |].
  now destruct (find c "speciesLink").
Qed.

(** C9, as the code has it.  When the initial-composition property the
    decoder finds is a direct child of commonProperties, has no value child,
    is not followed by a property with the same key, and its key is not the
    reserved key initial_composition, the decoded mapping holds the species
    mapping under initial_composition and, under the label or else the name
    of that property, a scalar entry whose value is the raw text of the
    property element. *)
Theorem C9_composition_scalar_entry (root common_props p : Element)
    (pre post : list Element) (m : gmap string (Property F)) :
  find root "commonProperties" = Some common_props ->
  find_initial_composition common_props = Some p ->
  findall common_props "property" = pre ++ p :: post ->
  Forall (fun q => property_key q <> property_key p) post ->
  find p "value" = None ->
  property_key p <> "initial_composition" ->
  parse_common_properties to_float root = Ok m ->
  (exists composition, m !! "initial_composition" = Some (Composition composition))
  /\ m !! property_key p
     = Some (Scalar {| pv_value := raw_text (text p);
                       pv_units := get_default p "units" "";
                       pv_name := "initial composition" |}).
Proof.
  intros Hcp Hp Hprops Hpost Hvalue Hkey Hm.
  unfold parse_common_properties in Hm. rewrite Hcp, Hp, Hprops in Hm.
  destruct (parse_components to_float (findall p "component")) as [comp|] eqn:Hc;
    [|discriminate].
  unfold mbind, result_bind, mret, result_ret in Hm. injection Hm as <-. split.
  - exists comp. apply lookup_insert_eq.
  - rewrite lookup_insert_ne by congruence.
    rewrite fold_add_property_last by exact Hpost.
    unfold property_value. rewrite Hvalue.
    destruct (find_initial_composition_name _ _ Hp) as [_ Hn].
    now rewrite (get_default_of_get _ _ _ _ Hn).
Qed.

(** C10. A component without a speciesLink child or without an amount
    child is skipped: it adds no entry to the composition and raises
    nothing, so the composition is the one decoded without it. *)
Theorem C10_incomplete_component_skipped (pre post : list Element) (c : Element) :
  find c "speciesLink" = None \/ find c "amount" = None ->
  (forall m, add_component to_float m c = Ok m)
  /\ parse_components to_float (pre ++ c :: post)
     = parse_components to_float (pre ++ post).
Proof.
  intros Hc. split; [intros m; now apply add_component_incomplete |].
  unfold parse_components. rewrite !fold_left_app. simpl. f_equal.
  destruct (fold_left _ pre (Ok ∅)) as [m|e]; [|reflexivity].
  unfold mbind, result_bind. now apply add_component_incomplete.
Qed.

End CommonProperties.

(** ** The encoder *)

Section EncoderProperties.

Context {num : Type} `{Number num}.

Ltac split_present :=
  repeat match goal with
         | Hp : _ && _ = true |- _ =>
             apply andb_true_iff in Hp; destruct Hp
         | Hp : present ?o = true |- _ =>
             destruct o; [clear Hp | discriminate Hp]
         end.









Lemma v1_cell_ok (row : list (string * dvalue num)) (a : Axis) :
  axis_complete a = true -> exists l, V1.cell row a = Ok l.
Proof.
  destruct a as [id name label unit sp]. unfold axis_complete, V1.cell. simpl.
  intros Ha. split_present. simpl. destruct (assoc_get row _); now eexists.
Qed.

Lemma v1_y_property_ok (a : Axis) :
  axis_complete a = true -> exists e, V1.y_property a = Ok e.
Proof.
  destruct a as [id name label unit sp]. unfold axis_complete, V1.y_property. simpl.
  intros Ha. split_present. now eexists.
Qed.

Lemma v1_data_group_ok (dg : DraftDataGroup num) :
  group_complete_v1 dg = true ->
  exists e, V1.data_group dg = Ok e /\ tag e = "dataGroup".
Proof.
  destruct dg as [id name x ys cols data]. unfold group_complete_v1, V1.data_group.
  simpl. intros Hdg.
  destruct x as [x|]; [|now rewrite andb_false_r in Hdg].
  destruct ys as [ys|]; [|now rewrite andb_false_r in Hdg].
  assert (Hxc : axis_complete x = true /\ present (ax_label x) = true).
  { apply andb_true_iff in Hdg. destruct Hdg as [_ Hdg].
    apply andb_true_iff in Hdg. destruct Hdg as [Hdg _].
    now apply andb_true_iff in Hdg. }
  destruct Hxc as [Hxc Hxl].
  assert (Hx : exists e, V1.x_property x = Ok e).
  { clear Hdg. destruct x as [xid xname xlabel xunit xsp].
    unfold axis_complete in Hxc. simpl in *. split_present. now eexists. }
  split_present. simpl.
  destruct Hx as (xe & ->). simpl.
  destruct (mapM_total V1.y_property ys) as (yes & ->).
  { intros a Ha. apply v1_y_property_ok.
    match goal with Hf : forallb _ ys = true |- _ =>
      rewrite forallb_forall in Hf; now apply Hf end. }
  simpl.
  destruct (mapM_total (V1.data_point x (Some ys)) (get_or data [])) as (pts & ->).
  { intros row _. unfold V1.data_point.
    destruct (v1_cell_ok row x) as (xc & ->); [assumption |]. simpl.
    destruct (mapM_total (V1.cell row) ys) as (cs & ->); [|now eexists].
    intros a Ha. apply v1_cell_ok.
    match goal with Hf : forallb _ ys = true |- _ =>
      rewrite forallb_forall in Hf; now apply Hf end. }
  eexists. split; reflexivity.
Qed.


Lemma file_doi_cases (b : BasicInfo num) :
  file_doi b = [] \/ exists d, file_doi b = [text_elem "fileDOI" d].
Proof.
  unfold file_doi. destruct (doi b) as [d|]; [|now left].
  destruct (truthy d); [right; now exists d | now left].
Qed.




End EncoderProperties.

(** * Examples, witnesses and counterexamples *)

(** ** The float literals *)

Example py_float_ex1 : py_float "300" = Some (Finite false 300 0).
Proof. reflexivity. Qed.
Example py_float_ex2 : py_float " -0.12e+3 " = Some (Finite true 12 1).
Proof. reflexivity. Qed.
Example py_float_ex3 : py_float "abc" = None.
Proof. reflexivity. Qed.
Example py_float_ex4 : py_float "1_000.5" = Some (Finite false 10005 (-1)).
Proof. reflexivity. Qed.
Example py_float_ex5 :
  py_float "1._5" = None /\ py_float "." = None /\ py_float "1e" = None
  /\ py_float "" = None /\ py_float "1 2" = None /\ py_float "1__0" = None
  /\ py_float "_1" = None /\ py_float "-Inf" = Some (Infinity true)
  /\ py_float ".5" = Some (Finite false 5 (-1))
  /\ py_float "5." = Some (Finite false 5 0).
Proof. repeat split; reflexivity. Qed.

(** ** Column names *)

Lemma C1_witness :
  column_name (parse_property species_property) = "CH4 (mole_fraction)"
  /\ column_name (parse_property labelled_property) = "T (K)"
  /\ column_name (parse_property bare_property) = "phi".
Proof.
  destruct (C1_column_name_derivation species_property) as (_ & Hspecies & _ & _).
  destruct (C1_column_name_derivation labelled_property) as (_ & _ & Hlabel & _).
  destruct (C1_column_name_derivation bare_property) as (_ & _ & _ & Hname).
  split; [| split].
  - apply (Hspecies (Elem "speciesLink" [("preferredKey", "CH4")] None []));
      reflexivity.
  - apply Hlabel; reflexivity.
  - apply Hname; reflexivity.
Defined.

(** ** The validator *)

Lemma C3_witness :
  validate_xml_structure (Parsed document_without_groups)
  = (false, ["没有找到数据组"]).
Proof.
  destruct (C3_validate_structure document_without_groups) as (_ & _ & Hnone & _).
  apply Hnone.
  - repeat split; apply find_is_Some; eexists; reflexivity.
  - intros Hd. apply findall_desc_nonempty in Hd. discriminate Hd.
Defined.

Example validate_scenario :
  validate_xml_structure
    (Parsed (document (children document_without_groups ++ [scenario_group])))
  = (true, []).
Proof. reflexivity. Qed.

Example validate_empty_root :
  validate_xml_structure (Parsed (document []))
  = (false, ["缺少必需元素: experimentType"; "缺少必需元素: apparatus";
             "缺少必需元素: commonProperties"; "没有找到数据组"]).
Proof. reflexivity. Qed.

(** ** Data groups *)

(** The scenario of the specification: two declared columns, two points. *)
Example scenario_table :
  exists dg, parse_datagroups py_float (document [scenario_group]) = Ok [dg]
    /\ data_df dg
       = Some {| df_columns := ["Temperature (K)"; "CH4 (mole_fraction)"];
                 df_rows :=
                   [[Some (VFloat (Finite false 300 0));
                     Some (VFloat (Finite false 1 (-1)))];
                    [Some (VFloat (Finite false 350 0));
                     Some (VFloat (Finite false 12 (-2)))]] |}
    /\ statistics dg
       = Some {| num_points := 2;
                 columns := ["Temperature (K)"; "CH4 (mole_fraction)"];
                 shape := (2, 2) |}.
Proof. eexists. split; [vm_compute; reflexivity | split; reflexivity]. Qed.

(** Decode the single data group of a sample document and name what is
    decoded. *)
Ltac decode_single_group root dg Hdgs Hdg :=
  let dgs := fresh "dgs" in
  let Hval := fresh "Hval" in
  destruct (parse_datagroups_total py_float root) as (dgs & Hdgs);
  pose proof Hdgs as Hval; vm_compute in Hval; injection Hval as Hval;
  destruct dgs as [|dg dgs]; [discriminate Hval |];
  injection Hval as Hdg Hval; subst dgs.

Lemma C2_witness :
  exists dgs dg df,
    parse_datagroups py_float (document [scenario_group]) = Ok dgs
    /\ In dg dgs /\ data_df dg = Some df
    /\ df_columns df = ["Temperature (K)"; "CH4 (mole_fraction)"].
Proof.
  decode_single_group (document [scenario_group]) dg Hdgs Hdg.
  assert (Hin : In dg [dg]) by now left.
  assert (Hdf : exists df, data_df dg = Some df)
    by (rewrite <- Hdg; eexists; reflexivity).
  destruct Hdf as (df & Hdf). exists [dg], dg, df.
  repeat split; try assumption.
  destruct (C2_column_order py_float _ _ _ _ Hdgs Hin Hdf) as (Hcols & _).
  rewrite Hcols, <- Hdg. vm_compute. reflexivity.
Defined.

(** The data-point field [foo] matches no declared id: the code drops it,
    the specification's wording makes it a column. *)
Example undeclared_field_columns :
  (exists dg, parse_datagroup py_float undeclared_field_group = Ok dg
     /\ (df_columns <$> data_df dg) = Some ["T (K)"])
  /\ spec_column_order undeclared_field_group = ["T (K)"; "foo"].
Proof. split; [eexists; split; [vm_compute; reflexivity |] |]; reflexivity. Qed.

Lemma C2_counterexample :
  ~ (forall dg df,
       parse_datagroup py_float undeclared_field_group = Ok dg ->
       data_df dg = Some df ->
       df_columns df = spec_column_order undeclared_field_group).
Proof.
  intros Hclaim.
  assert (Hdg : parse_datagroup py_float undeclared_field_group = Ok _)
    by (vm_compute; reflexivity).
  specialize (Hclaim _ _ Hdg eq_refl). vm_compute in Hclaim. discriminate Hclaim.
Qed.

Lemma C5_witness :
  exists dgs dg st,
    parse_datagroups py_float (document [scenario_group]) = Ok dgs
    /\ In dg dgs /\ statistics dg = Some st
    /\ length (datapoints dg) = num_points st
    /\ (columns st = ["Temperature (K)"; "CH4 (mole_fraction)"]).
Proof.
  decode_single_group (document [scenario_group]) dg Hdgs Hdg.
  assert (Hin : In dg [dg]) by now left.
  assert (Hst : exists st, statistics dg = Some st)
    by (rewrite <- Hdg; eexists; reflexivity).
  destruct Hst as (st & Hst). exists [dg], dg, st.
  repeat split; try assumption.
  - now destruct (C5_statistics_match_table py_float _ _ _ _ Hdgs Hin Hst).
  - rewrite <- Hdg in Hst. injection Hst as <-. reflexivity.
Defined.

Lemma C6_witness :
  exists dgs dg,
    parse_datagroups py_float (document [empty_group]) = Ok dgs
    /\ In dg dgs /\ datapoints dg = []
    /\ data_df dg = None /\ statistics dg = None
    /\ map column_name (properties dg) = ["T (K)"].
Proof.
  decode_single_group (document [empty_group]) dg Hdgs Hdg.
  assert (Hin : In dg [dg]) by now left.
  assert (Hrows : datapoints dg = []) by (rewrite <- Hdg; reflexivity).
  exists [dg], dg.
  destruct (C6_no_rows_no_table py_float _ _ _ Hdgs Hin Hrows) as (Hdf & Hst & _).
  repeat split; try assumption. rewrite <- Hdg. reflexivity.
Defined.

(** ** Common properties *)

(** C4. On a document whose amount text is not a number the decoder raises
    [ValueError] instead of storing the amount 0: the conversion of the
    amount is the one unguarded [float()] of the decoder. *)
Theorem C4_unparsable_amount_raises :
  py_float "abc" = None
  /\ parse_common_properties py_float unparsable_amount_document
     = Raise ValueError.
Proof. split; reflexivity. Qed.

(** The guarded conversions keep such text instead. *)
Example unparsable_text_is_kept :
  coerce py_float (Some "abc") = VStr "abc".
Proof. reflexivity. Qed.

Lemma C9_witness :
  exists m,
    parse_common_properties py_float composition_document = Ok m
    /\ is_Some (m !! "initial_composition")
    /\ m !! "initial composition"
       = Some (Scalar {| pv_value := VStr " "; pv_units := "";
                         pv_name := "initial composition" |}).
Proof.
  assert (Hm : exists m, parse_common_properties py_float composition_document = Ok m)
    by (vm_compute; eauto).
  destruct Hm as (m & Hm). exists m.
  destruct (C9_composition_scalar_entry py_float composition_document
              sample_common_properties sample_composition
              [temperature_property] [] m) as ((comp & Hcomp) & Hscalar);
    try reflexivity; try assumption.
  - constructor.
  - discriminate.
  - split; [exact Hm |]. split; [rewrite Hcomp; eauto | exact Hscalar].
Defined.

(** Below a wrapper element the composition is found, and no scalar entry
    is made for its property. *)
Lemma C9_counterexample :
  ~ (forall common_props p m,
       find nested_composition_document "commonProperties" = Some common_props ->
       find_initial_composition common_props = Some p ->
       parse_common_properties py_float nested_composition_document = Ok m ->
       (exists composition,
          m !! "initial_composition" = Some (Composition composition))
       /\ m !! property_key p
          = Some (Scalar {| pv_value := raw_text (text p);
                            pv_units := get_default p "units" "";
                            pv_name := "initial composition" |})).
Proof.
  intros Hclaim.
  assert (Hm : parse_common_properties py_float nested_composition_document = Ok _)
    by (vm_compute; reflexivity).
  destruct (Hclaim _ _ _ eq_refl eq_refl Hm) as [_ Hscalar].
  vm_compute in Hscalar. discriminate Hscalar.
Qed.

(** With a [value] child the scalar entry holds the coerced value text. *)
Example valued_composition_entry :
  exists m,
    parse_common_properties py_float valued_composition_document = Ok m
    /\ m !! "initial composition"
       = Some (Scalar {| pv_value := VFloat (Finite false 1 0); pv_units := "";
                         pv_name := "initial composition" |}).
Proof. eexists. split; [vm_compute; reflexivity | reflexivity]. Qed.

Lemma C10_witness :
  parse_components py_float
    [component_elem "CH4" (Some "0.3"); component_without_amount;
     component_elem "O2" None]
  = parse_components py_float
      [component_elem "CH4" (Some "0.3"); component_elem "O2" None].
Proof.
  apply (C10_incomplete_component_skipped py_float
           [component_elem "CH4" (Some "0.3")] [component_elem "O2" None]
           component_without_amount).
  right. reflexivity.
Defined.

(** ** The encoder *)


(** The draft without units has basic_info and conditions entries, and an
    individual field inside them is absent: both encoders raise [KeyError]
    before they come to the serialisation, whatever that would do. *)
Lemma C8_counterexample :
  ~ (forall draft : Draft Z,
       present (basic_info draft) = true -> present (conditions draft) = true ->
       exists toprettyxml text,
         V1.create_enhanced_xml toprettyxml draft = Ok text
         \/ V2.create_enhanced_xml toprettyxml draft = Ok text).
Proof.
  intros Hclaim.
  destruct (Hclaim draft_without_units eq_refl eq_refl)
    as (toprettyxml & text & [Htext | Htext]); discriminate Htext.
Qed.

(** What the first encoder builds for the sparse draft. *)
Example sparse_draft_tree :
  V1.experiment_tree sparse_draft
  = Ok (document
          [text_elem "fileAuthor" "Unknown";
           Elem "fileVersion" [] None [text_elem "major" "1"; text_elem "minor" "0"];
           text_elem "experimentType" "ignition_delay";
           Elem "apparatus" [] None [text_elem "kind" "JSR"];
           Elem "commonProperties" [] None
             [Elem "property"
                [("name", "temperature"); ("label", "T"); ("units", "K");
                 ("sourcetype", "reported")] None [text_elem "value" "300"]]]).
Proof. reflexivity. Qed.

(** A mandatory key is not defaulted: without the units of the temperature
    both encoders raise [KeyError]. *)
Example missing_units_raise (toprettyxml : Element -> result string) :
  V1.create_enhanced_xml toprettyxml draft_without_units = Raise (KeyError "units")
  /\ V2.create_enhanced_xml toprettyxml draft_without_units
     = Raise (KeyError "units").
Proof. split; reflexivity. Qed.

(** * Further properties of the decoder *)

(** ** Helper lemmas *)

Lemma mapM_Forall2 {A B} (f : A -> result B) (l : list A) (bs : list B) :
  mapM f l = Ok bs -> Forall2 (fun a b => f a = Ok b) l bs.
Proof.
  revert bs. induction l as [|a l IH]; simpl; intros bs Hm.
  - injection Hm as <-. constructor.
  - unfold mbind, result_bind in Hm. destruct (f a) as [b|] eqn:Ha; [|discriminate].
    destruct (mapM f l) as [bs0|]; [|discriminate].
    injection Hm as <-. constructor; [exact Ha | now apply IH].
Qed.

Lemma assoc_get_dict_set_eq {V} (d : list (string * V)) (k : string) (v : V) :
  assoc_get (dict_set d k v) k = Some v.
Proof.
  induction d as [|[k' v'] d IH]; simpl.
  - now rewrite String.eqb_refl.
  - destruct (String.eqb k k') eqn:E; simpl.
    + now rewrite String.eqb_refl.
    + now rewrite E.
Qed.

Lemma assoc_get_dict_set_ne {V} (d : list (string * V)) (k k' : string) (v : V) :
  k <> k' -> assoc_get (dict_set d k v) k' = assoc_get d k'.
Proof.
  intros Hne. induction d as [|[k0 v0] d IH]; simpl.
  - destruct (String.eqb k' k) eqn:E; [|reflexivity].
    apply String.eqb_eq in E. congruence.
  - destruct (String.eqb k k0) eqn:E; simpl.
    + apply String.eqb_eq in E. subst k0.
      destruct (String.eqb k' k) eqn:E'; [|reflexivity].
      apply String.eqb_eq in E'. congruence.
    + now rewrite IH.
Qed.

Lemma dict_set_NoDup {V} (d : list (string * V)) (k : string) (v : V) :
  NoDup (dict_keys d) -> NoDup (dict_keys (dict_set d k v)).
Proof.
  induction d as [|[k' v'] d IH]; simpl; intros Hnd.
  - apply NoDup_cons. split; [apply not_elem_of_nil | constructor].
  - apply NoDup_cons in Hnd. destruct Hnd as [Hk' Hnd].
    destruct (String.eqb k k') eqn:E; simpl.
    + apply String.eqb_eq in E. subst k'. apply NoDup_cons. now split.
    + apply NoDup_cons. split; [|now apply IH].
      rewrite list_elem_of_In. rewrite list_elem_of_In in Hk'.
      intros Hin. apply dict_set_keys in Hin. destruct Hin as [-> | Hin].
      * rewrite String.eqb_refl in E. discriminate.
      * now apply Hk'.
Qed.

Lemma add_unseen_NoDup (acc : list string) (k : string) :
  NoDup acc -> NoDup (add_unseen acc k).
Proof.
  intros Hnd. unfold add_unseen. destruct (str_in k acc) eqn:E; [exact Hnd |].
  apply NoDup_app. split; [exact Hnd |]. split.
  - intros x Hx Hx'. apply list_elem_of_In in Hx.
    apply list_elem_of_singleton in Hx'. subst x.
    apply str_in_false in E. contradiction.
  - apply NoDup_singleton.
Qed.

Lemma first_seen_NoDup {V} (records : list (list (string * V))) :
  NoDup (first_seen records).
Proof.
  unfold first_seen.
  assert (Hkeys : forall ks acc, NoDup acc -> NoDup (fold_left add_unseen ks acc)).
  { induction ks as [|k ks IH]; simpl; intros acc Hacc; [exact Hacc |].
    apply IH. now apply add_unseen_NoDup. }
  assert (Hgen : forall acc, NoDup acc ->
    NoDup (fold_left (fun acc r => fold_left add_unseen (dict_keys r) acc) records acc)).
  { induction records as [|r rs IH]; simpl; intros acc Hacc; [exact Hacc |].
    apply IH. now apply Hkeys. }
  apply Hgen. constructor.
Qed.


Lemma NoDup_List_filter {A} (f : A -> bool) (l : list A) :
  NoDup l -> NoDup (List.filter f l).
Proof.
  induction l as [|a l IH]; simpl; intros Hnd; [constructor |].
  apply NoDup_cons in Hnd. destruct Hnd as [Ha Hnd].
  destruct (f a); [|now apply IH]. apply NoDup_cons. split; [|now apply IH].
  rewrite list_elem_of_In. rewrite list_elem_of_In in Ha.
  intros Hin. apply filter_In in Hin. tauto.
Qed.

Lemma parse_property_id (prop : Element) :
  prop_id (parse_property prop) = get prop "id".
Proof. unfold parse_property. now destruct (find prop "speciesLink"). Qed.

Lemma build_property_map_last (pre post : list PropInfo) (p : PropInfo) :
  Forall (fun q => prop_id q <> prop_id p) post ->
  build_property_map (pre ++ p :: post) !! prop_id p = Some p.
Proof.
  intros Hpost. unfold build_property_map. rewrite fold_left_app. simpl.
  assert (Hgen : forall m : gmap (option string) PropInfo,
    fold_left (fun m info => <[prop_id info := info]> m) post m !! prop_id p
    = m !! prop_id p).
  { induction Hpost as [|q qs Hq _ IH]; simpl; intros m; [reflexivity |].
    rewrite IH. now rewrite lookup_insert_ne. }
  rewrite Hgen. apply lookup_insert_eq.
Qed.

(** ** Decoded data groups *)

Section DecodedTables.

Context {F : Type} (to_float : string -> option F).

Lemma table_row_count (dg : Element) (d : DataGroup F) (df : DataFrame F) :
  parse_datagroup to_float dg = Ok d -> data_df d = Some df ->
  length (df_rows df) = length (datapoints d)
  /\ df_rows df = map (fun r => map (assoc_get r) (df_columns df)) (datapoints d).
Proof.
  intros Hd Hdf. rewrite parse_datagroup_spec in Hd. injection Hd as <-.
  simpl in *. destruct (nonempty _); [|discriminate]. injection Hdf as <-.
  destruct (nonempty (kept_columns _ _ _)); simpl; now rewrite length_map.
Qed.

(** X1. Decoding the data groups never raises and gives one data group for
    each dataGroup element below the root, in document order, with the id
    and label attributes of that element (the empty text when absent). *)
Theorem X1_one_group_per_element (root : Element) :
  exists dgs,
    parse_datagroups to_float root = Ok dgs
    /\ length dgs = length (findall_desc root "dataGroup")
    /\ map dg_id dgs
       = map (fun e => get_default e "id" "") (findall_desc root "dataGroup")
    /\ map dg_label dgs
       = map (fun e => get_default e "label" "") (findall_desc root "dataGroup")
    /\ Forall2 (fun e dg => properties dg = map parse_property (findall e "property"))
         (findall_desc root "dataGroup") dgs.
Proof.
  destruct (parse_datagroups_total to_float root) as (dgs & Hdgs).
  exists dgs. split; [exact Hdgs |].
  apply mapM_Forall2 in Hdgs. revert Hdgs.
  generalize (findall_desc root "dataGroup") as elems.
  intros elems Hall. induction Hall as [|e dg es dgs He _ IH].
  - repeat split; constructor.
  - destruct IH as (Hlen & Hid & Hlabel & Hprops).
    rewrite parse_datagroup_spec in He. injection He as <-. simpl.
    rewrite Hlen, Hid, Hlabel. repeat split. now constructor.
Qed.

(** The columns of the table of a data group: the kept columns, or the
    keys of the rows in first-seen order when no column is kept. *)
Lemma table_columns (e : Element) (dg : DataGroup F) (df : DataFrame F) :
  parse_datagroup to_float e = Ok dg -> data_df dg = Some df ->
  df_columns df
  = if nonempty (kept_columns (property_map dg) (properties dg) (datapoints dg))
    then kept_columns (property_map dg) (properties dg) (datapoints dg)
    else first_seen (datapoints dg).
Proof.
  intros Hd Hdf. rewrite parse_datagroup_spec in Hd. injection Hd as <-.
  simpl in *. destruct (nonempty (List.filter _ _)); [|discriminate].
  injection Hdf as <-. now destruct (nonempty (kept_columns _ _ _)).
Qed.

Lemma appears_In {V : Type} (rows : list (list (string * V))) (c : string) :
  appears rows c = true <-> exists r, In r rows /\ In c (dict_keys r).
Proof.
  unfold appears. rewrite existsb_exists. split; intros (r & Hr & Hc);
    exists r; (split; [exact Hr |]); now apply str_in_In.
Qed.

(** X2. The table of a decoded data group has one table row per row, and
    its columns are column names of the rows: every column of the table is
    a column name of some row, and every column name of a row that does not
    start with an underscore is a column of the table. *)
Theorem X2_table_columns_cover_rows (root : Element) (dgs : list (DataGroup F))
    (dg : DataGroup F) (df : DataFrame F) :
  parse_datagroups to_float root = Ok dgs -> In dg dgs ->
  data_df dg = Some df ->
  length (df_rows df) = length (datapoints dg)
  /\ (forall c, In c (df_columns df) ->
      exists r, In r (datapoints dg) /\ In c (dict_keys r))
  /\ (forall r c, In r (datapoints dg) -> In c (dict_keys r) ->
      startswith "_" c = false -> In c (df_columns df)).
Proof.
  intros Hdgs Hin Hdf.
  destruct (parse_datagroups_In _ _ _ _ Hdgs Hin) as (e & _ & He).
  destruct (table_row_count _ _ _ He Hdf) as [Hlen _].
  pose proof (table_columns _ _ _ He Hdf) as Hcols.
  split; [exact Hlen |]. rewrite Hcols. clear Hlen Hcols Hdf df.
  rewrite parse_datagroup_spec in He. injection He as <-. cbn [datapoints
    property_map properties].
  set (props := map parse_property (findall e "property")).
  set (pm := build_property_map props).
  set (rows := List.filter nonempty _).
  split.
  - intros c Hc. destruct (nonempty (kept_columns pm props rows)).
    + apply filter_In in Hc. destruct Hc as [_ Hc].
      apply andb_true_iff in Hc. now apply appears_In.
    + now apply first_seen_In.
  - intros r c Hr Hc Hshown.
    assert (Hseen : In c (first_seen rows)) by (apply first_seen_In; eauto).
    assert (Hkept : In c (kept_columns pm props rows)).
    { apply (display_columns_declared to_float props (findall e "dataPoint")).
      apply filter_In. split; [exact Hseen | now rewrite Hshown]. }
    destruct (kept_columns pm props rows); [contradiction | exact Hkept].
Qed.




(** X4. Within one data point the last field stored under a column name
    wins: when no later field resolves to the same column name, the row
    holds the coerced text of that field under it. *)
Theorem X4_last_field_wins (pm : gmap (option string) PropInfo) (dp child : Element)
    (pre post : list Element) (info : PropInfo) :
  children dp = pre ++ child :: post ->
  pm !! Some (tag child) = Some info ->
  Forall (fun c => forall info', pm !! Some (tag c) = Some info' ->
                                 column_name info' <> column_name info) post ->
  assoc_get (parse_datapoint to_float pm dp) (column_name info)
  = Some (coerce to_float (text child)).
Proof.
  intros Hch Hinfo Hpost. unfold parse_datapoint. rewrite Hch, fold_left_app. simpl.
  unfold add_field at 2. rewrite Hinfo.
  clear Hch. generalize (fold_left (add_field to_float pm) pre []). intros row0.
  assert (Hgen : forall row,
    assoc_get (fold_left (add_field to_float pm) post row) (column_name info)
    = assoc_get row (column_name info)).
  { induction Hpost as [|c cs Hc _ IH]; simpl; intros row; [reflexivity |].
    rewrite IH. unfold add_field.
    destruct (pm !! Some (tag c)) as [info'|] eqn:E; [|reflexivity].
    apply assoc_get_dict_set_ne. now apply Hc. }
  rewrite Hgen. apply assoc_get_dict_set_eq.
Qed.

(** X5. When two properties of a data group declare the same id the later
    declaration is the one bound to the id: the property map holds, under
    the id of a property, that property itself when no later property has
    the same id. *)
Theorem X5_last_declaration_wins (e p : Element) (pre post : list Element)
    (dg : DataGroup F) :
  findall e "property" = pre ++ p :: post ->
  Forall (fun q => get q "id" <> get p "id") post ->
  parse_datagroup to_float e = Ok dg ->
  property_map dg !! get p "id" = Some (parse_property p).
Proof.
  intros Hprops Hpost He. rewrite parse_datagroup_spec in He.
  injection He as <-. simpl. rewrite Hprops, map_app. simpl.
  rewrite <- parse_property_id. apply build_property_map_last.
  apply List.Forall_forall. intros q Hq. apply in_map_iff in Hq.
  destruct Hq as (q0 & <- & Hq0). rewrite !parse_property_id.
  rewrite List.Forall_forall in Hpost. now apply Hpost.
Qed.

(** X6. When the declared properties of a data group have pairwise
    distinct ids and pairwise distinct column names, no column name occurs
    twice in its table. *)
Theorem X6_table_columns_distinct (root : Element) (dgs : list (DataGroup F))
    (dg : DataGroup F) (df : DataFrame F) :
  parse_datagroups to_float root = Ok dgs -> In dg dgs ->
  data_df dg = Some df ->
  NoDup (map prop_id (properties dg)) ->
  NoDup (map column_name (properties dg)) ->
  NoDup (df_columns df).
Proof.
  intros Hdgs Hin Hdf Hids Hnames.
  destruct (parse_datagroups_In _ _ _ _ Hdgs Hin) as (e & _ & He).
  rewrite parse_datagroup_spec in He. injection He as <-. simpl in *.
  destruct (nonempty _); [|discriminate]. injection Hdf as <-.
  destruct (nonempty (kept_columns _ _ _)); simpl.
  - unfold kept_columns. apply NoDup_List_filter.
    unfold declared_columns.
    rewrite (omap_all_Some _ column_name); [exact Hnames |].
    intros info Hinfo. now rewrite build_property_map_NoDup.
  - apply first_seen_NoDup.
Qed.

End DecodedTables.

(** ** Decoded records *)

Section DecodedRecords.

Context {F : Type} (to_float : string -> option F).

Lemma parse_experiment_Ok (root : Element) (exp_data : ExperimentRecord F) :
  parse_experiment to_float root = Ok exp_data ->
  parse_common_properties to_float root = Ok (exp_common_properties exp_data)
  /\ parse_datagroups to_float root = Ok (exp_datagroups exp_data)
  /\ exp_metadata exp_data = parse_metadata root
  /\ exp_experiment_type exp_data = get_text root "experimentType"
  /\ exp_apparatus exp_data = parse_apparatus root
  /\ exp_bibliography exp_data = parse_bibliography root.
Proof.
  unfold parse_experiment, mbind, result_bind, mret, result_ret.
  destruct (parse_common_properties to_float root) as [cp|]; [|discriminate].
  destruct (parse_datagroups to_float root) as [dgs|]; [|discriminate].
  intros Hexp. injection Hexp as <-. simpl. repeat split.
Qed.

Lemma parse_experiment_Raise (root : Element) (e : exn) :
  parse_experiment to_float root = Raise e ->
  parse_common_properties to_float root = Raise e.
Proof.
  unfold parse_experiment, mbind, result_bind, mret, result_ret.
  destruct (parse_common_properties to_float root) as [cp|e0];
    [|intros Hexp; now injection Hexp as <-].
  destruct (parse_datagroups_total to_float root) as (dgs & ->). discriminate.
Qed.

Lemma fold_total_points (dgs : list (DataGroup F)) (n : nat) :
  Forall (fun dg => forall df, data_df dg = Some df ->
                    length (df_rows df) = length (datapoints dg)) dgs ->
  fold_left (fun total_points dg =>
               match data_df dg with
               | Some df => total_points + length (df_rows df)
               | None => total_points + length (datapoints dg)
               end) dgs n
  = n + list_sum (map (fun dg => length (datapoints dg)) dgs).
Proof.
  intros Hall. revert n. induction Hall as [|dg dgs Hdg _ IH]; simpl; intros n.
  - lia.
  - rewrite IH. destruct (data_df dg) as [df|]; [rewrite (Hdg df eq_refl) |]; lia.
Qed.

(** X7. On every decoded record the two versions of the summary report the
    same total number of data points: the lengths of the tables, taken
    where a table exists, add up to the number of surviving rows. *)
Theorem X7_summary_totals_agree (root : Element) (exp_data : ExperimentRecord F) :
  parse_experiment to_float root = Ok exp_data ->
  total_points_v1 exp_data = total_points_v2 exp_data.
Proof.
  intros Hexp. apply parse_experiment_Ok in Hexp. destruct Hexp as (_ & Hdgs & _).
  unfold total_points_v1, total_points_v2. rewrite fold_total_points; [lia |].
  apply List.Forall_forall. intros dg Hin df Hdf.
  destruct (parse_datagroups_In _ _ _ _ Hdgs Hin) as (e & _ & He).
  now destruct (table_row_count to_float _ _ _ He Hdf).
Qed.

(** The components loop raises exactly when some complete component has a
    non-empty amount text that is not a number. *)
Lemma fold_add_component_Raise (comps : list Element)
    (acc : result (gmap string (CompositionEntry F))) (e : exn) :
  fold_left (fun acc component => composition ← acc;
                                  add_component to_float composition component)
            comps acc = Raise e
  <-> acc = Raise e
      \/ (is_ok acc = true /\ e = ValueError
          /\ exists c sl am s, In c comps /\ find c "speciesLink" = Some sl
               /\ find c "amount" = Some am /\ text am = Some s
               /\ truthy s = true /\ to_float s = None).
Proof.
  revert acc. induction comps as [|c cs IH]; simpl; intros acc.
  - split; [now left | intros [H | (_ & _ & c & sl & am & s & [] & _)]; exact H].
  - rewrite IH. clear IH. destruct acc as [m|e0]; simpl.
    + unfold mbind, result_bind, add_component.
      destruct (find c "speciesLink") as [sl|] eqn:Hsl;
        [destruct (find c "amount") as [am|] eqn:Ham |].
      * unfold amount_of. destruct (text am) as [s|] eqn:Hs; simpl.
        -- destruct (truthy s) eqn:Ht; simpl.
           ++ destruct (to_float s) as [x|] eqn:Hx; simpl.
              ** split.
                 --- intros [H | (_ & -> & c' & sl' & am' & s' & Hin & Hrest)];
                       [discriminate |].
                     right. repeat split. exists c', sl', am', s'. tauto.
                 --- intros [H | (_ & -> & c' & sl' & am' & s' & [<- | Hin] & Hsl' & Ham' & Hs' & Ht' & Hx')];
                       [discriminate | congruence |].
                     right. repeat split. exists c', sl', am', s'. tauto.
              ** split.
                 --- intros [H | (H & _)]; [|discriminate].
                     injection H as <-. right. repeat split.
                     exists c, sl, am, s. tauto.
                 --- intros [H | (_ & -> & _)]; [discriminate | now left].
           ++ split.
              ** intros [H | (_ & -> & c' & sl' & am' & s' & Hin & Hrest)];
                   [discriminate |].
                 right. repeat split. exists c', sl', am', s'. tauto.
              ** intros [H | (_ & -> & c' & sl' & am' & s' & [<- | Hin] & Hsl' & Ham' & Hs' & Ht' & Hx')];
                   [discriminate | congruence |].
                 right. repeat split. exists c', sl', am', s'. tauto.
        -- split.
           ++ intros [H | (_ & -> & c' & sl' & am' & s' & Hin & Hrest)];
                [discriminate |].
              right. repeat split. exists c', sl', am', s'. tauto.
           ++ intros [H | (_ & -> & c' & sl' & am' & s' & [<- | Hin] & Hsl' & Ham' & Hs' & Ht' & Hx')];
                [discriminate | congruence |].
              right. repeat split. exists c', sl', am', s'. tauto.
      * split.
        -- intros [H | (_ & -> & c' & sl' & am' & s' & Hin & Hrest)];
             [discriminate |].
           right. repeat split. exists c', sl', am', s'. tauto.
        -- intros [H | (_ & -> & c' & sl' & am' & s' & [<- | Hin] & Hsl' & Ham' & Hs' & Ht' & Hx')];
             [discriminate | congruence |].
           right. repeat split. exists c', sl', am', s'. tauto.
      * split.
        -- intros [H | (_ & -> & c' & sl' & am' & s' & Hin & Hrest)];
             [discriminate |].
           right. repeat split. exists c', sl', am', s'. tauto.
        -- intros [H | (_ & -> & c' & sl' & am' & s' & [<- | Hin] & Hsl' & Ham' & Hs' & Ht' & Hx')];
             [discriminate | congruence |].
           right. repeat split. exists c', sl', am', s'. tauto.
    + split; [intros [H | (H & _)]; [now left | discriminate]
             | intros [H | (H & _)]; [now left | discriminate]].
Qed.

Lemma common_properties_raise_ValueError (root : Element) (e : exn) :
  parse_common_properties to_float root = Raise e -> e = ValueError.
Proof.
  unfold parse_common_properties.
  destruct (find root "commonProperties") as [cp|]; [|discriminate].
  destruct (find_initial_composition cp) as [ic|]; [|discriminate].
  unfold parse_components.
  destruct (fold_left _ (findall ic "component") (Ok ∅)) as [comp|e0] eqn:Hfold;
    unfold mbind, result_bind, mret, result_ret; [discriminate |].
  intros He. injection He as <-.
  apply fold_add_component_Raise in Hfold.
  destruct Hfold as [H | (_ & H & _)]; [discriminate | exact H].
Qed.

(** X8. Decoding the common properties fails in one way only: it raises
    exactly when a component of the initial-composition property has a
    speciesLink and an amount whose text is non-empty and not a number, and
    the exception is then ValueError. *)
Theorem X8_common_properties_failure (root : Element) (e : exn) :
  parse_common_properties to_float root = Raise e
  <-> e = ValueError
      /\ exists common_props initial_comp c sl am s,
           find root "commonProperties" = Some common_props
           /\ find_initial_composition common_props = Some initial_comp
           /\ In c (findall initial_comp "component")
           /\ find c "speciesLink" = Some sl /\ find c "amount" = Some am
           /\ text am = Some s /\ truthy s = true /\ to_float s = None.
Proof.
  unfold parse_common_properties.
  destruct (find root "commonProperties") as [cp|] eqn:Hcp.
  - destruct (find_initial_composition cp) as [ic|] eqn:Hic.
    + unfold parse_components.
      pose proof (fold_add_component_Raise (findall ic "component") (Ok ∅) e) as Hf.
      destruct (fold_left _ (findall ic "component") (Ok ∅)) as [comp|e0] eqn:Hfold;
        unfold mbind, result_bind, mret, result_ret.
      * split; [discriminate |].
        intros (-> & cp' & ic' & c & sl & am & s & Hcp' & Hic' & Hrest).
        injection Hcp' as <-. rewrite Hic in Hic'. injection Hic' as <-.
        assert (Hr : Ok comp = Raise ValueError); [|discriminate Hr].
        apply Hf. right. repeat split. exists c, sl, am, s. exact Hrest.
      * split.
        -- intros He. injection He as <-.
           destruct (proj1 Hf eq_refl) as [H | (_ & -> & c & sl & am & s & Hrest)];
             [discriminate |].
           split; [reflexivity |]. exists cp, ic, c, sl, am, s. tauto.
        -- intros (-> & cp' & ic' & c & sl & am & s & Hcp' & Hic' & Hrest).
           injection Hcp' as <-. rewrite Hic in Hic'. injection Hic' as <-.
           f_equal. assert (Hr : @Raise (gmap string (CompositionEntry F)) e0 = Raise ValueError);
             [|now injection Hr].
           apply Hf. right. repeat split. exists c, sl, am, s. exact Hrest.
    + split; [discriminate |].
      intros (_ & cp' & ic' & c & sl & am & s & Hcp' & Hic' & _).
      injection Hcp' as <-. congruence.
  - split; [discriminate |].
    intros (_ & cp' & ic' & c & sl & am & s & Hcp' & _). discriminate.
Qed.

End DecodedRecords.

Section DecodedConditions.

Context {F : Type} (to_float : string -> option F).

Lemma fold_add_property_scalar (props : list Element)
    (m : gmap string (Property F)) (k : string) (v : Property F) :
  (forall k' v', m !! k' = Some v' -> exists pv, v' = Scalar pv) ->
  fold_left (add_property to_float) props m !! k = Some v ->
  exists pv, v = Scalar pv.
Proof.
  revert m. induction props as [|p ps IH]; simpl; intros m Hm Hv; [eauto |].
  apply (IH (add_property to_float m p)); [|exact Hv].
  intros k' v' H. unfold add_property in H.
  destruct (decide (property_key p = k')) as [<- | Hne].
  - rewrite lookup_insert_eq in H. injection H as <-. eauto.
  - rewrite lookup_insert_ne in H by exact Hne. eauto.
Qed.

(** What a successful decode of the common properties consists of. *)
Lemma parse_common_properties_Ok (root common_props : Element)
    (m : gmap string (Property F)) :
  find root "commonProperties" = Some common_props ->
  parse_common_properties to_float root = Ok m ->
  let properties :=
    fold_left (add_property to_float) (findall common_props "property") ∅ in
  match find_initial_composition common_props with
  | Some initial_comp =>
      exists composition,
        parse_components to_float (findall initial_comp "component") = Ok composition
        /\ m = <["initial_composition" := Composition composition]> properties
  | None => m = properties
  end.
Proof.
  intros Hcp Hm. unfold parse_common_properties in Hm. rewrite Hcp in Hm.
  cbv zeta. destruct (find_initial_composition common_props) as [ic|].
  - destruct (parse_components to_float (findall ic "component")) as [comp|];
      [|discriminate].
    unfold mbind, result_bind, mret, result_ret in Hm. injection Hm as <-. eauto.
  - now injection Hm as <-.
Qed.

(** X9. A scalar common property with a value child is stored under its
    label, or under its name when it has no label, with the value text as a
    number when it parses and as text otherwise, together with its units
    and name, provided no later property has the same key and the key is
    not the reserved key of the composition. *)
Theorem X9_scalar_property_value (root common_props p value_elem : Element)
    (pre post : list Element) (s : string) (m : gmap string (Property F)) :
  find root "commonProperties" = Some common_props ->
  findall common_props "property" = pre ++ p :: post ->
  Forall (fun q => property_key q <> property_key p) post ->
  property_key p <> "initial_composition" ->
  find p "value" = Some value_elem -> text value_elem = Some s ->
  parse_common_properties to_float root = Ok m ->
  m !! property_key p
  = Some (Scalar {| pv_value := match to_float s with
                                | Some x => VFloat x
                                | None => VStr s
                                end;
                    pv_units := get_default p "units" "";
                    pv_name := get_default p "name" "" |}).
Proof.
  intros Hcp Hprops Hpost Hkey Hvalue Htext Hm.
  pose proof (parse_common_properties_Ok _ _ _ Hcp Hm) as Hok. cbv zeta in Hok.
  rewrite Hprops in Hok.
  assert (Hentry : fold_left (add_property to_float) (pre ++ p :: post) ∅
                     !! property_key p
                   = Some (Scalar (property_value to_float p)))
    by now apply fold_add_property_last.
  unfold property_value in Hentry. rewrite Hvalue in Hentry.
  unfold coerce in Hentry. rewrite Htext in Hentry.
  destruct (find_initial_composition common_props).
  - destruct Hok as (comp & _ & ->). rewrite lookup_insert_ne by congruence.
    exact Hentry.
  - subst m. exact Hentry.
Qed.

Local Abbreviation comp_step :=
  (fun acc component => composition ← acc;
                        add_component to_float composition component).

Lemma fold_add_component_Raise_acc (comps : list Element) (e : exn) :
  fold_left (fun acc component => composition ← acc;
                                  add_component to_float composition component)
            comps (Raise e) = Raise e.
Proof. induction comps as [|c cs IH]; simpl; [reflexivity | exact IH]. Qed.

Lemma fold_add_component_other (post : list Element) (k : string)
    (m comp : gmap string (CompositionEntry F)) :
  Forall (fun c' => forall sl', find c' "speciesLink" = Some sl' ->
                    find c' "amount" <> None ->
                    get_default sl' "preferredKey" "" <> k) post ->
  fold_left (fun acc component => composition ← acc;
                                  add_component to_float composition component)
            post (Ok m) = Ok comp ->
  comp !! k = m !! k.
Proof.
  intros Hpost. revert m. induction Hpost as [|c cs Hc _ IH]; simpl; intros m Hfold.
  - now injection Hfold as <-.
  - change (fold_left comp_step cs (add_component to_float m c) = Ok comp) in Hfold.
    destruct (add_component to_float m c) as [m1|e] eqn:Hstep;
      [|rewrite fold_add_component_Raise_acc in Hfold; discriminate].
    rewrite (IH _ Hfold). unfold add_component in Hstep.
    destruct (find c "speciesLink") as [sl|] eqn:Hsl;
      [|now injection Hstep as <-].
    destruct (find c "amount") as [am|] eqn:Ham; [|now injection Hstep as <-].
    destruct (amount_of to_float (text am)) as [a|]; [|discriminate].
    unfold mbind, result_bind, mret, result_ret in Hstep. injection Hstep as <-.
    apply lookup_insert_ne. apply (Hc sl eq_refl). discriminate.
Qed.

Lemma fold_add_component_entry (comps : list Element) (k : string)
    (m comp : gmap string (CompositionEntry F)) (entry : CompositionEntry F) :
  fold_left (fun acc component => composition ← acc;
                                  add_component to_float composition component)
            comps (Ok m) = Ok comp ->
  comp !! k = Some entry ->
  m !! k = Some entry
  \/ exists c sl am,
       In c comps /\ find c "speciesLink" = Some sl /\ find c "amount" = Some am
       /\ get_default sl "preferredKey" "" = k
       /\ amount_of to_float (text am) = Ok (amount entry)
       /\ amount_units entry = get_default am "units" "".
Proof.
  revert m. induction comps as [|c cs IH]; simpl; intros m Hfold Hk.
  - injection Hfold as <-. now left.
  - change (fold_left comp_step cs (add_component to_float m c) = Ok comp) in Hfold.
    destruct (add_component to_float m c) as [m1|e] eqn:Hstep;
      [|rewrite fold_add_component_Raise_acc in Hfold; discriminate].
    destruct (IH _ Hfold Hk) as [Hm1 | (c' & sl & am & Hin & Hrest)];
      [|right; exists c', sl, am; tauto].
    unfold add_component in Hstep.
    destruct (find c "speciesLink") as [sl|] eqn:Hsl;
      [|injection Hstep as <-; now left].
    destruct (find c "amount") as [am|] eqn:Ham;
      [|injection Hstep as <-; now left].
    destruct (amount_of to_float (text am)) as [a|] eqn:Ha; [|discriminate].
    unfold mbind, result_bind, mret, result_ret in Hstep. injection Hstep as <-.
    destruct (decide (get_default sl "preferredKey" "" = k)) as [Heq | Hne].
    + subst k. rewrite lookup_insert_eq in Hm1. injection Hm1 as <-.
      right. exists c, sl, am. simpl. tauto.
    + rewrite lookup_insert_ne in Hm1 by exact Hne. now left.
Qed.

(** The entry of a complete component that no later complete component
    overwrites. *)
Lemma parse_components_last (c sl am : Element) (pre post : list Element)
    (comp : gmap string (CompositionEntry F)) :
  find c "speciesLink" = Some sl -> find c "amount" = Some am ->
  Forall (fun c' => forall sl', find c' "speciesLink" = Some sl' ->
                    find c' "amount" <> None ->
                    get_default sl' "preferredKey" ""
                    <> get_default sl "preferredKey" "") post ->
  parse_components to_float (pre ++ c :: post) = Ok comp ->
  exists a, amount_of to_float (text am) = Ok a
    /\ comp !! get_default sl "preferredKey" ""
       = Some {| amount := a; amount_units := get_default am "units" "" |}.
Proof.
  intros Hsl Ham Hpost Hcomp.
  unfold parse_components in Hcomp. rewrite fold_left_app in Hcomp.
  simpl in Hcomp.
  destruct (fold_left _ pre (Ok ∅)) as [m0|e].
  - change (fold_left comp_step post (add_component to_float m0 c) = Ok comp)
      in Hcomp.
    unfold add_component in Hcomp. rewrite Hsl, Ham in Hcomp.
    destruct (amount_of to_float (text am)) as [a|e] eqn:Ha.
    + exists a. split; [reflexivity |].
      change (fold_left comp_step post
                (Ok (<[get_default sl "preferredKey" "" :=
                         {| amount := a; amount_units := get_default am "units" "" |}]>
                       m0)) = Ok comp) in Hcomp.
      rewrite (fold_add_component_other _ _ _ _ Hpost Hcomp).
      apply lookup_insert_eq.
    + change (fold_left comp_step post (Raise e) = Ok comp) in Hcomp.
      rewrite fold_add_component_Raise_acc in Hcomp. discriminate.
  - change (fold_left comp_step post (Raise e) = Ok comp) in Hcomp.
    rewrite fold_add_component_Raise_acc in Hcomp. discriminate.
Qed.

(** X10. A component with a speciesLink and an amount is stored in the
    decoded composition under its preferred key with its amount and the
    units of the amount, provided no later complete component has the same
    key: the last one wins. *)
Theorem X10_composition_entry (root common_props initial_comp c sl am : Element)
    (pre post : list Element) (a : value F) (m : gmap string (Property F)) :
  find root "commonProperties" = Some common_props ->
  find_initial_composition common_props = Some initial_comp ->
  findall initial_comp "component" = pre ++ c :: post ->
  find c "speciesLink" = Some sl -> find c "amount" = Some am ->
  amount_of to_float (text am) = Ok a ->
  Forall (fun c' => forall sl', find c' "speciesLink" = Some sl' ->
                    find c' "amount" <> None ->
                    get_default sl' "preferredKey" ""
                    <> get_default sl "preferredKey" "") post ->
  parse_common_properties to_float root = Ok m ->
  exists composition,
    m !! "initial_composition" = Some (Composition composition)
    /\ composition !! get_default sl "preferredKey" ""
       = Some {| amount := a; amount_units := get_default am "units" "" |}.
Proof.
  intros Hcp Hic Hcomps Hsl Ham Ha Hpost Hm.
  pose proof (parse_common_properties_Ok _ _ _ Hcp Hm) as Hok. cbv zeta in Hok.
  rewrite Hic in Hok. destruct Hok as (comp & Hcomp & ->).
  exists comp. split; [apply lookup_insert_eq |].
  rewrite Hcomps in Hcomp.
  destruct (parse_components_last _ _ _ _ _ _ Hsl Ham Hpost Hcomp) as (a' & Ha' & Hl).
  rewrite Ha in Ha'. injection Ha' as <-. exact Hl.
Qed.

(** X11. The decoded composition holds nothing else: each of its entries
    comes from a component of the initial-composition property that has a
    speciesLink with that preferred key and an amount, whose text gives the
    amount of the entry and whose units attribute gives its units. *)
Theorem X11_composition_entries_declared (root : Element)
    (m : gmap string (Property F)) (composition : gmap string (CompositionEntry F))
    (k : string) (entry : CompositionEntry F) :
  parse_common_properties to_float root = Ok m ->
  m !! "initial_composition" = Some (Composition composition) ->
  composition !! k = Some entry ->
  exists common_props initial_comp c sl am,
    find root "commonProperties" = Some common_props
    /\ find_initial_composition common_props = Some initial_comp
    /\ In c (findall initial_comp "component")
    /\ find c "speciesLink" = Some sl /\ find c "amount" = Some am
    /\ get_default sl "preferredKey" "" = k
    /\ amount_of to_float (text am) = Ok (amount entry)
    /\ amount_units entry = get_default am "units" "".
Proof.
  intros Hm Hcomp Hk.
  destruct (find root "commonProperties") as [cp|] eqn:Hcp.
  - pose proof (parse_common_properties_Ok _ _ _ Hcp Hm) as Hok. cbv zeta in Hok.
    destruct (find_initial_composition cp) as [ic|] eqn:Hic.
    + destruct Hok as (comp & Hparse & ->).
      rewrite lookup_insert_eq in Hcomp. injection Hcomp as <-.
      destruct (fold_add_component_entry _ _ _ _ _ Hparse Hk)
        as [Hempty | (c & sl & am & Hrest)].
      * rewrite lookup_empty in Hempty. discriminate.
      * exists cp, ic, c, sl, am. tauto.
    + subst m. apply fold_add_property_scalar in Hcomp.
      * destruct Hcomp as (pv & Hpv). discriminate.
      * intros k' v' H. rewrite lookup_empty in H. discriminate.
  - unfold parse_common_properties in Hm. rewrite Hcp in Hm.
    injection Hm as <-. rewrite lookup_empty in Hcomp. discriminate.
Qed.

(** X12. Loading a file validates it and then decodes it.  A loaded record
    comes from a parsed document with the required elements, has at least
    one data group and an apparatus entry; a rejected file comes with at
    least one error message; and a validated file fails to load only with
    the ValueError of an amount that is not a number. *)
Theorem X12_load_outcomes (doc : parse_outcome) :
  (forall exp_data,
     load_experiment_file to_float doc = Loaded exp_data ->
     exists root, doc = Parsed root
       /\ parse_experiment to_float root = Ok exp_data
       /\ exp_datagroups exp_data <> []
       /\ is_Some (exp_apparatus exp_data)
       /\ has_child root "experimentType" /\ has_child root "apparatus"
       /\ has_child root "commonProperties")
  /\ (forall errors,
       load_experiment_file to_float doc = Invalid errors -> errors <> [])
  /\ (forall e, load_experiment_file to_float doc = Failed e -> e = ValueError).
Proof.
  destruct doc as [root | msg | msg];
    [|simpl; repeat split; intros; try discriminate; congruence ..].
  unfold load_experiment_file. rewrite validate_parsed. cbv beta zeta.
  destruct (find root "experimentType") as [e1|] eqn:E1,
           (find root "apparatus") as [e2|] eqn:E2,
           (find root "commonProperties") as [e3|] eqn:E3,
           (nonempty (findall_desc root "dataGroup")) eqn:E4; simpl;
    try (repeat split; intros; try discriminate; congruence).
  repeat split.
  - intros exp_data Hload. exists root.
    destruct (parse_experiment to_float root) as [exp|e] eqn:Hexp; [|discriminate].
    injection Hload as <-. destruct (parse_experiment_Ok to_float _ _ Hexp)
      as (_ & Hdgs & _ & _ & Happ & _).
    repeat split.
    + intros Hnil. apply mapM_length in Hdgs. rewrite Hnil in Hdgs.
      destruct (findall_desc root "dataGroup"); simpl in *; discriminate.
    + rewrite Happ. unfold parse_apparatus. rewrite E2. eauto.
    + apply find_is_Some. eauto.
    + apply find_is_Some. eauto.
    + apply find_is_Some. eauto.
  - intros errors Hload.
    destruct (parse_experiment to_float root); discriminate.
  - intros e Hload.
    destruct (parse_experiment to_float root) as [exp|e0] eqn:Hexp; [discriminate |].
    injection Hload as <-. apply parse_experiment_Raise in Hexp.
    now apply common_properties_raise_ValueError in Hexp.
Qed.

End DecodedConditions.

(** * Further properties of the encoder *)

Section EncoderFailure.

Context {num : Type} `{Number num}.

(** The exception is a [KeyError] for one of the listed keys. *)
Local Abbreviation key_error keys e :=
  (exists k : string, e = KeyError k /\ In k keys).

Local Abbreviation condition_keys := ["units"; "value"; "species"; "amount"].

Local Abbreviation keys_v1 :=
  ["units"; "value"; "species"; "amount"; "id"; "name"; "x_axis"; "label";
   "unit"; "y_axes"].

Local Abbreviation keys_v2 :=
  ["units"; "value"; "species"; "amount"; "id"; "columns"].

Ltac key_found := eexists; split; [reflexivity | simpl; auto 20].

Lemma mapM_complete {A B} (f : A -> result B) (P : A -> bool)
    (Q : exn -> Prop) (l : list A) :
  (forall a, match f a with
             | Ok _ => P a = true
             | Raise e => P a = false /\ Q e
             end) ->
  match mapM f l with
  | Ok _ => forallb P l = true
  | Raise e => forallb P l = false /\ Q e
  end.
Proof.
  intros Hf. induction l as [|a l IH]; simpl; [reflexivity |].
  unfold mbind, result_bind. specialize (Hf a).
  destruct (f a) as [b|e].
  - rewrite Hf. simpl. destruct (mapM f l) as [bs|e]; simpl; exact IH.
  - destruct Hf as [-> HQ]. now split.
Qed.

Lemma v1_quantity_property_complete (name label : string)
    (q : option (Quantity num)) :
  match V1.quantity_property name label q with
  | Ok _ => quantity_complete q = true
  | Raise e => quantity_complete q = false /\ key_error condition_keys e
  end.
Proof.
  destruct q as [[[v|] [u|]]|]; simpl; try reflexivity; split;
    try reflexivity; key_found.
Qed.

Lemma v2_quantity_property_complete (name : string) (q : option (Quantity num)) :
  match V2.quantity_property name q with
  | Ok _ => quantity_complete q = true
  | Raise e => quantity_complete q = false /\ key_error condition_keys e
  end.
Proof.
  destruct q as [[[v|] [u|]]|]; simpl; try reflexivity; split;
    try reflexivity; key_found.
Qed.

Lemma v1_component_complete (c : Component num) :
  match V1.component c with
  | Ok _ => component_complete c = true
  | Raise e => component_complete c = false /\ key_error condition_keys e
  end.
Proof.
  destruct c as [[sp|] [am|] [un|] cas cn inchi sm]; simpl; try reflexivity;
    split; try reflexivity; key_found.
Qed.

Lemma v2_component_complete (c : Component num) :
  match V2.component c with
  | Ok _ => component_complete c = true
  | Raise e => component_complete c = false /\ key_error condition_keys e
  end.
Proof.
  destruct c as [[sp|] [am|] [un|] cas cn inchi sm]; simpl; try reflexivity;
    split; try reflexivity; key_found.
Qed.

Lemma v1_initial_composition_complete (c : option (list (Component num))) :
  match V1.initial_composition c with
  | Ok _ => forallb component_complete (get_or c []) = true
  | Raise e => forallb component_complete (get_or c []) = false
               /\ key_error condition_keys e
  end.
Proof.
  destruct c as [comps|]; simpl; [|reflexivity].
  destruct comps as [|c0 comps]; [reflexivity |].
  change (nonempty (c0 :: comps)) with true. cbv iota.
  pose proof (mapM_complete V1.component component_complete
                (fun e => key_error condition_keys e) (c0 :: comps)
                v1_component_complete) as Hm.
  unfold mbind, result_bind.
  destruct (mapM V1.component (c0 :: comps)); exact Hm.
Qed.

Lemma v2_initial_composition_complete (c : option (list (Component num))) :
  match V2.initial_composition c with
  | Ok _ => forallb component_complete (get_or c []) = true
  | Raise e => forallb component_complete (get_or c []) = false
               /\ key_error condition_keys e
  end.
Proof.
  destruct c as [comps|]; simpl; [|reflexivity].
  destruct comps as [|c0 comps]; [reflexivity |].
  change (nonempty (c0 :: comps)) with true. cbv iota.
  pose proof (mapM_complete V2.component component_complete
                (fun e => key_error condition_keys e) (c0 :: comps)
                v2_component_complete) as Hm.
  unfold mbind, result_bind.
  destruct (mapM V2.component (c0 :: comps)); exact Hm.
Qed.

Lemma v1_common_properties_complete (c : Conditions num)
    (optional : list (string * dvalue num)) :
  match V1.common_properties c optional with
  | Ok _ => conditions_complete c = true
  | Raise e => conditions_complete c = false /\ key_error condition_keys e
  end.
Proof.
  unfold V1.common_properties, conditions_complete, mbind, result_bind.
  pose proof (v1_quantity_property_complete "temperature" "T" (temperature c)) as Ht.
  pose proof (v1_quantity_property_complete "pressure" "P" (pressure c)) as Hp.
  pose proof (v1_initial_composition_complete (composition c)) as Hc.
  destruct (V1.quantity_property "temperature" "T" (temperature c));
    [rewrite Ht | destruct Ht as [-> Ht]; now split].
  destruct (V1.quantity_property "pressure" "P" (pressure c));
    [rewrite Hp | destruct Hp as [-> Hp]; now split].
  destruct (V1.initial_composition (composition c));
    [rewrite Hc; reflexivity | destruct Hc as [-> Hc]; now split].
Qed.

Lemma v2_common_properties_complete (c : Conditions num) :
  match V2.common_properties c with
  | Ok _ => conditions_complete c = true
  | Raise e => conditions_complete c = false /\ key_error condition_keys e
  end.
Proof.
  unfold V2.common_properties, conditions_complete, mbind, result_bind.
  pose proof (v2_quantity_property_complete "temperature" (temperature c)) as Ht.
  pose proof (v2_quantity_property_complete "pressure" (pressure c)) as Hp.
  pose proof (v2_initial_composition_complete (composition c)) as Hc.
  destruct (V2.quantity_property "temperature" (temperature c));
    [rewrite Ht | destruct Ht as [-> Ht]; now split].
  destruct (V2.quantity_property "pressure" (pressure c));
    [rewrite Hp | destruct Hp as [-> Hp]; now split].
  destruct (V2.initial_composition (composition c));
    [rewrite Hc; reflexivity | destruct Hc as [-> Hc]; now split].
Qed.

Lemma v1_y_property_complete (a : Axis) :
  match V1.y_property a with
  | Ok _ => axis_complete a = true
  | Raise e => axis_complete a = false /\ key_error keys_v1 e
  end.
Proof.
  destruct a as [[id|] [name|] label [unit|] sp]; simpl; try reflexivity;
    split; try reflexivity; key_found.
Qed.

Lemma v2_data_group_complete (dg : DraftDataGroup num) :
  match V2.data_group dg with
  | Ok _ => group_complete_v2 dg = true
  | Raise e => group_complete_v2 dg = false /\ key_error keys_v2 e
  end.
Proof.
  destruct dg as [[id|] name x ys [cols|] data]; simpl; try reflexivity;
    split; try reflexivity; key_found.
Qed.

Lemma v1_data_group_complete (dg : DraftDataGroup num) :
  match V1.data_group dg with
  | Ok _ => group_complete_v1 dg = true
  | Raise e => group_complete_v1 dg = false /\ key_error keys_v1 e
  end.
Proof.
  destruct (group_complete_v1 dg) eqn:Hc.
  - destruct (v1_data_group_ok dg Hc) as (e & -> & _). reflexivity.
  - destruct dg as [[id|] [name|] [x|] ys cols data];
      unfold group_complete_v1, V1.data_group in *; simpl in *;
      try (split; [reflexivity | key_found]).
    destruct x as [[xid|] [xname|] [xlabel|] [xunit|] xsp]; simpl in *;
      try (split; [reflexivity | key_found]);
      try (destruct ys; split; [reflexivity | key_found]).
    destruct ys as [ys|]; simpl in *; [|split; [reflexivity | key_found]].
    pose proof (mapM_complete V1.y_property axis_complete
                  (fun e => key_error keys_v1 e) ys v1_y_property_complete) as Hm.
    unfold mbind, result_bind.
    destruct (mapM V1.y_property ys) as [yes|e];
      [rewrite Hm in Hc; discriminate | split; [reflexivity | apply Hm]].
Qed.

(** Building the tree fails exactly when a mandatory key is missing, and
    then with [KeyError] for one of the keys read with an index. *)
Lemma experiment_tree_failures (draft : Draft num) :
  is_ok (V1.experiment_tree draft) = mandatory_present_v1 draft
  /\ (forall e, V1.experiment_tree draft = Raise e -> key_error keys_v1 e)
  /\ is_ok (V2.experiment_tree draft) = mandatory_present_v2 draft
  /\ (forall e, V2.experiment_tree draft = Raise e -> key_error keys_v2 e).
Proof.
  unfold V1.experiment_tree, V2.experiment_tree, mandatory_present_v1,
    mandatory_present_v2, mbind, result_bind.
  set (conds := get_or (conditions draft) no_conditions).
  pose proof (v1_common_properties_complete conds (optional_params draft)) as H1.
  pose proof (v2_common_properties_complete conds) as H2.
  pose proof (mapM_complete V1.data_group group_complete_v1
                (fun e => key_error keys_v1 e) (data_groups_new draft)
                v1_data_group_complete) as G1.
  pose proof (mapM_complete V2.data_group group_complete_v2
                (fun e => key_error keys_v2 e) (data_groups_new draft)
                v2_data_group_complete) as G2.
  repeat split.
  - destruct (V1.common_properties conds (optional_params draft));
      [rewrite H1 | now destruct H1 as [-> _]].
    destruct (mapM V1.data_group (data_groups_new draft));
      [now rewrite G1 | now destruct G1 as [-> _]].
  - intros e He.
    destruct (V1.common_properties conds (optional_params draft)) as [c|e0].
    + destruct (mapM V1.data_group (data_groups_new draft)); [discriminate |].
      injection He as <-. apply G1.
    + injection He as <-. destruct H1 as (_ & k & -> & Hk).
      exists k. split; [reflexivity |]. simpl in *. tauto.
  - destruct (V2.common_properties conds); [rewrite H2 | now destruct H2 as [-> _]].
    destruct (mapM V2.data_group (data_groups_new draft));
      [now rewrite G2 | now destruct G2 as [-> _]].
  - intros e He.
    destruct (V2.common_properties conds) as [c|e0].
    + destruct (mapM V2.data_group (data_groups_new draft)); [discriminate |].
      injection He as <-. apply G2.
    + injection He as <-. destruct H2 as (_ & k & -> & Hk).
      exists k. split; [reflexivity |]. simpl in *. tauto.
Qed.


(** X13. When a mandatory key of the draft is missing, each encoder raises
    KeyError for one of the keys it reads with an index, whatever the
    serialisation would do.  Every other exception of an encoder is raised
    by the serialisation of the tree it has built. *)
Theorem X13_encoder_failures (toprettyxml : Element -> result string)
    (draft : Draft num) :
  (mandatory_present_v1 draft = false ->
   exists k, In k keys_v1
     /\ V1.create_enhanced_xml toprettyxml draft = Raise (KeyError k))
  /\ (forall e, V1.create_enhanced_xml toprettyxml draft = Raise e ->
      (mandatory_present_v1 draft = false /\ key_error keys_v1 e)
      \/ exists root, V1.experiment_tree draft = Ok root
           /\ toprettyxml root = Raise e)
  /\ (mandatory_present_v2 draft = false ->
      exists k, In k keys_v2
        /\ V2.create_enhanced_xml toprettyxml draft = Raise (KeyError k))
  /\ (forall e, V2.create_enhanced_xml toprettyxml draft = Raise e ->
      (mandatory_present_v2 draft = false /\ key_error keys_v2 e)
      \/ exists root, V2.experiment_tree draft = Ok root
           /\ toprettyxml root = Raise e).
Proof.
  destruct (experiment_tree_failures draft) as (Hok1 & Hkey1 & Hok2 & Hkey2).
  unfold V1.create_enhanced_xml, V2.create_enhanced_xml, mbind, result_bind.
  repeat split.
  - intros Hm. destruct (V1.experiment_tree draft) as [root|e];
      [simpl in Hok1; congruence |].
    destruct (Hkey1 e eq_refl) as (k & -> & Hk). now exists k.
  - intros e He. destruct (V1.experiment_tree draft) as [root|e0].
    + right. now exists root.
    + injection He as <-. left. split; [now rewrite <- Hok1 | now apply Hkey1].
  - intros Hm. destruct (V2.experiment_tree draft) as [root|e];
      [simpl in Hok2; congruence |].
    destruct (Hkey2 e eq_refl) as (k & -> & Hk). now exists k.
  - intros e He. destruct (V2.experiment_tree draft) as [root|e0].
    + right. now exists root.
    + injection He as <-. left. split; [now rewrite <- Hok2 | now apply Hkey2].
Qed.

End EncoderFailure.

Section EncodedTrees.

Context {num : Type} `{Number num}.

(** The elements with tag dataGroup among a list of trees. *)
Local Abbreviation data_groups_in l :=
  (List.filter (fun c => String.eqb (tag c) "dataGroup") (flat_map iter l)).

Lemma data_groups_in_app (l1 l2 : list Element) :
  data_groups_in (l1 ++ l2) = data_groups_in l1 ++ data_groups_in l2.
Proof. now rewrite flat_map_app, List.filter_app. Qed.

Lemma data_groups_in_node (t : string) (a : list (string * string))
    (x : option string) (cs : list Element) :
  String.eqb t "dataGroup" = false -> data_groups_in cs = [] ->
  data_groups_in [Elem t a x cs] = [].
Proof.
  intros Ht Hcs. cbn [flat_map iter]. rewrite app_nil_r.
  cbn [List.filter tag]. now rewrite Ht.
Qed.

Lemma data_groups_in_flat_map {A} (g : A -> list Element) (l : list A) :
  (forall a, data_groups_in (g a) = []) -> data_groups_in (flat_map g l) = [].
Proof.
  intros Hg. induction l as [|a l IH]; [reflexivity |].
  cbn [flat_map]. now rewrite data_groups_in_app, Hg, IH.
Qed.

Lemma data_groups_in_mapM {A} (f : A -> result Element) (l : list A)
    (es : list Element) :
  (forall a e, f a = Ok e -> data_groups_in [e] = []) ->
  mapM f l = Ok es -> data_groups_in es = [].
Proof.
  intros Hf. revert es. induction l as [|a l IH]; simpl; intros es Hm.
  - now injection Hm as <-.
  - unfold mbind, result_bind in Hm. destruct (f a) as [e|] eqn:Ha; [|discriminate].
    destruct (mapM f l) as [es0|]; [|discriminate]. injection Hm as <-.
    change (e :: es0) with ([e] ++ es0).
    now rewrite data_groups_in_app, (Hf a e Ha), (IH es0 eq_refl).
Qed.

Lemma v1_quantity_no_group (name label : string) (q : option (Quantity num))
    (l : list Element) :
  V1.quantity_property name label q = Ok l -> data_groups_in l = [].
Proof.
  destruct q as [[[v|] [u|]]|]; simpl; intros Hq; try discriminate;
    injection Hq as <-; reflexivity.
Qed.

Lemma v2_quantity_no_group (name : string) (q : option (Quantity num))
    (l : list Element) :
  V2.quantity_property name q = Ok l -> data_groups_in l = [].
Proof.
  destruct q as [[[v|] [u|]]|]; simpl; intros Hq; try discriminate;
    injection Hq as <-; reflexivity.
Qed.

Lemma v1_component_no_group (c : Component num) (e : Element) :
  V1.component c = Ok e -> data_groups_in [e] = [].
Proof.
  destruct c as [[sp|] [am|] [un|] cas cn inchi sm]; simpl; intros Hc;
    try discriminate; injection Hc as <-; reflexivity.
Qed.

Lemma v2_component_no_group (c : Component num) (e : Element) :
  V2.component c = Ok e -> data_groups_in [e] = [].
Proof.
  destruct c as [[sp|] [am|] [un|] cas cn inchi sm]; simpl; intros Hc;
    try discriminate; injection Hc as <-; reflexivity.
Qed.

Lemma v1_composition_no_group (c : option (list (Component num)))
    (l : list Element) :
  V1.initial_composition c = Ok l -> data_groups_in l = [].
Proof.
  destruct c as [comps|]; simpl; [|intros Hc; now injection Hc as <-].
  destruct (nonempty comps); [|intros Hc; now injection Hc as <-].
  unfold mbind, result_bind. destruct (mapM V1.component comps) as [cs|] eqn:Hm;
    [|discriminate].
  intros Hc. injection Hc as <-. apply data_groups_in_node; [reflexivity |].
  exact (data_groups_in_mapM _ _ _ v1_component_no_group Hm).
Qed.

Lemma v2_composition_no_group (c : option (list (Component num)))
    (l : list Element) :
  V2.initial_composition c = Ok l -> data_groups_in l = [].
Proof.
  destruct c as [comps|]; simpl; [|intros Hc; now injection Hc as <-].
  destruct (nonempty comps); [|intros Hc; now injection Hc as <-].
  unfold mbind, result_bind. destruct (mapM V2.component comps) as [cs|] eqn:Hm;
    [|discriminate].
  intros Hc. injection Hc as <-. apply data_groups_in_node; [reflexivity |].
  exact (data_groups_in_mapM _ _ _ v2_component_no_group Hm).
Qed.

(** The shape of the commonProperties element of the first encoder. *)
Lemma v1_common_properties_shape (c : Conditions num)
    (optional : list (string * dvalue num)) (e : Element) :
  V1.common_properties c optional = Ok e ->
  exists temp press comp,
    V1.quantity_property "temperature" "T" (temperature c) = Ok temp
    /\ V1.quantity_property "pressure" "P" (pressure c) = Ok press
    /\ V1.initial_composition (composition c) = Ok comp
    /\ e = Elem "commonProperties" [] None
             (temp ++ press
              ++ flat_map V1.reactor_property (get_or (reactor_params c) [])
              ++ flat_map V1.optional_property optional ++ comp).
Proof.
  unfold V1.common_properties, mbind, result_bind.
  destruct (V1.quantity_property "temperature" "T" (temperature c)) as [t|];
    [|discriminate].
  destruct (V1.quantity_property "pressure" "P" (pressure c)) as [p|];
    [|discriminate].
  destruct (V1.initial_composition (composition c)) as [ic|]; [|discriminate].
  intros He. injection He as <-. now exists t, p, ic.
Qed.

Lemma v2_common_properties_shape (c : Conditions num) (e : Element) :
  V2.common_properties c = Ok e ->
  exists temp press comp,
    V2.quantity_property "temperature" (temperature c) = Ok temp
    /\ V2.quantity_property "pressure" (pressure c) = Ok press
    /\ V2.initial_composition (composition c) = Ok comp
    /\ e = Elem "commonProperties" [] None (temp ++ press ++ comp).
Proof.
  unfold V2.common_properties, mbind, result_bind.
  destruct (V2.quantity_property "temperature" (temperature c)) as [t|];
    [|discriminate].
  destruct (V2.quantity_property "pressure" (pressure c)) as [p|];
    [|discriminate].
  destruct (V2.initial_composition (composition c)) as [ic|]; [|discriminate].
  intros He. injection He as <-. now exists t, p, ic.
Qed.

Lemma v1_common_no_group (c : Conditions num)
    (optional : list (string * dvalue num)) (e : Element) :
  V1.common_properties c optional = Ok e -> data_groups_in [e] = [].
Proof.
  intros He. apply v1_common_properties_shape in He.
  destruct He as (t & p & ic & Ht & Hp & Hic & ->).
  apply data_groups_in_node; [reflexivity |].
  rewrite !data_groups_in_app, (v1_quantity_no_group _ _ _ _ Ht),
    (v1_quantity_no_group _ _ _ _ Hp), (v1_composition_no_group _ _ Hic).
  rewrite !data_groups_in_flat_map; [reflexivity | |].
  - intros [k v]. unfold V1.optional_property.
    destruct (str_in k _); reflexivity.
  - intros [k v]. unfold V1.reactor_property.
    destruct (num_bool v && num_gt0 v); reflexivity.
Qed.

Lemma v2_common_no_group (c : Conditions num) (e : Element) :
  V2.common_properties c = Ok e -> data_groups_in [e] = [].
Proof.
  intros He. apply v2_common_properties_shape in He.
  destruct He as (t & p & ic & Ht & Hp & Hic & ->).
  apply data_groups_in_node; [reflexivity |].
  now rewrite !data_groups_in_app, (v2_quantity_no_group _ _ _ Ht),
    (v2_quantity_no_group _ _ _ Hp), (v2_composition_no_group _ _ Hic).
Qed.

Lemma v1_data_group_tag (dg : DraftDataGroup num) (e : Element) :
  V1.data_group dg = Ok e -> tag e = "dataGroup".
Proof.
  unfold V1.data_group, mbind, result_bind, item.
  destruct (d_id dg), (d_name dg), (d_x_axis dg) as [x|]; try discriminate.
  destruct (V1.x_property x); [|discriminate].
  destruct (d_y_axes dg) as [ys|]; [|discriminate].
  destruct (mapM V1.y_property ys); [|discriminate].
  destruct (mapM _ (get_or (d_data dg) [])); [|discriminate].
  intros He. now injection He as <-.
Qed.

Lemma v2_data_group_tag (dg : DraftDataGroup num) (e : Element) :
  V2.data_group dg = Ok e -> tag e = "dataGroup".
Proof.
  unfold V2.data_group, mbind, result_bind, item.
  destruct (d_id dg), (d_columns dg); try discriminate.
  intros He. now injection He as <-.
Qed.

Lemma mapM_tags {A} (f : A -> result Element) (t : string) (l : list A)
    (es : list Element) :
  (forall a e, f a = Ok e -> tag e = t) -> mapM f l = Ok es ->
  Forall (fun e => tag e = t) es.
Proof.
  intros Hf Hm. apply mapM_Forall2 in Hm.
  induction Hm as [|a e l es Ha _ IH]; constructor; eauto.
Qed.

Lemma bibliography_cases (ref : Reference num) :
  V1.bibliography ref = []
  \/ exists cs, V1.bibliography ref = [Elem "bibliographyLink" [] None cs]
       /\ data_groups_in cs = [].
Proof.
  unfold V1.bibliography.
  destruct (ref_author ref) as [a|]; [|now left].
  destruct (ref_title ref) as [t|]; [|now left].
  destruct (truthy a && truthy t); [|now left].
  right. eexists. split; [reflexivity |].
  destruct (ref_journal ref) as [j|]; [destruct (truthy j) |];
    (destruct (ref_year ref) as [y|]; [destruct (num_bool y) |]);
    (destruct (ref_doi ref) as [d|]; [destruct (truthy d) |]); reflexivity.
Qed.

(** Among elements that all have the tag [t'], none has another tag. *)
Lemma filter_other_tag (t t' : string) (es : list Element) :
  t <> t' -> Forall (fun e => tag e = t') es ->
  List.filter (fun c => String.eqb (tag c) t) es = [].
Proof.
  intros Hne Hall. induction Hall as [|e es He _ IH]; [reflexivity |].
  simpl. rewrite He. destruct (String.eqb t' t) eqn:E; [|exact IH].
  apply String.eqb_eq in E. congruence.
Qed.

Lemma data_groups_in_groups (es : list Element) :
  Forall (fun e => tag e = "dataGroup") es ->
  nonempty (data_groups_in es) = nonempty es.
Proof.
  intros Hall. destruct Hall as [|e es He _]; [reflexivity |].
  destruct e as [t a x cs]. simpl in He. subst t. reflexivity.
Qed.

Lemma nonempty_length {A B} (l1 : list A) (l2 : list B) :
  length l1 = length l2 -> nonempty l1 = nonempty l2.
Proof. destruct l1, l2; simpl; intros Hl; try discriminate; reflexivity. Qed.

Lemma v1_root_shape (draft : Draft num) (root : Element) :
  V1.experiment_tree draft = Ok root ->
  let basic := get_or (basic_info draft) no_basic_info in
  exists common groups,
    V1.common_properties (get_or (conditions draft) no_conditions)
      (optional_params draft) = Ok common
    /\ mapM V1.data_group (data_groups_new draft) = Ok groups
    /\ root = Elem "experiment" [] None
               ([file_author basic] ++ file_doi basic
                ++ [Elem "fileVersion" [] None
                      [text_elem "major" "1"; text_elem "minor" "0"];
                    experiment_type basic; apparatus basic]
                ++ V1.bibliography (get_or (reference basic) no_reference)
                ++ [common] ++ groups).
Proof.
  unfold V1.experiment_tree, mbind, result_bind.
  destruct (V1.common_properties _ _) as [common|]; [|discriminate].
  destruct (mapM V1.data_group _) as [groups|]; [|discriminate].
  intros Hr. injection Hr as <-. now exists common, groups.
Qed.

Lemma v2_root_shape (draft : Draft num) (root : Element) :
  V2.experiment_tree draft = Ok root ->
  let basic := get_or (basic_info draft) no_basic_info in
  exists common groups,
    V2.common_properties (get_or (conditions draft) no_conditions) = Ok common
    /\ mapM V2.data_group (data_groups_new draft) = Ok groups
    /\ root = Elem "experiment" [] None
               ([file_author basic] ++ file_doi basic
                ++ [experiment_type basic; apparatus basic]
                ++ [common] ++ groups).
Proof.
  unfold V2.experiment_tree, mbind, result_bind.
  destruct (V2.common_properties _) as [common|]; [|discriminate].
  destruct (mapM V2.data_group _) as [groups|]; [|discriminate].
  intros Hr. injection Hr as <-. now exists common, groups.
Qed.

(** Looking below the root for a tag other than dataGroup skips the data
    groups at the end. *)
Lemma find_before_groups (t : string) (a : list (string * string))
    (x : option string) (pre groups : list Element) (tg : string) :
  tg <> "dataGroup" -> Forall (fun e => tag e = "dataGroup") groups ->
  find (Elem t a x (pre ++ groups)) tg
  = head (List.filter (fun c => String.eqb (tag c) tg) pre).
Proof.
  intros Hne Hall. unfold find, findall. cbn [children].
  now rewrite List.filter_app, (filter_other_tag tg "dataGroup" groups Hne Hall),
    app_nil_r.
Qed.

Lemma validate_built (root : Element) (e1 e2 e3 : Element) (b : bool) :
  find root "experimentType" = Some e1 -> find root "apparatus" = Some e2 ->
  find root "commonProperties" = Some e3 ->
  nonempty (findall_desc root "dataGroup") = b ->
  validate_xml_structure (Parsed root)
  = if b then (true, []) else (false, ["没有找到数据组"]).
Proof.
  intros H1 H2 H3 H4. rewrite validate_parsed. cbv beta zeta.
  rewrite H1, H2, H3, H4. now destruct b.
Qed.

Lemma file_doi_no_group (b : BasicInfo num) : data_groups_in (file_doi b) = [].
Proof. destruct (file_doi_cases b) as [-> | (d & ->)]; reflexivity. Qed.

Lemma bibliography_no_group (ref : Reference num) :
  data_groups_in (V1.bibliography ref) = [].
Proof.
  destruct (bibliography_cases ref) as [-> | (cs & -> & Hcs)]; [reflexivity |].
  now apply data_groups_in_node.
Qed.

Lemma author_no_group (b : BasicInfo num) : data_groups_in [file_author b] = [].
Proof. reflexivity. Qed.

Lemma version_block_no_group (b : BasicInfo num) :
  data_groups_in
    ([Elem "fileVersion" [] None [text_elem "major" "1"; text_elem "minor" "0"]]
     ++ [experiment_type b; apparatus b]) = [].
Proof. reflexivity. Qed.

(** X14. The tree an encoder builds always has the three required
    elements, so it passes the validator's checks exactly when the draft has
    at least one data group; without a data group the only error is the
    no-data-groups message. *)
Theorem X14_encoded_tree_validation (draft : Draft num) :
  (forall root, V1.experiment_tree draft = Ok root ->
     validate_xml_structure (Parsed root)
     = if nonempty (data_groups_new draft)
       then (true, []) else (false, ["没有找到数据组"]))
  /\ (forall root, V2.experiment_tree draft = Ok root ->
       validate_xml_structure (Parsed root)
       = if nonempty (data_groups_new draft)
         then (true, []) else (false, ["没有找到数据组"])).
Proof.
  split; intros root Hroot.
  - apply v1_root_shape in Hroot. cbv zeta in Hroot.
    destruct Hroot as (common & groups & Hcommon & Hgroups & ->).
    set (basic := get_or (basic_info draft) no_basic_info).
    pose proof (mapM_tags _ "dataGroup" _ _ v1_data_group_tag Hgroups) as Htags.
    pose proof (v1_common_no_group _ _ _ Hcommon) as Hclean.
    rewrite <- (nonempty_length _ _ (mapM_length _ _ _ Hgroups)).
    rewrite <- (data_groups_in_groups _ Htags).
    apply v1_common_properties_shape in Hcommon.
    destruct Hcommon as (t & p & ic & _ & _ & _ & ->).
    eapply validate_built.
    + destruct (file_doi_cases basic) as [-> | (d & ->)]; reflexivity.
    + destruct (file_doi_cases basic) as [-> | (d & ->)]; reflexivity.
    + destruct (file_doi_cases basic) as [-> | (d & ->)];
        destruct (bibliography_cases (get_or (reference basic) no_reference))
          as [-> | (cs & -> & _)]; reflexivity.
    + unfold findall_desc, descendants. cbn [children].
      change [Elem "fileVersion" [] None
                [text_elem "major" "1"; text_elem "minor" "0"];
              experiment_type basic; apparatus basic]
        with ([Elem "fileVersion" [] None
                 [text_elem "major" "1"; text_elem "minor" "0"]]
              ++ [experiment_type basic; apparatus basic]).
      rewrite (data_groups_in_app [file_author basic]), author_no_group.
      rewrite (data_groups_in_app (file_doi basic)), file_doi_no_group.
      rewrite (data_groups_in_app (_ ++ _)), version_block_no_group.
      rewrite (data_groups_in_app (V1.bibliography _)), bibliography_no_group.
      rewrite (data_groups_in_app [_]), Hclean. reflexivity.
  - apply v2_root_shape in Hroot. cbv zeta in Hroot.
    destruct Hroot as (common & groups & Hcommon & Hgroups & ->).
    set (basic := get_or (basic_info draft) no_basic_info).
    pose proof (mapM_tags _ "dataGroup" _ _ v2_data_group_tag Hgroups) as Htags.
    pose proof (v2_common_no_group _ _ Hcommon) as Hclean.
    rewrite <- (nonempty_length _ _ (mapM_length _ _ _ Hgroups)).
    rewrite <- (data_groups_in_groups _ Htags).
    apply v2_common_properties_shape in Hcommon.
    destruct Hcommon as (t & p & ic & _ & _ & _ & ->).
    eapply validate_built.
    + destruct (file_doi_cases basic) as [-> | (d & ->)]; reflexivity.
    + destruct (file_doi_cases basic) as [-> | (d & ->)]; reflexivity.
    + destruct (file_doi_cases basic) as [-> | (d & ->)]; reflexivity.
    + unfold findall_desc, descendants. cbn [children].
      rewrite (data_groups_in_app [file_author basic]), author_no_group.
      rewrite (data_groups_in_app (file_doi basic)), file_doi_no_group.
      rewrite (data_groups_in_app [_; _]).
      change (data_groups_in [experiment_type basic; apparatus basic])
        with (@nil Element).
      rewrite (data_groups_in_app [_]), Hclean. reflexivity.
Qed.





End EncodedTrees.

Section EncodedMetadata.

Context {num : Type} `{Number num}.

(** X16. Decoding the tree an encoder builds gives back the author, the
    DOI, the experiment type and the reactor kind of the draft with the
    surrounding white space removed, with the defaults Unknown and JSR for
    an absent author or reactor.  The version is 1.0 for the first encoder
    and absent for the second, the publication dates are always empty and
    the apparatus has no type attribute. *)
Theorem X16_metadata_round_trip (draft : Draft num) :
  let basic := get_or (basic_info draft) no_basic_info in
  let kept s := if truthy s then py_strip s else "" in
  (forall root, V1.experiment_tree draft = Ok root ->
     parse_metadata root
     = {| md_author := kept (get_or (author basic) "Unknown");
          md_doi := kept (get_or (doi basic) "");
          md_version := Some {| major := "1"; minor := "0" |};
          md_first_publication := ""; md_last_modification := "" |}
     /\ get_text root "experimentType" = kept (get_or (exp_type basic) "")
     /\ parse_apparatus root
        = Some {| app_kind := kept (get_or (reactor basic) "JSR");
                  app_type := "" |})
  /\ (forall root, V2.experiment_tree draft = Ok root ->
       parse_metadata root
       = {| md_author := kept (get_or (author basic) "Unknown");
            md_doi := kept (get_or (doi basic) "");
            md_version := None;
            md_first_publication := ""; md_last_modification := "" |}
       /\ get_text root "experimentType" = kept (get_or (exp_type basic) "")
       /\ parse_apparatus root
          = Some {| app_kind := kept (get_or (reactor basic) "JSR");
                    app_type := "" |}).
Proof.
  cbv zeta. split; intros root Hroot.
  - apply v1_root_shape in Hroot. cbv zeta in Hroot.
    destruct Hroot as (common & groups & Hcommon & Hgroups & ->).
    set (basic := get_or (basic_info draft) no_basic_info).
    pose proof (mapM_tags _ "dataGroup" _ _ v1_data_group_tag Hgroups) as Htags.
    apply v1_common_properties_shape in Hcommon.
    destruct Hcommon as (t & p & ic & _ & _ & _ & ->).
    rewrite !app_assoc.
    unfold parse_metadata, parse_apparatus, get_text.
    rewrite (find_before_groups _ _ _ _ _ "fileAuthor"),
      (find_before_groups _ _ _ _ _ "fileDOI"),
      (find_before_groups _ _ _ _ _ "fileVersion"),
      (find_before_groups _ _ _ _ _ "firstPublicationDate"),
      (find_before_groups _ _ _ _ _ "lastModificationDate"),
      (find_before_groups _ _ _ _ _ "experimentType"),
      (find_before_groups _ _ _ _ _ "apparatus") by (discriminate || exact Htags).
    unfold file_doi.
    destruct (doi basic) as [d|]; [destruct (truthy d) eqn:Hd |];
      destruct (bibliography_cases (get_or (reference basic) no_reference))
        as [-> | (cs & -> & _)];
      cbn; rewrite ?Hd; repeat split.
  - apply v2_root_shape in Hroot. cbv zeta in Hroot.
    destruct Hroot as (common & groups & Hcommon & Hgroups & ->).
    set (basic := get_or (basic_info draft) no_basic_info).
    pose proof (mapM_tags _ "dataGroup" _ _ v2_data_group_tag Hgroups) as Htags.
    apply v2_common_properties_shape in Hcommon.
    destruct Hcommon as (t & p & ic & _ & _ & _ & ->).
    rewrite !app_assoc.
    unfold parse_metadata, parse_apparatus, get_text.
    rewrite (find_before_groups _ _ _ _ _ "fileAuthor"),
      (find_before_groups _ _ _ _ _ "fileDOI"),
      (find_before_groups _ _ _ _ _ "fileVersion"),
      (find_before_groups _ _ _ _ _ "firstPublicationDate"),
      (find_before_groups _ _ _ _ _ "lastModificationDate"),
      (find_before_groups _ _ _ _ _ "experimentType"),
      (find_before_groups _ _ _ _ _ "apparatus") by (discriminate || exact Htags).
    unfold file_doi.
    destruct (doi basic) as [d|]; [destruct (truthy d) eqn:Hd |];
      cbn; rewrite ?Hd; repeat split.
Qed.

End EncodedMetadata.

(** * Encoding and decoding again *)

Section RoundTrip.

Context {num : Type} `{Number num}.
Context {F : Type} (to_float : string -> option F).

Lemma filter_same_tag (t : string) (es : list Element) :
  Forall (fun e => tag e = t) es ->
  List.filter (fun c => String.eqb (tag c) t) es = es.
Proof.
  intros Hall. induction Hall as [|e es He _ IH]; [reflexivity |].
  simpl. now rewrite He, String.eqb_refl, IH.
Qed.




(** The descriptor decoded from the property the second encoder declares
    for column [col] at position [i]. *)
Local Abbreviation declared_info p :=
  {| prop_id := Some (V2.column_id (fst p)); prop_name := snd p;
     prop_label := ""; prop_units := ""; prop_species := None;
     column_name := snd p |}.








Lemma v1_y_property_decoded (y : Axis) (yp : Element) :
  V1.y_property y = Ok yp ->
  let name := get_or (ax_name y) "" in
  let unit := get_or (ax_unit y) "" in
  let label := get_or (ax_label y) name in
  tag yp = "property"
  /\ prop_id (parse_property yp) = ax_id y
  /\ column_name (parse_property yp)
     = match ax_species y with
       | Some sp =>
           if truthy sp && present (assoc_get COMMON_SPECIES sp)
           then sp +:+ " (" +:+ unit +:+ ")"
           else if truthy label
                then (if truthy unit then label +:+ " (" +:+ unit +:+ ")" else label)
                else (if truthy unit then name +:+ " (" +:+ unit +:+ ")" else name)
       | None =>
           if truthy label
           then (if truthy unit then label +:+ " (" +:+ unit +:+ ")" else label)
           else (if truthy unit then name +:+ " (" +:+ unit +:+ ")" else name)
       end.
Proof.
  destruct y as [[id|] [name|] label [unit|] sp]; unfold V1.y_property;
    cbn [ax_id ax_name ax_label ax_unit ax_species item get_or];
    unfold mbind, result_bind, mret, result_ret; intros Hy; try discriminate.
  injection Hy as <-. split; [reflexivity |].
  unfold V1.species_link. cbn [ax_species].
  destruct sp as [sp|]; [|split; reflexivity].
  destruct (truthy sp); [|split; reflexivity].
  destruct (assoc_get COMMON_SPECIES sp); split; reflexivity.
Qed.

Lemma v1_data_point_tag (x : Axis) (ys : option (list Axis))
    (row : list (string * dvalue num)) (e : Element) :
  V1.data_point x ys row = Ok e -> tag e = "dataPoint".
Proof.
  unfold V1.data_point, mbind, result_bind.
  destruct (V1.cell row x); [|discriminate].
  destruct (item "y_axes" ys) as [l|]; [|discriminate].
  destruct (mapM (V1.cell row) l); [|discriminate].
  intros He. now injection He as <-.
Qed.

(** X18. Decoding a data group built by the first encoder gives one
    property per axis, the X axis first and the Y axes in their order, with
    the ids of the axes.  The X column is named by its label, or by its name
    when the label is empty, followed by the unit in parentheses unless the
    unit is empty; a Y column linked to a species of the registry is named
    by the species key followed by the unit in parentheses, and any other Y
    column like the X column. *)
Theorem X18_v1_group_columns (dg : DraftDataGroup num) (e : Element)
    (decoded : DataGroup F) (x : Axis) (ys : list Axis) :
  V1.data_group dg = Ok e -> parse_datagroup to_float e = Ok decoded ->
  d_x_axis dg = Some x -> d_y_axes dg = Some ys ->
  let plain (a : Axis) :=
    let name := get_or (ax_name a) "" in
    let unit := get_or (ax_unit a) "" in
    let label := get_or (ax_label a) name in
    if truthy label
    then (if truthy unit then label +:+ " (" +:+ unit +:+ ")" else label)
    else (if truthy unit then name +:+ " (" +:+ unit +:+ ")" else name) in
  let linked (a : Axis) :=
    match ax_species a with
    | Some sp =>
        if truthy sp && present (assoc_get COMMON_SPECIES sp)
        then sp +:+ " (" +:+ get_or (ax_unit a) "" +:+ ")"
        else plain a
    | None => plain a
    end in
  map prop_id (properties decoded) = ax_id x :: map ax_id ys
  /\ map column_name (properties decoded) = plain x :: map linked ys.
Proof.
  intros He Hdec Hx Hys. cbv zeta.
  unfold V1.data_group, mbind, result_bind in He. rewrite Hx, Hys in He.
  destruct (d_id dg) as [id|]; [|discriminate].
  destruct (d_name dg) as [name|]; [|discriminate]. cbn [item] in He.
  destruct (V1.x_property x) as [xp|] eqn:Hxp; [|discriminate].
  destruct (mapM V1.y_property ys) as [yps|] eqn:Hyps; [|discriminate].
  destruct (mapM _ (get_or (d_data dg) [])) as [points|] eqn:Hpoints;
    [|discriminate].
  injection He as <-.
  rewrite parse_datagroup_spec in Hdec. injection Hdec as <-.
  cbn [properties].
  assert (Hxdec : tag xp = "property"
                  /\ prop_id (parse_property xp) = ax_id x
                  /\ column_name (parse_property xp)
                     = (let name := get_or (ax_name x) "" in
                        let unit := get_or (ax_unit x) "" in
                        let label := get_or (ax_label x) name in
                        if truthy label
                        then (if truthy unit
                              then label +:+ " (" +:+ unit +:+ ")" else label)
                        else (if truthy unit
                              then name +:+ " (" +:+ unit +:+ ")" else name))).
  { clear - Hxp. destruct x as [[xid|] [xname|] [xlabel|] [xunit|] xsp];
      simpl in Hxp; try discriminate. injection Hxp as <-. repeat split. }
  destruct Hxdec as (Hxtag & Hxid & Hxcol).
  assert (Hytags : Forall (fun e => tag e = "property") yps).
  { apply (mapM_tags V1.y_property "property" ys yps); [|exact Hyps].
    intros a e Ha. now destruct (v1_y_property_decoded a e Ha). }
  assert (Hptags : Forall (fun e => tag e = "dataPoint") points).
  { apply (mapM_tags _ "dataPoint" _ _ (v1_data_point_tag x (Some ys)) Hpoints). }
  assert (Hfind : findall (Elem "dataGroup" [("id", id); ("label", name)] None
                             (xp :: yps ++ points)) "property" = xp :: yps).
  { unfold findall. cbn [children List.filter]. rewrite Hxtag. cbn.
    rewrite List.filter_app, (filter_same_tag "property" yps Hytags),
      (filter_other_tag "property" "dataPoint" points); [|discriminate | exact Hptags].
    now rewrite app_nil_r. }
  rewrite Hfind. cbn [map]. rewrite Hxid, Hxcol.
  apply mapM_Forall2 in Hyps. clear - Hyps.
  induction Hyps as [|y yp ys yps Hy _ IH]; [split; reflexivity |].
  destruct IH as [IHid IHcol].
  injection IHid as IHid. injection IHcol as IHcol.
  destruct (v1_y_property_decoded y yp Hy) as (_ & Hid & Hcol). cbv zeta in Hcol.
  cbn [map]. rewrite Hid, Hcol, IHid, IHcol. split; reflexivity.
Qed.

End RoundTrip.

Section ConditionsRoundTrip.

Context {num : Type} `{Number num}.
Context {F : Type} (to_float : string -> option F).

Lemma mapM_app_inv {A B} (f : A -> result B) (l1 l2 : list A) (a : A)
    (bs : list B) :
  mapM f (l1 ++ a :: l2) = Ok bs ->
  exists bs1 b bs2,
    bs = bs1 ++ b :: bs2 /\ mapM f l1 = Ok bs1 /\ f a = Ok b
    /\ mapM f l2 = Ok bs2.
Proof.
  revert bs. induction l1 as [|x l1 IH]; simpl; intros bs Hm;
    unfold mbind, result_bind in Hm.
  - destruct (f a) as [b|]; [|discriminate].
    destruct (mapM f l2) as [bs2|]; [|discriminate].
    injection Hm as <-. now exists [], b, bs2.
  - destruct (f x) as [y|]; [|discriminate].
    destruct (mapM f (l1 ++ a :: l2)) as [bs0|]; [|discriminate].
    injection Hm as <-.
    destruct (IH bs0 eq_refl) as (bs1 & b & bs2 & -> & -> & Hb & Hbs2).
    exists (y :: bs1), b, bs2. repeat split; assumption.
Qed.

Lemma v2_quantity_cases (name : string) (q : option (Quantity num))
    (l : list Element) :
  V2.quantity_property name q = Ok l ->
  (q = None /\ l = [])
  \/ exists v u, q = Some {| q_value := Some v; q_units := Some u |}
       /\ l = [Elem "property" [("name", name); ("units", u)] None
                 [text_elem "value" (num_str v)]].
Proof.
  destruct q as [[[v|] [u|]]|]; simpl; intros Hq; try discriminate;
    injection Hq as <-; [right; now exists v, u | now left].
Qed.

Lemma v2_component_shape (c : Component num) (ce : Element) :
  V2.component c = Ok ce ->
  exists sp a u attrs,
    c_species c = Some sp /\ c_amount c = Some a /\ c_units c = Some u
    /\ ce = Elem "component" [] None
              [Elem "speciesLink" (("preferredKey", sp) :: attrs) None [];
               Elem "amount" [("units", u)] (Some (num_str a)) []].
Proof.
  destruct c as [[sp|] [a|] [u|] cas cn inchi sm]; simpl; intros Hc;
    try discriminate.
  injection Hc as <-. exists sp, a, u. eexists. repeat split.
Qed.

Lemma v2_composition_cases (c : option (list (Component num)))
    (l : list Element) :
  V2.initial_composition c = Ok l ->
  (l = [] /\ (c = None \/ c = Some []))
  \/ exists comps cs,
       c = Some comps /\ comps <> [] /\ mapM V2.component comps = Ok cs
       /\ l = [Elem "property" [("name", "initial composition")] None cs].
Proof.
  destruct c as [[|c0 comps]|]; simpl; intros Hc;
    [injection Hc as <-; left; auto | | injection Hc as <-; left; auto].
  unfold mbind, result_bind in Hc.
  destruct (V2.component c0) as [ce|] eqn:Hce; [|discriminate].
  destruct (mapM V2.component comps) as [cs|] eqn:Hcs; [|discriminate].
  injection Hc as <-. right. exists (c0 :: comps), (ce :: cs).
  repeat split; [discriminate |]. simpl. unfold mbind, result_bind.
  now rewrite Hce, Hcs.
Qed.

Lemma v2_find_common (draft : Draft num) (root : Element) :
  V2.experiment_tree draft = Ok root ->
  exists common,
    V2.common_properties (get_or (conditions draft) no_conditions) = Ok common
    /\ find root "commonProperties" = Some common.
Proof.
  intros Hroot. apply v2_root_shape in Hroot. cbv zeta in Hroot.
  destruct Hroot as (common & groups & Hcommon & Hgroups & ->).
  exists common. split; [exact Hcommon |].
  pose proof (mapM_tags _ "dataGroup" _ _ v2_data_group_tag Hgroups) as Htags.
  apply v2_common_properties_shape in Hcommon.
  destruct Hcommon as (t & p & ic & _ & _ & _ & ->).
  rewrite !app_assoc.
  rewrite (find_before_groups _ _ _ _ _ "commonProperties")
    by (discriminate || exact Htags).
  destruct (file_doi_cases (get_or (basic_info draft) no_basic_info))
    as [-> | (d & ->)]; reflexivity.
Qed.

Lemma v2_component_tag (c : Component num) (ce : Element) :
  V2.component c = Ok ce -> tag ce = "component".
Proof.
  intros Hc. apply v2_component_shape in Hc.
  now destruct Hc as (sp & a & u & attrs & _ & _ & _ & ->).
Qed.

(** The entry decoded for a component of the draft, among components with
    pairwise distinct species. *)
Lemma v2_components_decoded (comps : list (Component num)) (cs : list Element)
    (comp : gmap string (CompositionEntry F)) (c : Component num)
    (sp u : string) (a : num) :
  mapM V2.component comps = Ok cs ->
  parse_components to_float cs = Ok comp ->
  NoDup (map c_species comps) -> In c comps ->
  c_species c = Some sp -> c_amount c = Some a -> c_units c = Some u ->
  exists a', amount_of to_float (Some (num_str a)) = Ok a'
    /\ comp !! sp = Some {| amount := a'; amount_units := u |}.
Proof.
  intros Hcs Hcomp Hnd Hin Hsp Ha Hu.
  apply in_split in Hin. destruct Hin as (l1 & l2 & ->).
  apply mapM_app_inv in Hcs.
  destruct Hcs as (cs1 & ce & cs2 & -> & _ & Hce & Hcs2).
  apply v2_component_shape in Hce.
  destruct Hce as (sp' & a' & u' & attrs & Hsp' & Ha' & Hu' & ->).
  rewrite Hsp in Hsp'. rewrite Ha in Ha'. rewrite Hu in Hu'.
  injection Hsp' as <-. injection Ha' as <-. injection Hu' as <-.
  assert (Hpost : Forall
            (fun c' => forall sl', find c' "speciesLink" = Some sl' ->
                       find c' "amount" <> None ->
                       get_default sl' "preferredKey" "" <> sp) cs2).
  { rewrite map_app in Hnd. apply NoDup_app in Hnd. destruct Hnd as (_ & _ & Hnd).
    cbn [map] in Hnd. apply NoDup_cons in Hnd. destruct Hnd as [Hfresh _].
    apply List.Forall_forall. intros ce' Hce' sl' Hsl' _.
    destruct (mapM_Ok_In _ _ _ _ Hcs2 Hce') as (c' & Hc' & Hshape).
    apply v2_component_shape in Hshape.
    destruct Hshape as (sp' & a' & u' & attrs' & Hsp' & _ & _ & ->).
    cbn in Hsl'. injection Hsl' as <-. cbn. intros ->.
    apply Hfresh. rewrite Hsp, <- Hsp'. apply list_elem_of_In, in_map, Hc'. }
  exact (parse_components_last to_float
           (Elem "component" [] None
              [Elem "speciesLink" (("preferredKey", sp) :: attrs) None [];
               Elem "amount" [("units", u)] (Some (num_str a)) []])
           (Elem "speciesLink" (("preferredKey", sp) :: attrs) None [])
           (Elem "amount" [("units", u)] (Some (num_str a)) [])
           cs1 cs2 comp eq_refl eq_refl Hpost Hcomp).
Qed.

(** X19. Decoding the common properties that the second encoder builds
    from a draft gives back the temperature and the pressure under the keys
    temperature and pressure, with the printed value read back and the
    units, and no such entry when the draft has none.  For components with
    pairwise distinct species the decoded composition holds, under each
    species, the printed amount read back and its units; without components
    there is no composition entry. *)
Theorem X19_v2_conditions_round_trip (draft : Draft num) (root : Element)
    (m : gmap string (Property F)) :
  V2.experiment_tree draft = Ok root ->
  parse_common_properties to_float root = Ok m ->
  let conds := get_or (conditions draft) no_conditions in
  let scalar (name : string) (q : option (Quantity num)) :=
    match q with
    | Some q =>
        match q_value q, q_units q with
        | Some v, Some u =>
            Some (Scalar {| pv_value := coerce to_float (Some (num_str v));
                            pv_units := u; pv_name := name |})
        | _, _ => None
        end
    | None => None
    end in
  m !! "temperature" = scalar "temperature" (temperature conds)
  /\ m !! "pressure" = scalar "pressure" (pressure conds)
  /\ (composition conds = None \/ composition conds = Some [] ->
      m !! "initial_composition" = None)
  /\ (forall comps,
        composition conds = Some comps -> comps <> [] ->
        NoDup (map c_species comps) ->
        exists composition,
          m !! "initial_composition" = Some (Composition composition)
          /\ forall c sp a u,
               In c comps -> c_species c = Some sp -> c_amount c = Some a ->
               c_units c = Some u ->
               exists a', amount_of to_float (Some (num_str a)) = Ok a'
                 /\ composition !! sp = Some {| amount := a'; amount_units := u |}).
Proof.
  intros Hroot Hm conds. cbv zeta.
  destruct (v2_find_common _ _ Hroot) as (common & Hcommon & Hfind).
  pose proof (parse_common_properties_Ok to_float _ _ _ Hfind Hm) as Hok.
  cbv zeta in Hok.
  apply v2_common_properties_shape in Hcommon. fold conds in Hcommon.
  destruct Hcommon as (t & p & ic & Ht & Hp & Hic & ->).
  apply v2_quantity_cases in Ht, Hp. apply v2_composition_cases in Hic.
  destruct Ht as [[-> ->] | (v & u & -> & ->)];
    destruct Hp as [[-> ->] | (pv & pu & -> & ->)];
    destruct Hic as [[-> Hnone] | (comps & cs & Hsome & Hne & Hcs & ->)];
    cbn -[parse_components] in Hok.
  all: try (subst m; repeat split; try reflexivity;
            intros comps' Hcomps' Hne' _; exfalso;
            destruct Hnone as [Hnone | Hnone]; rewrite Hnone in Hcomps';
            [discriminate | injection Hcomps' as <-; congruence]).
  all: destruct Hok as (comp & Hparse & ->).
  all: rewrite (filter_same_tag "component" cs
                  (mapM_tags _ _ _ _ v2_component_tag Hcs)) in Hparse.
  all: repeat split; try reflexivity;
    [intros [Hnone | Hnone]; rewrite Hnone in Hsome;
       [discriminate | injection Hsome as <-; congruence]
    | intros comps' Hcomps' _ Hnd; rewrite Hsome in Hcomps';
      injection Hcomps' as <-; exists comp;
      split; [apply lookup_insert_eq |];
      intros c sp a u0 Hin Hsp Ha Hu;
      exact (v2_components_decoded _ _ _ _ _ _ _ Hcs Hparse Hnd Hin Hsp Ha Hu)].
Qed.

End ConditionsRoundTrip.

(** * Adding a species *)

Section SpeciesEnrichment.

Context {num : Type} `{Number num}.

(** Every entry of the registry lists the four identifiers, in this order. *)
Lemma COMMON_SPECIES_identifiers (species : string)
    (species_info : list (string * string)) :
  assoc_get COMMON_SPECIES species = Some species_info ->
  exists cas name inchi smiles,
    species_info
    = [("CAS", cas); ("chemName", name); ("InChI", inchi); ("SMILES", smiles)].
Proof.
  unfold COMMON_SPECIES. cbn [assoc_get].
  repeat (destruct (String.eqb species _);
          [intros Hs; injection Hs as <-; repeat eexists |]).
  discriminate.
Qed.

(** X20. A component added for a species of the registry carries the four
    identifiers of the registry, and the CAS number entered is ignored; for
    any other species it carries the CAS number entered, if any, and no
    other identifier.  The first encoder writes exactly these identifiers
    after the preferred key of the species link, the second encoder only
    the CAS number. *)
Theorem X20_species_identifiers (species units cas_number : string) (amount : num)
    (entry : Component num) :
  comp_entry_v1 species amount units cas_number = Some entry ->
  let identifiers :=
    match assoc_get COMMON_SPECIES species with
    | Some species_info => species_info
    | None => if truthy cas_number then [("CAS", cas_number)] else []
    end in
  truthy species = true /\ num_gt0 amount = true
  /\ V1.component entry
     = Ok (Elem "component" [] None
             [Elem "speciesLink" (("preferredKey", species) :: identifiers) None [];
              Elem "amount" [("units", units)] (Some (num_str amount)) []])
  /\ exists entry2,
       comp_entry_v2 species amount units = Some entry2
       /\ V2.component entry2
          = Ok (Elem "component" [] None
                  [Elem "speciesLink"
                     (("preferredKey", species)
                      :: match assoc_get identifiers "CAS",
                               assoc_get COMMON_SPECIES species with
                         | Some cas, Some _ => [("CAS", cas)]
                         | _, _ => []
                         end) None [];
                   Elem "amount" [("units", units)] (Some (num_str amount)) []]).
Proof.
  unfold comp_entry_v1, comp_entry_v2. intros Hentry. cbv zeta.
  destruct (truthy species) eqn:Hs; [|discriminate].
  destruct (num_gt0 amount) eqn:Ha; [|discriminate].
  change (true && true) with true in *. cbv iota in *.
  destruct (assoc_get COMMON_SPECIES species) as [info|] eqn:Hinfo.
  - destruct (COMMON_SPECIES_identifiers _ _ Hinfo)
      as (cas & name & inchi & smiles & ->).
    apply (inj Some) in Hentry. subst entry.
    split; [reflexivity |]. split; [reflexivity |].
    split; [reflexivity |]. eexists. split; reflexivity.
  - apply (inj Some) in Hentry. subst entry.
    split; [reflexivity |]. split; [reflexivity |].
    destruct (truthy cas_number); (split; [reflexivity |]);
      eexists; split; reflexivity.
Qed.

End SpeciesEnrichment.

(** * The further properties on the samples *)

Lemma X2_witness :
  exists dgs dg df,
    parse_datagroups py_float (document [scenario_group]) = Ok dgs
    /\ In dg dgs /\ data_df dg = Some df
    /\ length (df_rows df) = 2 /\ In "Temperature (K)" (df_columns df).
Proof.
  decode_single_group (document [scenario_group]) dg Hdgs Hdg.
  assert (Hin : In dg [dg]) by now left.
  assert (Hdf : exists df, data_df dg = Some df)
    by (rewrite <- Hdg; eexists; reflexivity).
  destruct Hdf as (df & Hdf). exists [dg], dg, df.
  destruct (X2_table_columns_cover_rows py_float _ _ _ _ Hdgs Hin Hdf)
    as (Hlen & _ & Hcover).
  repeat split; try assumption.
  - rewrite Hlen, <- Hdg. reflexivity.
  - apply (Hcover [("Temperature (K)", VFloat (Finite false 300 0));
                   ("CH4 (mole_fraction)", VFloat (Finite false 1 (-1)))]);
      [rewrite <- Hdg; now left | now left | reflexivity].
Defined.


Lemma X4_witness :
  assoc_get
    (parse_datapoint py_float (build_property_map [parse_property labelled_property])
       repeated_point)
    (column_name (parse_property labelled_property))
  = Some (coerce py_float (Some "350")).
Proof.
  apply (X4_last_field_wins py_float
           (build_property_map [parse_property labelled_property]) repeated_point
           (Elem "x1" [] (Some "350") []) [Elem "x1" [] (Some "300") []] []).
  - reflexivity.
  - vm_compute. reflexivity.
  - constructor.
Defined.

Lemma X5_witness :
  exists dg,
    parse_datagroup py_float repeated_group = Ok dg
    /\ property_map dg !! get pressure_declaration "id"
       = Some (parse_property pressure_declaration)
    /\ column_name (parse_property pressure_declaration) = "P (atm)".
Proof.
  destruct (mapM_total (parse_datagroup py_float) [repeated_group]) as (dgs & Hdgs);
    [intros e; rewrite parse_datagroup_spec; eauto |].
  simpl in Hdgs. destruct (parse_datagroup py_float repeated_group) as [dg|] eqn:Hdg;
    [|discriminate].
  exists dg. split; [reflexivity |]. split; [|reflexivity].
  apply (X5_last_declaration_wins py_float repeated_group pressure_declaration
           [Elem "property" [("id", "x1"); ("name", "T"); ("units", "K")] None []]
           [] dg).
  - reflexivity.
  - constructor.
  - exact Hdg.
Defined.

Lemma X6_witness :
  exists dgs dg df,
    parse_datagroups py_float (document [scenario_group]) = Ok dgs
    /\ In dg dgs /\ data_df dg = Some df /\ NoDup (df_columns df).
Proof.
  decode_single_group (document [scenario_group]) dg Hdgs Hdg.
  assert (Hin : In dg [dg]) by now left.
  assert (Hdf : exists df, data_df dg = Some df)
    by (rewrite <- Hdg; eexists; reflexivity).
  destruct Hdf as (df & Hdf). exists [dg], dg, df.
  repeat split; try assumption.
  apply (X6_table_columns_distinct py_float _ _ _ _ Hdgs Hin Hdf).
  - rewrite <- Hdg. apply (bool_decide_unpack _). vm_compute. exact I.
  - rewrite <- Hdg. apply (bool_decide_unpack _). vm_compute. exact I.
Defined.

Lemma X7_witness :
  exists exp_data,
    parse_experiment py_float complete_document = Ok exp_data
    /\ total_points_v1 exp_data = total_points_v2 exp_data.
Proof.
  assert (Hexp : exists exp_data,
             parse_experiment py_float complete_document = Ok exp_data)
    by (vm_compute; eauto).
  destruct Hexp as (exp_data & Hexp). exists exp_data.
  split; [exact Hexp |].
  exact (X7_summary_totals_agree py_float complete_document exp_data Hexp).
Defined.

Lemma X8_witness :
  exists e,
    parse_common_properties py_float unparsable_amount_document = Raise e
    /\ e = ValueError.
Proof.
  assert (He : exists e,
             parse_common_properties py_float unparsable_amount_document = Raise e)
    by (vm_compute; eauto).
  destruct He as (e & He). exists e. split; [exact He |].
  now destruct (proj1 (X8_common_properties_failure py_float _ e) He).
Defined.

Lemma X9_witness :
  exists m,
    parse_common_properties py_float composition_document = Ok m
    /\ m !! "T"
       = Some (Scalar {| pv_value := VFloat (Finite false 300 0); pv_units := "K";
                         pv_name := "temperature" |}).
Proof.
  assert (Hm : exists m, parse_common_properties py_float composition_document = Ok m)
    by (vm_compute; eauto).
  destruct Hm as (m & Hm). exists m. split; [exact Hm |].
  apply (X9_scalar_property_value py_float composition_document
           sample_common_properties temperature_property
           (Elem "value" [] (Some "300") []) [] [sample_composition] "300" m);
    try reflexivity; try assumption.
  - repeat constructor. discriminate.
  - discriminate.
Defined.

Lemma X10_witness :
  exists m composition,
    parse_common_properties py_float composition_document = Ok m
    /\ m !! "initial_composition" = Some (Composition composition)
    /\ composition !! "CH4"
       = Some {| amount := VFloat (Finite false 3 (-1));
                 amount_units := "mole_fraction" |}.
Proof.
  assert (Hm : exists m, parse_common_properties py_float composition_document = Ok m)
    by (vm_compute; eauto).
  destruct Hm as (m & Hm).
  destruct (X10_composition_entry py_float composition_document
              sample_common_properties sample_composition
              (component_elem "CH4" (Some "0.3"))
              (Elem "speciesLink" [("preferredKey", "CH4")] None [])
              (Elem "amount" [("units", "mole_fraction")] (Some "0.3") [])
              [] [component_without_amount; component_elem "O2" None]
              (VFloat (Finite false 3 (-1))) m)
    as (composition & Hcomp & Hentry);
    try reflexivity; try assumption.
  - repeat constructor.
    + intros sl' _ Hamount. now contradiction Hamount.
    + intros sl' Hsl _. injection Hsl as <-. discriminate.
  - exists m, composition. repeat split; assumption.
Defined.

Lemma X11_witness :
  exists m composition entry c am,
    parse_common_properties py_float composition_document = Ok m
    /\ m !! "initial_composition" = Some (Composition composition)
    /\ composition !! "O2" = Some entry
    /\ In c (findall sample_composition "component")
    /\ find c "amount" = Some am
    /\ amount_of py_float (text am) = Ok (amount entry).
Proof.
  assert (Hm : exists m, parse_common_properties py_float composition_document = Ok m)
    by (vm_compute; eauto).
  destruct Hm as (m & Hm).
  destruct (parse_common_properties_Ok py_float composition_document
              sample_common_properties m eq_refl Hm) as (composition & Hparse & Hmap).
  pose proof Hparse as Hval. vm_compute in Hval. injection Hval as Hval.
  assert (Hcomp : m !! "initial_composition" = Some (Composition composition))
    by (rewrite Hmap; apply lookup_insert_eq).
  assert (Hentry : exists entry, composition !! "O2" = Some entry)
    by (rewrite <- Hval; eexists; reflexivity).
  destruct Hentry as (entry & Hentry).
  destruct (X11_composition_entries_declared py_float composition_document m
              composition "O2" entry Hm Hcomp Hentry)
    as (cp & ic & c & sl & am & Hcp & Hic & Hin & Hsl & Ham & _ & Hamount & _).
  injection Hcp as <-. injection Hic as <-.
  exists m, composition, entry, c, am. repeat split; assumption.
Defined.

Lemma X12_witness :
  exists exp_data,
    load_experiment_file py_float (Parsed complete_document) = Loaded exp_data
    /\ exp_datagroups exp_data <> [] /\ is_Some (exp_apparatus exp_data).
Proof.
  assert (Hload : exists exp_data,
             load_experiment_file py_float (Parsed complete_document) = Loaded exp_data)
    by (vm_compute; eauto).
  destruct Hload as (exp_data & Hload). exists exp_data. split; [exact Hload |].
  destruct (proj1 (X12_load_outcomes py_float (Parsed complete_document))
              exp_data Hload) as (root & _ & _ & Hgroups & Happ & _).
  split; assumption.
Defined.

Lemma X13_witness :
  exists k,
    In k ["units"; "value"; "species"; "amount"; "id"; "columns"]
    /\ V2.create_enhanced_xml (fun root => Ok (tag root)) draft_without_units
       = Raise (KeyError k).
Proof.
  destruct (X13_encoder_failures (fun root => Ok (tag root)) draft_without_units)
    as (_ & _ & Hkey & _).
  exact (Hkey eq_refl).
Defined.

Lemma X14_witness :
  (exists root, V1.experiment_tree sparse_draft = Ok root
     /\ validate_xml_structure (Parsed root) = (false, ["没有找到数据组"]))
  /\ (exists root, V2.experiment_tree (sample_draft [column_group]) = Ok root
      /\ validate_xml_structure (Parsed root) = (true, [])).
Proof.
  split; (eexists; split; [reflexivity |]).
  - now apply (proj1 (X14_encoded_tree_validation sparse_draft)).
  - now apply (proj2 (X14_encoded_tree_validation (sample_draft [column_group]))).
Defined.


Lemma X16_witness :
  exists root,
    V2.experiment_tree (sample_draft []) = Ok root
    /\ md_author (parse_metadata root) = "A. Author"
    /\ parse_apparatus root = Some {| app_kind := "PFR"; app_type := "" |}.
Proof.
  eexists. split; [reflexivity |].
  destruct (proj2 (X16_metadata_round_trip (sample_draft [])) _ eq_refl)
    as (Hmeta & _ & Happ).
  split; [rewrite Hmeta; reflexivity | rewrite Happ; reflexivity].
Defined.


(** A draft whose only column starts with an underscore: no column is
    kept, and the table has the column names of the rows. *)
Example underscore_column_table :
  exists e decoded,
    V2.data_group
      {| d_id := Some "dg1"; d_name := None; d_x_axis := None; d_y_axes := None;
         d_columns := Some ["_a"]; d_data := Some [[("_a", DNum 1%Z)]] |} = Ok e
    /\ parse_datagroup py_float e = Ok decoded
    /\ (df_columns <$> data_df decoded) = Some ["_a"].
Proof.
  eexists. eexists. split; [reflexivity |].
  split; [vm_compute; reflexivity | reflexivity].
Qed.

Lemma X18_witness :
  exists e decoded,
    V1.data_group axis_group = Ok e
    /\ parse_datagroup py_float e = Ok decoded
    /\ map column_name (properties decoded) = ["T (K)"; "CH4 (mole_fraction)"].
Proof.
  assert (He : exists e, V1.data_group axis_group = Ok e) by (eexists; reflexivity).
  destruct He as (e & He).
  assert (Hdec : exists decoded, parse_datagroup py_float e = Ok decoded)
    by (rewrite parse_datagroup_spec; eauto).
  destruct Hdec as (decoded & Hdec). exists e, decoded.
  split; [exact He |]. split; [exact Hdec |].
  destruct (X18_v1_group_columns py_float axis_group e decoded temperature_axis
              [methane_axis] He Hdec eq_refl eq_refl) as [_ Hnames].
  exact Hnames.
Defined.

Lemma X19_witness :
  exists root m composition,
    V2.experiment_tree (sample_draft []) = Ok root
    /\ parse_common_properties py_float root = Ok m
    /\ m !! "temperature"
       = Some (Scalar {| pv_value := VFloat (Finite false 300 0); pv_units := "K";
                         pv_name := "temperature" |})
    /\ m !! "initial_composition" = Some (Composition composition)
    /\ composition !! "CH4"
       = Some {| amount := VFloat (Finite false 1 0);
                 amount_units := "mole_fraction" |}.
Proof.
  assert (Hroot : exists root, V2.experiment_tree (sample_draft []) = Ok root)
    by (eexists; reflexivity).
  destruct Hroot as (root & Hroot).
  assert (Hm : exists m, parse_common_properties py_float root = Ok m).
  { pose proof Hroot as Hval. vm_compute in Hval. injection Hval as <-.
    vm_compute. eauto. }
  destruct Hm as (m & Hm).
  destruct (X19_v2_conditions_round_trip py_float (sample_draft []) root m Hroot Hm)
    as (Htemp & _ & _ & Hcomp).
  destruct (Hcomp [methane_component] eq_refl) as (composition & Hic & Hentries);
    [discriminate | apply (bool_decide_unpack _); vm_compute; exact I |].
  destruct (Hentries methane_component "CH4" 1%Z "mole_fraction")
    as (a' & Ha' & Hentry); [now left | reflexivity ..|].
  vm_compute in Ha'. injection Ha' as <-.
  exists root, m, composition. repeat split; assumption.
Defined.

Lemma X20_witness :
  exists entry,
    comp_entry_v1 "CH4" 1%Z "mole_fraction" "0-00-0" = Some entry
    /\ V1.component entry
       = Ok (Elem "component" [] None
               [Elem "speciesLink"
                  [("preferredKey", "CH4"); ("CAS", "74-82-8");
                   ("chemName", "methane"); ("InChI", "1S/CH4/h1H4");
                   ("SMILES", "C")] None [];
                Elem "amount" [("units", "mole_fraction")] (Some "1") []]).
Proof.
  assert (Hentry : exists entry,
             comp_entry_v1 "CH4" 1%Z "mole_fraction" "0-00-0" = Some entry)
    by (eexists; reflexivity).
  destruct Hentry as (entry & Hentry). exists entry. split; [exact Hentry |].
  destruct (X20_species_identifiers "CH4" "mole_fraction" "0-00-0" 1%Z entry Hentry)
    as (_ & _ & Hv1 & _).
  exact Hv1.
Defined.
